(** * IoT-frontend: dashboard helpers and the realtime cyclic sampler

    A shallow embedding of the logic of the dashboard pages:

    - [EnergyHistory]: the energy-usage history page
      ([ENERGY_THRESHOLDS], [getEnergyStatus], [ELECTRICITY_RATES],
      [calculateCost]);
    - [Reports]: the reports page's copy of [calculateCost];
    - [Realtime]: the realtime page ([fetch7Data], the cycle effect, the
      read of [last7Data[currentIndex]] and the life of the page, which
      ends when its render throws);
    - [Analysis]: the analysis page ([fetchPeakUsageData],
      [fetchLoadPatternData], [fetchAllData]).

    A JavaScript [number] is an IEEE 754 binary64 value and is modelled by
    Rocq's primitive [float], which is the same format with the same
    round-to-nearest-even arithmetic; decimal literals denote the nearest
    binary64 value in both languages.  The display index of the realtime
    page only ever holds small non-negative integers, on which binary64
    arithmetic is exact; it is modelled in [Z], with JavaScript's [%]
    (truncating remainder) as [Z.rem]. *)

From Stdlib Require Import ZArith List String Bool Lia.
From Stdlib Require Import Floats.
From Stdlib Require DecimalString.
Import ListNotations.

Set Warnings "-inexact-float,-register-all".
Open Scope string_scope.

(** ** Energy-usage history page *)

Module EnergyHistory.

Inductive Period := hourly | daily | monthly.

Record Thresholds := {
  veryLow : float;
  low : float;
  normal : float;
  high : float;
  veryHigh : float
}.

(** [ENERGY_THRESHOLDS[period]]. *)
Definition ENERGY_THRESHOLDS (period : Period) : Thresholds :=
  match period with
  | daily =>
      {| veryLow := 3; low := 8; normal := 15; high := 25; veryHigh := 25 |}
  | hourly =>
      {| veryLow := 0.1; low := 0.3; normal := 0.8; high := 1.5;
         veryHigh := 1.5 |}
  | monthly =>
      {| veryLow := 90; low := 240; normal := 450; high := 750;
         veryHigh := 750 |}
  end%float.

Record EnergyStatus := {
  status : string;
  color : string;
  description : string
}.

Definition getEnergyStatus (usage : float) (period : Period) : EnergyStatus :=
  let thresholds := ENERGY_THRESHOLDS period in
  if (usage <? veryLow thresholds)%float then
    {| status := "Very Low";
       color := "bg-green-100 text-green-800";
       description := "Konsumsi sangat hemat" |}
  else if (usage <? low thresholds)%float then
    {| status := "Low";
       color := "bg-green-100 text-green-700";
       description := "Konsumsi rendah" |}
  else if (usage <? normal thresholds)%float then
    {| status := "Normal";
       color := "bg-blue-100 text-blue-700";
       description := "Konsumsi normal" |}
  else if (usage <? high thresholds)%float then
    {| status := "High";
       color := "bg-yellow-100 text-yellow-700";
       description := "Konsumsi tinggi" |}
  else
    {| status := "Very High";
       color := "bg-red-100 text-red-700";
       description := "Konsumsi sangat tinggi" |}.

Record Rates := {
  R1_900VA : float;
  R1_1300VA : float;
  R1_2200VA : float;
  R2_3500VA : float
}.

Definition ELECTRICITY_RATES : Rates :=
  {| R1_900VA := 1444.70;
     R1_1300VA := 1444.70;
     R1_2200VA := 1444.70;
     R2_3500VA := 1699.53 |}%float.

Record Cost := { idr : float; usd : float }.

Definition calculateCost (kWh : float) : Cost :=
  let costIDR := (kWh * R1_2200VA ELECTRICITY_RATES)%float in
  let costUSD := (costIDR / 15500)%float in
  {| idr := costIDR; usd := costUSD |}.

End EnergyHistory.

(** ** Reports page *)

Module Reports.

Record Rates := {
  R1_2200VA : float;
  R2_3500VA : float
}.

Definition ELECTRICITY_RATES : Rates :=
  {| R1_2200VA := 1444.70; R2_3500VA := 1699.53 |}%float.

Definition USD_TO_IDR : float := 15500.

Definition calculateCost (kWh : float) : EnergyHistory.Cost :=
  let costIDR := (kWh * R1_2200VA ELECTRICITY_RATES)%float in
  let costUSD := (costIDR / USD_TO_IDR)%float in
  {| EnergyHistory.idr := costIDR; EnergyHistory.usd := costUSD |}.

End Reports.

(** ** Realtime page *)

Module Realtime.

Record RawPowerData := {
  id : float;
  tegangan : float;
  arus : float;
  daya_watt : float;
  energi_kwh : float;
  frekuensi : float;
  pf : float;
  created_at : string
}.

(** The parsed envelope.  [data] is [None] when the property is missing
    or [null], which the guard [json.data && ...] treats as falsy. *)
Record ApiResponse := {
  success : bool;
  data : option (list RawPowerData);
  count : float
}.

(** What [fetch] resolves to: [res.ok], [res.status] and the outcome of
    [res.json()], [None] when that promise rejects or resolves to [null],
    in which case reading [json.success] throws. *)
Record Response := {
  ok : bool;
  http_status : Z;
  json : option ApiResponse
}.

(** The outcome of [await fetch(...)]: [None] when the promise rejects
    (network error). *)
Definition FetchOutcome := option Response.

(** The three [useState] cells of [RealtimeMonitoringPage]. *)
Record State := {
  last7Data : list RawPowerData;
  currentIndex : Z;
  isLive : bool
}.

Definition initialState : State :=
  {| last7Data := []; currentIndex := 0; isLive := true |}.

Definition setLast7Data (d : list RawPowerData) (st : State) : State :=
  {| last7Data := d; currentIndex := currentIndex st; isLive := isLive st |}.

Definition setCurrentIndex (f : Z -> Z) (st : State) : State :=
  {| last7Data := last7Data st;
     currentIndex := f (currentIndex st);
     isLive := isLive st |}.

Definition setIsLive (b : bool) (st : State) : State :=
  {| last7Data := last7Data st; currentIndex := currentIndex st; isLive := b |}.

(** The [try] block of [fetch7Data]; [None] stands for a thrown
    exception, which is raised before any state cell is written. *)
Definition fetch7Data_try (r : FetchOutcome) (st : State) : option State :=
  match r with
  | None => None
  | Some res =>
      if negb (ok res) then None
      else
        match json res with
        | None => None
        | Some json =>
            match success json, data json with
            | true, Some d =>
                if (0 <? Z.of_nat (List.length d))%Z then
                  Some (setIsLive true (setLast7Data d st))
                else Some (setIsLive false st)
            | _, _ => Some (setIsLive false st)
            end
        end
  end.

(** [fetch7Data], with its [catch] handler. *)
Definition fetch7Data (r : FetchOutcome) (st : State) : State :=
  match fetch7Data_try r st with
  | Some st' => st'
  | None => setIsLive false st
  end.

(** One firing of the 3-second interval of the cycle effect.  The effect
    installs no interval while [last7Data] is empty, and is re-run with
    the new array whenever [last7Data] changes. *)
Definition cycleTick (st : State) : State :=
  if (Z.of_nat (List.length (last7Data st)) =? 0)%Z then st
  else
    setCurrentIndex
      (fun prevIndex => Z.rem (prevIndex + 1) (Z.of_nat (List.length (last7Data st))))
      st.

(** [last7Data[currentIndex]]; [None] is JavaScript's [undefined]. *)
Definition currentData (st : State) : option RawPowerData :=
  if (currentIndex st <? 0)%Z then None
  else nth_error (last7Data st) (Z.to_nat (currentIndex st)).

(** What the component renders: the loading screen while the buffer is
    empty; otherwise the dashboard, whose info badge evaluates
    [currentData.created_at] without a guard and therefore throws a
    [TypeError] when [currentData] is [undefined]. *)
Inductive View :=
| Loading
| Dashboard (current : RawPowerData) (recordNumber : Z) (total : nat) (live : bool)
| RenderTypeError.

Definition render (st : State) : View :=
  if (Z.of_nat (List.length (last7Data st)) =? 0)%Z then Loading
  else
    match currentData st with
    | Some d =>
        Dashboard d (currentIndex st + 1) (List.length (last7Data st)) (isLive st)
    | None => RenderTypeError
    end.

(** The two timers as events of a state machine.  [step] is the callback
    of the timer applied to the state cells, whether or not the component
    is still mounted; [run] therefore reaches every state the page can
    reach, and possibly more. *)
Inductive Event :=
| Refresh (r : FetchOutcome)
| AdvanceFocus.

Definition step (st : State) (ev : Event) : State :=
  match ev with
  | Refresh r => fetch7Data r st
  | AdvanceFocus => cycleTick st
  end.

Definition run (evs : list Event) (st : State) : State :=
  fold_left step evs st.

(** The life of the page.  After each state update the component is
    rendered again.  An exception thrown while it renders unmounts the
    component: the cleanups of both effects run, [clearInterval] stops
    the refresh timer and the cycle timer, and no callback runs any
    more. *)
Inductive Page :=
| Mounted (st : State)
| Unmounted.

Definition commit (st : State) : Page :=
  match render st with
  | RenderTypeError => Unmounted
  | _ => Mounted st
  end.

Definition mount : Page := commit initialState.

Definition deliver (p : Page) (ev : Event) : Page :=
  match p with
  | Mounted st => commit (step st ev)
  | Unmounted => Unmounted
  end.

Definition live (evs : list Event) (p : Page) : Page :=
  fold_left deliver evs p.

End Realtime.

(** ** Analysis page *)

Module Analysis.

(** A JavaScript value as [response.json()] and property reads produce
    it. *)
Inductive JsValue :=
| JUndefined
| JNull
| JBool (b : bool)
| JNumber (x : float)
| JString (s : string)
| JArray (items : list JsValue)
| JObject (props : list (string * JsValue)).

(** Parts of the JavaScript runtime that the page calls and that are
    taken as given: [Number] applied to a string and to an object or
    array, [parseFloat(x.toFixed(2))], and the template
    [`$${Math.round(x)}/mo`]. *)
Record Builtins := {
  StringToNumber : string -> float;
  ObjectToNumber : JsValue -> float;
  toFixed2 : float -> float;
  savingsLabel : float -> string
}.

(** The value of key [k] in a parsed object: the last binding wins. *)
Fixpoint lookup (k : string) (props : list (string * JsValue)) : option JsValue :=
  match props with
  | [] => None
  | (k', v) :: rest =>
      match lookup k rest with
      | Some v' => Some v'
      | None => if String.eqb k k' then Some v else None
      end
  end.

(** [v.k] for the property names this page reads, none of which is a
    built-in property of a string, an array, a number or a boolean.
    [None] is the [TypeError] of reading a property of [null] or
    [undefined]. *)
Definition getProp (v : JsValue) (k : string) : option JsValue :=
  match v with
  | JUndefined | JNull => None
  | JObject props =>
      match lookup k props with
      | Some x => Some x
      | None => Some JUndefined
      end
  | _ => Some JUndefined
  end.

Definition truthyNumber (x : float) : bool :=
  negb (PrimFloat.is_nan x || PrimFloat.is_zero x).

Definition truthy (v : JsValue) : bool :=
  match v with
  | JUndefined | JNull => false
  | JBool b => b
  | JNumber x => truthyNumber x
  | JString s => negb (String.eqb s "")
  | JArray _ | JObject _ => true
  end.

(** [a || b] on numbers. *)
Definition orNumber (a b : float) : float :=
  if truthyNumber a then a else b.

(** [a || b] on values. *)
Definition orValue (a b : JsValue) : JsValue :=
  if truthy a then a else b.

Inductive Date := NewDate (arg : JsValue).

Record PeakData := {
  time : JsValue;
  usage : float;
  timestamp : option Date
}.

Record LoadPatternDay := {
  day : JsValue;
  morning : float;
  afternoon : float;
  evening : float;
  total_energy : option float
}.

Definition peak (t : string) (u : float) : PeakData :=
  {| time := JString t; usage := u; timestamp := None |}.

Definition DUMMY_PEAK_DATA : list PeakData :=
  [ peak "18:11" 365;
    peak "18:12" 395;
    peak "18:13" 455;
    peak "18:13" 375;
    peak "18:14" 505;
    peak "18:14" 525;
    peak "18:14" 610 ]%float.

Definition pattern (d : string) (m a e : float) : LoadPatternDay :=
  {| day := JString d; morning := m; afternoon := a; evening := e;
     total_energy := None |}.

Definition DUMMY_LOAD_PATTERN : list LoadPatternDay :=
  [ pattern "Mon" 365 455 610;
    pattern "Tue" 395 375 525;
    pattern "Wed" 365 505 455;
    pattern "Thu" 455 610 395;
    pattern "Fri" 375 525 505;
    pattern "Sat" 505 365 610;
    pattern "Sun" 525 395 455 ]%float.

Record StatEntry (A : Type) := {
  value : A;
  entryDescription : string
}.
Arguments value {A}.
Arguments entryDescription {A}.

Record Statistics := {
  peakHours : StatEntry JsValue;
  efficiencyTrend : StatEntry string;
  savingsPotential : StatEntry string
}.

Record Response := {
  ok : bool;
  http_status : Z;
  json : option JsValue
}.

Definition FetchOutcome := option Response.

(** The [useState] cells written by the fetch code (the two hover cells
    are only written by pointer handlers). *)
Record State := {
  powerFactor : float;
  peakUsageData : list PeakData;
  loadPatternData : list LoadPatternDay;
  statistics : Statistics;
  loading : bool;
  error : option string
}.

Definition initialState : State :=
  {| powerFactor := 0.95;
     peakUsageData := DUMMY_PEAK_DATA;
     loadPatternData := DUMMY_LOAD_PATTERN;
     statistics :=
       {| peakHours :=
            {| value := JString "8PM - 10PM";
               entryDescription := "Highest consumption period" |};
          efficiencyTrend :=
            {| value := "+5%"; entryDescription := "Improvement this month" |};
          savingsPotential :=
            {| value := "$35/mo"; entryDescription := "With optimizations" |} |};
     loading := true;
     error := None |}.

Definition setPowerFactor (x : float) (st : State) : State :=
  {| powerFactor := x; peakUsageData := peakUsageData st;
     loadPatternData := loadPatternData st; statistics := statistics st;
     loading := loading st; error := error st |}.

Definition setPeakUsageData (d : list PeakData) (st : State) : State :=
  {| powerFactor := powerFactor st; peakUsageData := d;
     loadPatternData := loadPatternData st; statistics := statistics st;
     loading := loading st; error := error st |}.

Definition setLoadPatternData (d : list LoadPatternDay) (st : State) : State :=
  {| powerFactor := powerFactor st; peakUsageData := peakUsageData st;
     loadPatternData := d; statistics := statistics st;
     loading := loading st; error := error st |}.

Definition setStatistics (s : Statistics) (st : State) : State :=
  {| powerFactor := powerFactor st; peakUsageData := peakUsageData st;
     loadPatternData := loadPatternData st; statistics := s;
     loading := loading st; error := error st |}.

Definition setLoading (b : bool) (st : State) : State :=
  {| powerFactor := powerFactor st; peakUsageData := peakUsageData st;
     loadPatternData := loadPatternData st; statistics := statistics st;
     loading := b; error := error st |}.

Definition setError (e : option string) (st : State) : State :=
  {| powerFactor := powerFactor st; peakUsageData := peakUsageData st;
     loadPatternData := loadPatternData st; statistics := statistics st;
     loading := loading st; error := e |}.

(** [data.map(f)] where [f] may throw. *)
Fixpoint mapThrowing {A B : Type} (f : A -> option B) (l : list A) : option (list B) :=
  match l with
  | [] => Some []
  | x :: rest =>
      match f x with
      | None => None
      | Some y =>
          match mapThrowing f rest with
          | None => None
          | Some ys => Some (y :: ys)
          end
      end
  end.

Section WithBuiltins.

Variable js : Builtins.

(** [Number(v)]. *)
Definition Number (v : JsValue) : float :=
  match v with
  | JUndefined => nan
  | JNull => 0
  | JBool true => 1
  | JBool false => 0
  | JNumber x => x
  | JString s => StringToNumber js s
  | JArray _ | JObject _ => ObjectToNumber js v
  end%float.

Definition formatPeak (item : JsValue) : option PeakData :=
  match getProp item "time", getProp item "usage", getProp item "timestamp" with
  | Some t, Some u, Some ts =>
      Some {| time := t;
              usage := orNumber (Number u) 0;
              timestamp := if truthy ts then Some (NewDate ts) else None |}
  | _, _, _ => None
  end.

(** The [try] block of [fetchPeakUsageData]; [None] is a thrown
    exception, raised before the state cell is written. *)
Definition fetchPeakUsageData_try (r : FetchOutcome) (st : State) : option State :=
  match r with
  | None => None
  | Some response =>
      if negb (ok response) then Some (setPeakUsageData DUMMY_PEAK_DATA st)
      else
        match json response with
        | None => None
        | Some (JArray (item :: items)) =>
            match mapThrowing formatPeak (item :: items) with
            | Some formattedData => Some (setPeakUsageData formattedData st)
            | None => None
            end
        | Some _ => Some (setPeakUsageData DUMMY_PEAK_DATA st)
        end
  end.

Definition fetchPeakUsageData (r : FetchOutcome) (st : State) : State :=
  match fetchPeakUsageData_try r st with
  | Some st' => st'
  | None => setPeakUsageData DUMMY_PEAK_DATA st
  end.

Definition formatLoadPattern (item : JsValue) : option LoadPatternDay :=
  match getProp item "day", getProp item "morning", getProp item "afternoon",
        getProp item "evening", getProp item "total_energy" with
  | Some d, Some m, Some a, Some e, Some t =>
      Some {| day := d;
              morning := orNumber (Number m) 0;
              afternoon := orNumber (Number a) 0;
              evening := orNumber (Number e) 0;
              total_energy := if truthy t then Some (Number t) else None |}
  | _, _, _, _, _ => None
  end.

Definition fetchLoadPatternData_try (r : FetchOutcome) (st : State) : option State :=
  match r with
  | None => None
  | Some response =>
      if negb (ok response) then Some (setLoadPatternData DUMMY_LOAD_PATTERN st)
      else
        match json response with
        | None => None
        | Some (JArray (item :: items)) =>
            match mapThrowing formatLoadPattern (item :: items) with
            | Some formattedData => Some (setLoadPatternData formattedData st)
            | None => None
            end
        | Some _ => Some (setLoadPatternData DUMMY_LOAD_PATTERN st)
        end
  end.

Definition fetchLoadPatternData (r : FetchOutcome) (st : State) : State :=
  match fetchLoadPatternData_try r st with
  | Some st' => st'
  | None => setLoadPatternData DUMMY_LOAD_PATTERN st
  end.

Definition fetchPowerFactor_try (r : FetchOutcome) (st : State) : option State :=
  match r with
  | None => None
  | Some response =>
      if negb (ok response) then Some st
      else
        match json response with
        | None => None
        | Some data =>
            if truthy data then
              match getProp data "power_factor" with
              | None => None
              | Some p =>
                  if truthy p then
                    let pf := orNumber (Number p) 0.95 in
                    Some (setPowerFactor (toFixed2 js pf) st)
                  else Some st
              end
            else Some st
        end
  end.

Definition fetchPowerFactor (r : FetchOutcome) (st : State) : State :=
  match fetchPowerFactor_try r st with
  | Some st' => st'
  | None => st
  end.

Definition fetchStatistics_try (r : FetchOutcome) (st : State) : option State :=
  match r with
  | None => None
  | Some response =>
      if negb (ok response) then Some st
      else
        match json response with
        | None => None
        | Some data =>
            match getProp data "data" with
            | None => None
            | Some inner =>
                let statsData := orValue inner data in
                match getProp statsData "total_energy", getProp statsData "peak_hour" with
                | Some te, Some ph =>
                    let totalEnergy := orNumber (Number te) 0 in
                    Some (setStatistics
                            {| peakHours :=
                                 {| value := orValue ph (JString "6PM - 7PM");
                                    entryDescription := "Highest consumption period" |};
                               efficiencyTrend :=
                                 {| value := "+5%";
                                    entryDescription := "Improvement this month" |};
                               savingsPotential :=
                                 {| value := savingsLabel js (totalEnergy * 0.15)%float;
                                    entryDescription := "With optimizations" |} |}
                            st)
                | _, _ => None
                end
            end
        end
  end.

Definition fetchStatistics (r : FetchOutcome) (st : State) : State :=
  match fetchStatistics_try r st with
  | Some st' => st'
  | None => st
  end.

(** The four outcomes of the requests started by [fetchAllData]. *)
Record Outcomes := {
  peakOutcome : FetchOutcome;
  loadOutcome : FetchOutcome;
  powerFactorOutcome : FetchOutcome;
  statisticsOutcome : FetchOutcome
}.

(** The [try] block of [fetchAllData].  The four fetches write
    disjoint state cells with plain values, so the order in which
    their promises settle does not matter; none of them rejects. *)
Definition fetchAllData_try (o : Outcomes) (st : State) : option State :=
  let st := setLoading true st in
  let st := setError None st in
  let st := fetchPeakUsageData (peakOutcome o) st in
  let st := fetchLoadPatternData (loadOutcome o) st in
  let st := fetchPowerFactor (powerFactorOutcome o) st in
  let st := fetchStatistics (statisticsOutcome o) st in
  Some (setLoading false st).

Definition fetchAllData (o : Outcomes) (st : State) : State :=
  match fetchAllData_try o st with
  | Some st' => st'
  | None => setLoading false (setError None st)
  end.

End WithBuiltins.

End Analysis.

(** ** Alerts page *)

Module Alerts.

Record Alert := {
  id : float;
  type : string;
  severity : string;
  message : string;
  value : float;
  threshold : float;
  date : string;
  created_at : string;
  is_read : bool
}.

Record ByType := {
  high_consumption : float;
  low_power_factor : float;
  unusual_pattern : float;
  peak_usage : float
}.

Record AlertSummary := {
  total : float;
  critical : float;
  warning : float;
  info : float;
  unread : float;
  by_type : ByType
}.

(** A parsed envelope: [success] is the truthiness of [json.success] and
    [data] is [json.data]. *)
Record Envelope (A : Type) := {
  success : bool;
  data : A
}.
Arguments success {A}.
Arguments data {A}.

(** What [fetch] resolves to.  [json] is [None] when [res.json()] rejects
    or resolves to [null], so that reading [json.success] throws. *)
Record Response (A : Type) := {
  ok : bool;
  http_status : Z;
  json : option (Envelope A)
}.
Arguments ok {A}.
Arguments http_status {A}.
Arguments json {A}.

(** The outcome of [await fetch(...)]: [None] when the promise rejects. *)
Definition FetchOutcome (A : Type) := option (Response A).

(** The values of the filter buttons. *)
Inductive Filter := All | Critical | Warning | Info.

Definition filterName (f : Filter) : string :=
  match f with
  | All => "all"
  | Critical => "critical"
  | Warning => "warning"
  | Info => "info"
  end.

(** The [useState] cells of [AlertsPage].  [fetchAlerts] stores
    [json.data] as it comes: [alerts] is [None] when the stored value is
    not an array. *)
Record State := {
  alerts : option (list Alert);
  summary : option AlertSummary;
  loading : bool;
  filter : Filter
}.

Definition initialState : State :=
  {| alerts := Some []; summary := None; loading := true; filter := All |}.

Definition setAlerts (a : option (list Alert)) (st : State) : State :=
  {| alerts := a; summary := summary st; loading := loading st;
     filter := filter st |}.

Definition setSummary (s : option AlertSummary) (st : State) : State :=
  {| alerts := alerts st; summary := s; loading := loading st;
     filter := filter st |}.

Definition setLoading (b : bool) (st : State) : State :=
  {| alerts := alerts st; summary := summary st; loading := b;
     filter := filter st |}.

Definition setFilter (f : Filter) (st : State) : State :=
  {| alerts := alerts st; summary := summary st; loading := loading st;
     filter := f |}.

(** The [try] block of [fetchAlerts]; [None] is a thrown exception. *)
Definition fetchAlerts_try
    (r : FetchOutcome (option (list Alert))) (st : State) : option State :=
  match r with
  | None => None
  | Some res =>
      match json res with
      | None => None
      | Some json => if success json then Some (setAlerts (data json) st) else Some st
      end
  end.

(** [fetchAlerts], with its [catch] and [finally] handlers. *)
Definition fetchAlerts
    (r : FetchOutcome (option (list Alert))) (st : State) : State :=
  setLoading false
    match fetchAlerts_try r st with
    | Some st' => st'
    | None => st
    end.

Definition fetchSummary_try
    (r : FetchOutcome (option AlertSummary)) (st : State) : option State :=
  match r with
  | None => None
  | Some res =>
      match json res with
      | None => None
      | Some json => if success json then Some (setSummary (data json) st) else Some st
      end
  end.

Definition fetchSummary
    (r : FetchOutcome (option AlertSummary)) (st : State) : State :=
  match fetchSummary_try r st with
  | Some st' => st'
  | None => st
  end.

Definition getSeverityColor (severity : string) : string :=
  if String.eqb severity "critical" then "bg-red-100 border-red-300 text-red-800"
  else if String.eqb severity "warning" then
    "bg-yellow-100 border-yellow-300 text-yellow-800"
  else if String.eqb severity "info" then "bg-blue-100 border-blue-300 text-blue-800"
  else "bg-gray-100 border-gray-300 text-gray-800".

(** The value of an expression that may throw a [TypeError]. *)
Inductive Evaluated (A : Type) :=
| Value (a : A)
| TypeError.
Arguments Value {A}.
Arguments TypeError {A}.

(** [filteredAlerts]: the stored value itself under the filter [All],
    otherwise [alerts.filter(a => a.severity === filter)], which throws
    when [alerts] is not an array. *)
Definition filteredAlerts (st : State) : Evaluated (option (list Alert)) :=
  match filter st with
  | All => Value (alerts st)
  | f =>
      match alerts st with
      | Some l =>
          Value (Some (List.filter (fun a => String.eqb (severity a) (filterName f)) l))
      | None => TypeError
      end
  end.

End Alerts.

(** ** Reports page: data and metrics *)

Module ReportsPage.

Record MonthlyReport := {
  month : float;
  year : float;
  period : string;
  total_energy : float;
  avg_daily_energy : float;
  peak_date : option string
}.

Record CurrentMonthReport := {
  cm_month : float;
  cm_year : float;
  cm_total_energy : float;
  cm_avg_daily_energy : float;
  cm_peak_date : option string
}.

Record Statistics := {
  st_total_energy : float;
  st_avg_daily_usage : float;
  st_peak_usage : float;
  st_peak_hour : string;
  st_total_days : option float
}.

(** The [useState] cells of [ReportsPage]. *)
Record State := {
  monthlyReports : list MonthlyReport;
  currentMonth : option CurrentMonthReport;
  statistics : option Statistics;
  loading : bool;
  generatingReport : bool
}.

Definition initialState : State :=
  {| monthlyReports := []; currentMonth := None; statistics := None;
     loading := true; generatingReport := false |}.

Definition setMonthlyReports (l : list MonthlyReport) (st : State) : State :=
  {| monthlyReports := l; currentMonth := currentMonth st;
     statistics := statistics st; loading := loading st;
     generatingReport := generatingReport st |}.

Definition setCurrentMonth (c : option CurrentMonthReport) (st : State) : State :=
  {| monthlyReports := monthlyReports st; currentMonth := c;
     statistics := statistics st; loading := loading st;
     generatingReport := generatingReport st |}.

Definition setStatistics (s : option Statistics) (st : State) : State :=
  {| monthlyReports := monthlyReports st; currentMonth := currentMonth st;
     statistics := s; loading := loading st;
     generatingReport := generatingReport st |}.

Definition setLoading (b : bool) (st : State) : State :=
  {| monthlyReports := monthlyReports st; currentMonth := currentMonth st;
     statistics := statistics st; loading := b;
     generatingReport := generatingReport st |}.

(** The placeholder for the current month, from [new Date()]:
    [nowMonth] is [now.getMonth() + 1] and [nowYear] is
    [now.getFullYear()]. *)
Definition emptyCurrentMonth (nowMonth nowYear : float) : CurrentMonthReport :=
  {| cm_month := nowMonth; cm_year := nowYear; cm_total_energy := 0;
     cm_avg_daily_energy := 0; cm_peak_date := None |}.

Definition emptyStatistics : Statistics :=
  {| st_total_energy := 0; st_avg_daily_usage := 0; st_peak_usage := 0;
     st_peak_hour := "00:00"; st_total_days := Some 0%float |}.

(** The first inner [try] of [fetchData].  [data] is [None] when
    [reportsData.data] is not an array. *)
Definition fetchMonthly_try
    (r : Alerts.FetchOutcome (option (list MonthlyReport))) (st : State)
    : option State :=
  match r with
  | None => None
  | Some reportsRes =>
      if Alerts.ok reportsRes then
        match Alerts.json reportsRes with
        | None => None
        | Some reportsData =>
            match Alerts.success reportsData, Alerts.data reportsData with
            | true, Some l => Some (setMonthlyReports l st)
            | _, _ => Some (setMonthlyReports [] st)
            end
        end
      else Some (setMonthlyReports [] st)
  end.

Definition fetchMonthly
    (r : Alerts.FetchOutcome (option (list MonthlyReport))) (st : State) : State :=
  match fetchMonthly_try r st with
  | Some st' => st'
  | None => setMonthlyReports [] st
  end.

(** The second inner [try].  [data] is [None] when [currentData.data] is
    falsy. *)
Definition fetchCurrent_try (nowMonth nowYear : float)
    (r : Alerts.FetchOutcome (option CurrentMonthReport)) (st : State)
    : option State :=
  match r with
  | None => None
  | Some currentRes =>
      if Alerts.ok currentRes then
        match Alerts.json currentRes with
        | None => None
        | Some currentData =>
            match Alerts.success currentData, Alerts.data currentData with
            | true, Some c => Some (setCurrentMonth (Some c) st)
            | _, _ =>
                Some (setCurrentMonth (Some (emptyCurrentMonth nowMonth nowYear)) st)
            end
        end
      else Some (setCurrentMonth (Some (emptyCurrentMonth nowMonth nowYear)) st)
  end.

Definition fetchCurrent (nowMonth nowYear : float)
    (r : Alerts.FetchOutcome (option CurrentMonthReport)) (st : State) : State :=
  match fetchCurrent_try nowMonth nowYear r st with
  | Some st' => st'
  | None => setCurrentMonth (Some (emptyCurrentMonth nowMonth nowYear)) st
  end.

(** The third inner [try]. *)
Definition fetchStats_try
    (r : Alerts.FetchOutcome (option Statistics)) (st : State) : option State :=
  match r with
  | None => None
  | Some statsRes =>
      if Alerts.ok statsRes then
        match Alerts.json statsRes with
        | None => None
        | Some statsData =>
            match Alerts.success statsData, Alerts.data statsData with
            | true, Some s => Some (setStatistics (Some s) st)
            | _, _ => Some (setStatistics (Some emptyStatistics) st)
            end
        end
      else Some (setStatistics (Some emptyStatistics) st)
  end.

Definition fetchStats
    (r : Alerts.FetchOutcome (option Statistics)) (st : State) : State :=
  match fetchStats_try r st with
  | Some st' => st'
  | None => setStatistics (Some emptyStatistics) st
  end.

(** The outcomes of the three requests of one [fetchData], and the date
    read by [new Date()]. *)
Record Outcomes := {
  monthlyOutcome : Alerts.FetchOutcome (option (list MonthlyReport));
  currentOutcome : Alerts.FetchOutcome (option CurrentMonthReport);
  statsOutcome : Alerts.FetchOutcome (option Statistics);
  nowMonth : float;
  nowYear : float
}.

(** [fetchData]: the three requests run one after the other, each in its
    own [try]; nothing escapes to the outer [catch], which would only
    clear [loading] as well. *)
Definition fetchData (o : Outcomes) (st : State) : State :=
  let st := setLoading true st in
  let st := fetchMonthly (monthlyOutcome o) st in
  let st := fetchCurrent (nowMonth o) (nowYear o) (currentOutcome o) st in
  let st := fetchStats (statsOutcome o) st in
  setLoading false st.

Record Metrics := {
  monthlyEnergy : float;
  energyChange : float;
  estimatedCostIDR : float;
  estimatedCostUSD : float;
  efficiencyScore : float
}.

(** The month before [m]/[y], as [calculateMetrics] computes it. *)
Definition previousMonthNum (m : float) : float :=
  if (m =? 1)%float then 12%float else (m - 1)%float.

Definition previousYearNum (m y : float) : float :=
  if (m =? 1)%float then (y - 1)%float else y.

Definition calculateMetrics (st : State) : Metrics :=
  match currentMonth st with
  | None =>
      {| monthlyEnergy := 0; energyChange := 0; estimatedCostIDR := 0;
         estimatedCostUSD := 0; efficiencyScore := 0 |}
  | Some cm =>
      let monthlyEnergy := Analysis.orNumber (cm_total_energy cm) 0 in
      let energyChange :=
        if (0 <? Z.of_nat (List.length (monthlyReports st)))%Z then
          let previousMonthNum := previousMonthNum (cm_month cm) in
          let previousYearNum := previousYearNum (cm_month cm) (cm_year cm) in
          match
            List.find
              (fun r => (month r =? previousMonthNum)%float
                        && (year r =? previousYearNum)%float)
              (monthlyReports st)
          with
          | Some previousMonth =>
              if (0 <? total_energy previousMonth)%float then
                ((monthlyEnergy - total_energy previousMonth)
                 / total_energy previousMonth * 100)%float
              else 0%float
          | None => 0%float
          end
        else 0%float in
      let costs := Reports.calculateCost monthlyEnergy in
      let efficiencyScore :=
        if (0 <? Z.of_nat (List.length (monthlyReports st)))%Z then 92%float
        else 0%float in
      {| monthlyEnergy := monthlyEnergy;
         energyChange := energyChange;
         estimatedCostIDR := EnergyHistory.idr costs;
         estimatedCostUSD := EnergyHistory.usd costs;
         efficiencyScore := efficiencyScore |}
  end.

End ReportsPage.

(** ** Energy-usage history page: data *)

Module HistoryPage.

Import Analysis.

Inductive TimeFilter := Hourly | Daily | Monthly.

Record TrendData := {
  td_time : JsValue;
  td_energy : float;
  td_voltage : option float;
  td_current : option float;
  td_hour : JsValue
}.

Record DailyUsageData := {
  du_day : JsValue;
  du_usage : float;
  du_date : JsValue
}.

Record Statistics := {
  total_energy : float;
  avg_daily_usage : float;
  peak_usage : float;
  peak_hour : JsValue;
  total_days : float
}.

(** The [useState] cells of [EnergyUsageHistoryPage]; [lastUpdate] holds
    the clock reading of [new Date()]. *)
Record State := {
  activeFilter : TimeFilter;
  trendData : list TrendData;
  dailyUsageData : list DailyUsageData;
  statistics : Statistics;
  loading : bool;
  lastUpdate : Z
}.

Definition initialState (now : Z) : State :=
  {| activeFilter := Daily; trendData := []; dailyUsageData := [];
     statistics :=
       {| total_energy := 0; avg_daily_usage := 0; peak_usage := 0;
          peak_hour := JString "00:00"; total_days := 0 |};
     loading := true; lastUpdate := now |}.

Definition setTrendData (d : list TrendData) (st : State) : State :=
  {| activeFilter := activeFilter st; trendData := d;
     dailyUsageData := dailyUsageData st; statistics := statistics st;
     loading := loading st; lastUpdate := lastUpdate st |}.

Definition setDailyUsageData (d : list DailyUsageData) (st : State) : State :=
  {| activeFilter := activeFilter st; trendData := trendData st;
     dailyUsageData := d; statistics := statistics st;
     loading := loading st; lastUpdate := lastUpdate st |}.

Definition setStatistics (s : Statistics) (st : State) : State :=
  {| activeFilter := activeFilter st; trendData := trendData st;
     dailyUsageData := dailyUsageData st; statistics := s;
     loading := loading st; lastUpdate := lastUpdate st |}.

Definition setLoading (b : bool) (st : State) : State :=
  {| activeFilter := activeFilter st; trendData := trendData st;
     dailyUsageData := dailyUsageData st; statistics := statistics st;
     loading := b; lastUpdate := lastUpdate st |}.

Definition setLastUpdate (t : Z) (st : State) : State :=
  {| activeFilter := activeFilter st; trendData := trendData st;
     dailyUsageData := dailyUsageData st; statistics := statistics st;
     loading := loading st; lastUpdate := t |}.

(** [a === b] on values that are not objects; two parsed objects or
    arrays are never the same object. *)
Definition strictEquals (a b : JsValue) : bool :=
  match a, b with
  | JUndefined, JUndefined => true
  | JNull, JNull => true
  | JBool x, JBool y => Bool.eqb x y
  | JNumber x, JNumber y => (x =? y)%float
  | JString x, JString y => String.eqb x y
  | _, _ => false
  end.

(** The position of the first element of [items] that is strictly equal
    to [item], counted from [i]; [-1] when there is none. *)
Fixpoint firstIndex (item : JsValue) (items : list JsValue) (i : Z) : Z :=
  match items with
  | [] => (-1)%Z
  | x :: rest => if strictEquals x item then i else firstIndex item rest (i + 1)%Z
  end.

(** [data.indexOf(item)] for the element [item] found at position [i] of
    the parsed array [data]: an object or an array is only equal to
    itself. *)
Definition indexOf (data : list JsValue) (item : JsValue) (i : Z) : Z :=
  match item with
  | JObject _ | JArray _ => i
  | _ => firstIndex item data 0
  end.

(** [data.slice(-30)]. *)
Definition slice30 {A : Type} (data : list A) : list A :=
  skipn (List.length data - 30) data.

(** [data.map(f)] where [f] may throw and reads the index of the
    element. *)
Fixpoint mapIndexed {A B : Type} (f : Z -> A -> option B) (i : Z) (l : list A)
  : option (list B) :=
  match l with
  | [] => Some []
  | x :: rest =>
      match f i x with
      | None => None
      | Some y =>
          match mapIndexed f (i + 1)%Z rest with
          | None => None
          | Some ys => Some (y :: ys)
          end
      end
  end.

Section WithBuiltins.

Variable js : Builtins.

(** The template [`Point ${n}`]. *)
Variable pointLabel : Z -> string.

Definition fetchStatistics_try (r : FetchOutcome) (st : State) : option State :=
  match r with
  | None => None
  | Some res =>
      if negb (ok res) then Some st
      else
        match json res with
        | None => None
        | Some response =>
            match getProp response "success", getProp response "data" with
            | Some s, Some d =>
                if truthy s && truthy d then
                  match getProp d "total_energy", getProp d "avg_daily_usage",
                        getProp d "peak_usage", getProp d "peak_hour",
                        getProp d "total_days" with
                  | Some te, Some av, Some pu, Some ph, Some days =>
                      Some (setStatistics
                              {| total_energy := orNumber (Number js te) 0;
                                 avg_daily_usage := orNumber (Number js av) 0;
                                 peak_usage := orNumber (Number js pu) 0;
                                 peak_hour := orValue ph (JString "00:00");
                                 total_days := orNumber (Number js days) 0 |}
                              st)
                  | _, _, _, _, _ => None
                  end
                else Some st
            | _, _ => None
            end
        end
  end.

Definition fetchStatistics (r : FetchOutcome) (st : State) : State :=
  match fetchStatistics_try r st with
  | Some st' => st'
  | None => st
  end.

Definition formatTrend (data : list JsValue) (i : Z) (item : JsValue)
  : option TrendData :=
  match getProp item "time", getProp item "energy", getProp item "total_energy",
        getProp item "voltage", getProp item "current", getProp item "hour" with
  | Some t, Some e, Some te, Some v, Some c, Some h =>
      Some {| td_time :=
                if truthy t then t
                else JString (pointLabel (indexOf data item i + 1));
              td_energy := orNumber (Number js (orValue e te)) 0;
              td_voltage := if truthy v then Some (Number js v) else None;
              td_current := if truthy c then Some (Number js c) else None;
              td_hour := h |}
  | _, _, _, _, _, _ => None
  end.

(** The [try] block of [fetchTrendData]; [None] is a thrown exception,
    raised before any state cell is written in the block. *)
Definition fetchTrendData_try (now : Z) (r : FetchOutcome) (st : State)
  : option State :=
  match r with
  | None => None
  | Some res =>
      if negb (ok res) then Some (setTrendData [] st)
      else
        match json res with
        | None => None
        | Some response =>
            match getProp response "success", getProp response "data" with
            | Some s, Some (JArray data) =>
                if negb (truthy s) then Some (setTrendData [] st)
                else
                  match data with
                  | [] => Some (setTrendData [] st)
                  | _ :: _ =>
                      match mapIndexed (formatTrend data) 0 data with
                      | Some formattedData =>
                          Some (setLastUpdate now (setTrendData formattedData st))
                      | None => None
                      end
                  end
            | Some _, Some _ => Some (setTrendData [] st)
            | _, _ => None
            end
        end
  end.

(** [fetchTrendData], with its [catch] and [finally] handlers. *)
Definition fetchTrendData (now : Z) (r : FetchOutcome) (st : State) : State :=
  let st := setLoading true st in
  setLoading false
    match fetchTrendData_try now r st with
    | Some st' => st'
    | None => setTrendData [] st
    end.

(** [nowISO] is [new Date().toISOString()]. *)
Definition formatDaily (nowISO : string) (item : JsValue) : option DailyUsageData :=
  match getProp item "day_name", getProp item "time", getProp item "energy",
        getProp item "total_energy", getProp item "date" with
  | Some dn, Some t, Some e, Some te, Some d =>
      Some {| du_day := orValue (orValue dn t) (JString "Unknown");
              du_usage := orNumber (Number js (orValue e te)) 0;
              du_date := orValue d (JString nowISO) |}
  | _, _, _, _, _ => None
  end.

Definition fetchDailyUsage_try (nowISO : string) (r : FetchOutcome) (st : State)
  : option State :=
  match r with
  | None => None
  | Some res =>
      if negb (ok res) then Some (setDailyUsageData [] st)
      else
        match json res with
        | None => None
        | Some response =>
            match getProp response "success", getProp response "data" with
            | Some s, Some (JArray data) =>
                if negb (truthy s) then Some (setDailyUsageData [] st)
                else
                  match data with
                  | [] => Some (setDailyUsageData [] st)
                  | _ :: _ =>
                      match mapThrowing (formatDaily nowISO) (slice30 data) with
                      | Some formatted => Some (setDailyUsageData formatted st)
                      | None => None
                      end
                  end
            | Some _, Some _ => Some (setDailyUsageData [] st)
            | _, _ => None
            end
        end
  end.

Definition fetchDailyUsage (nowISO : string) (r : FetchOutcome) (st : State) : State :=
  match fetchDailyUsage_try nowISO r st with
  | Some st' => st'
  | None => setDailyUsageData [] st
  end.

End WithBuiltins.

(** The rows of the "Detailed History" table: each stored day with its
    status and its cost. *)
Definition tableRows (st : State)
  : list (DailyUsageData * EnergyHistory.EnergyStatus * EnergyHistory.Cost) :=
  List.map
    (fun item =>
       (item,
        EnergyHistory.getEnergyStatus (du_usage item) EnergyHistory.daily,
        EnergyHistory.calculateCost (du_usage item)))
    (slice30 (dailyUsageData st)).

(** The number of days announced in the heading of the table,
    [Math.min(dailyUsageData.length, 30)]. *)
Definition headingDays (st : State) : Z :=
  Z.min (Z.of_nat (List.length (dailyUsageData st))) 30.

(** The subtitle of the "Average Daily Usage" card. *)
Definition averageSubtitle (st : State) : string :=
  EnergyHistory.description
    (EnergyHistory.getEnergyStatus (avg_daily_usage (statistics st)) EnergyHistory.daily).

End HistoryPage.

(** ** Realtime page: gauges and metric cards *)

Module RealtimeCards.

Import Realtime.

(** [Math.min(a, b)]: NaN when either argument is NaN, and [-0] is
    smaller than [+0]. *)
Definition Math_min (a b : float) : float :=
  if PrimFloat.is_nan a || PrimFloat.is_nan b then nan
  else if (a <? b)%float then a
  else if (b <? a)%float then b
  else if PrimFloat.is_zero a && PrimFloat.get_sign a then a
  else b.

Definition Math_PI : float := 3.141592653589793.

(** [Number(currentData?.field)]: NaN when [currentData] is
    [undefined]. *)
Definition numberOf (field : RawPowerData -> float)
    (currentData : option RawPowerData) : float :=
  match currentData with
  | Some d => field d
  | None => nan
  end.

(** What [GaugeCard] computes from its [value] and [max] props. *)
Record Gauge := {
  safeValue : float;
  percentage : float;
  circumference : float;
  strokeDashoffset : float
}.

Definition GaugeCard (value max : float) : Gauge :=
  let safeValue := Analysis.orNumber value 0 in
  let percentage := Math_min (safeValue / max * 100)%float 100 in
  let circumference := (2 * Math_PI * 90)%float in
  let strokeDashoffset :=
    (circumference - percentage / 100 * circumference)%float in
  {| safeValue := safeValue; percentage := percentage;
     circumference := circumference; strokeDashoffset := strokeDashoffset |}.

(** The three gauges of the page. *)
Definition voltageGauge (currentData : option RawPowerData) : Gauge :=
  GaugeCard (Analysis.orNumber (numberOf tegangan currentData) 0) 250.

Definition currentGauge (currentData : option RawPowerData) : Gauge :=
  GaugeCard (Analysis.orNumber (numberOf arus currentData) 0) 10.

Definition powerGauge (currentData : option RawPowerData) : Gauge :=
  GaugeCard (Analysis.orNumber (numberOf daya_watt currentData) 0) 2000.

(** What [MetricCard] shows: the number, the status passed to it and the
    colour of the status badge. *)
Record Metric := {
  shown : float;
  status : string;
  badge : string
}.

Definition MetricCard (value : float) (status : string) : Metric :=
  {| shown := Analysis.orNumber value 0;
     status := status;
     badge :=
       if String.eqb status "Good" || String.eqb status "Stable"
          || String.eqb status "Efficient"
       then "bg-green-100 text-green-700"
       else "bg-yellow-100 text-yellow-700" |}.

Definition frequencyCard (currentData : option RawPowerData) : Metric :=
  MetricCard
    (Analysis.orNumber (numberOf frekuensi currentData) 50)
    (if (49 <=? Analysis.orNumber (numberOf frekuensi currentData) 0)%float
        && (Analysis.orNumber (numberOf frekuensi currentData) 0 <=? 51)%float
     then "Stable" else "Unstable").

Definition powerFactorCard (currentData : option RawPowerData) : Metric :=
  MetricCard
    (Analysis.orNumber (numberOf pf currentData) 0)
    (if (0.8 <? Analysis.orNumber (numberOf pf currentData) 0)%float
     then "Good" else "Poor").

Definition energyCard (currentData : option RawPowerData) : Metric :=
  MetricCard
    (Analysis.orNumber (numberOf energi_kwh currentData) 0)
    (if (Analysis.orNumber (numberOf energi_kwh currentData) 0 <? 2)%float
     then "Efficient" else "High").

End RealtimeCards.

(** ** Analysis page: status and chart geometry *)

Module AnalysisView.

Import Analysis.

Definition powerFactorStatus (powerFactor : float) : string :=
  if (0.95 <=? powerFactor)%float then "Excellent"
  else if (0.85 <=? powerFactor)%float then "Good"
  else "Fair".

(** An array index or length as a number. *)
Definition numberOfNat (n : nat) : float :=
  PrimFloat.of_uint63 (Uint63.of_Z (Z.of_nat n)).

(** The coordinates of the points of the peak-usage chart:
    [x = 40 + (i * 340 / (peakUsageData.length - 1))] and
    [y = 250 - (p.usage / 800 * 200)]. *)
Definition peakX (i length : nat) : float :=
  (40 + numberOfNat i * 340 / (numberOfNat length - 1))%float.

Definition peakY (p : PeakData) : float :=
  (250 - usage p / 800 * 200)%float.

Fixpoint peakPointsFrom (i length : nat) (data : list PeakData)
  : list (float * float) :=
  match data with
  | [] => []
  | p :: rest => (peakX i length, peakY p) :: peakPointsFrom (S i) length rest
  end.

Definition peakPoints (peakUsageData : list PeakData) : list (float * float) :=
  peakPointsFrom 0 (List.length peakUsageData) peakUsageData.

End AnalysisView.

(** * Vocabulary of the properties *)

(** ** The realtime cyclic sampler *)

Section SamplerVocabulary.

Import Realtime.
Local Open Scope Z_scope.

Definition len (st : State) : Z := Z.of_nat (List.length (last7Data st)).

(** [focusIndex] is an integer in [[0, len(buffer))]. *)
Definition inRange (st : State) : Prop := 0 <= currentIndex st < len st.

(** A response that passes every check of [fetch7Data] and delivers [d]. *)
Definition delivers (d : list RawPowerData) : FetchOutcome :=
  Some {| ok := true;
          http_status := 200;
          json := Some {| success := true;
                          data := Some d;
                          count := PrimFloat.of_uint63 (Uint63.of_Z (Z.of_nat (List.length d))) |} |}.

Definition reading (watts : float) : RawPowerData :=
  {| id := 1; tegangan := 220; arus := 1; daya_watt := watts;
     energi_kwh := 1; frekuensi := 50; pf := 0.9;
     created_at := "2025-01-01T00:00:00.000Z" |}.

(** The failing fetches: a rejected request, a non-2xx status, a body
    that is not JSON, and an envelope with [success = false] or with
    missing or empty [data]. *)
Inductive FailingFetch : FetchOutcome -> Prop :=
| NetworkError : FailingFetch None
| HttpError res : ok res = false -> FailingFetch (Some res)
| InvalidBody res : json res = None -> FailingFetch (Some res)
| NotSuccess res j :
    json res = Some j -> success j = false -> FailingFetch (Some res)
| MissingData res j :
    json res = Some j -> data j = None -> FailingFetch (Some res)
| EmptyData res j :
    json res = Some j -> data j = Some [] -> FailingFetch (Some res).


(** The invariant kept by traces that never shrink the buffer, and by
    every state that the mounted page shows. *)
Definition settled (st : State) : Prop :=
  inRange st \/ (len st = 0 /\ currentIndex st = 0).

(** A trace on which the displayed index leaves the buffer: two records
    arrive, the focus advances to the second, and the next refresh
    delivers a single record. *)
Definition shrinkingTrace : list Event :=
  [ Refresh (delivers [reading 100; reading 200]);
    AdvanceFocus;
    Refresh (delivers [reading 300]) ].

End SamplerVocabulary.

(** ** The analysis page's fallback data *)

Section AnalysisVocabulary.

Import Analysis.

(** The failing data fetches: a thrown error (the request rejects, the
    body is not JSON, or an array item is [null] so that formatting it
    throws), a non-2xx status, a body that is not an array, and an empty
    array. *)
Inductive FailingDataFetch : FetchOutcome -> Prop :=
| Rejected : FailingDataFetch None
| BadStatus res : ok res = false -> FailingDataFetch (Some res)
| BodyThrows res : json res = None -> FailingDataFetch (Some res)
| NullItem res items :
    json res = Some (JArray items) -> In JNull items ->
    FailingDataFetch (Some res)
| NotAnArray res v :
    json res = Some v -> (forall items, v <> JArray items) ->
    FailingDataFetch (Some res)
| EmptyArray res :
    json res = Some (JArray []) -> FailingDataFetch (Some res).

Definition sampleBuiltins : Builtins :=
  {| StringToNumber := fun _ => nan;
     ObjectToNumber := fun _ => nan;
     toFixed2 := fun x => x;
     savingsLabel := fun _ => "$0/mo" |}.

Definition sampleState : State :=
  setError None (setPeakUsageData [peak "09:00" 120] (setLoadPatternData [] initialState)).

Definition http500 : FetchOutcome :=
  Some {| ok := false; http_status := 500; json := None |}.

End AnalysisVocabulary.

(** ** Energy status and cost *)

Section EnergyVocabulary.

Import EnergyHistory.
Local Open Scope float_scope.

(** The table of the specification: the upper bounds of Very Low, Low,
    Normal and High, in kWh. *)
Definition specTable (period : Period) : float * float * float * float :=
  match period with
  | hourly => (0.1, 0.3, 0.8, 1.5)
  | daily => (3, 8, 15, 25)
  | monthly => (90, 240, 450, 750)
  end.

(** The rank of a status label, Very Low < Low < Normal < High < Very High. *)
Definition tierOf (s : string) : option nat :=
  if String.eqb s "Very Low" then Some 0%nat
  else if String.eqb s "Low" then Some 1%nat
  else if String.eqb s "Normal" then Some 2%nat
  else if String.eqb s "High" then Some 3%nat
  else if String.eqb s "Very High" then Some 4%nat
  else None.

Definition tier (usage : float) (period : Period) : option nat :=
  tierOf (status (getEnergyStatus usage period)).

(** [costOf] as the specification words it, for a tariff [rate] and an
    exchange rate [fxRate]. *)
Definition costOf (rate fxRate kWh : float) : Cost :=
  {| idr := kWh * rate; usd := kWh * rate / fxRate |}.

End EnergyVocabulary.

(** ** Binary64 values *)

Section Binary64Vocabulary.

Local Open Scope Z_scope.

(** The value with the exponent raised by one: twice the value, or the
    infinity of its sign when that is out of range. *)
Definition bump (x : spec_float) : spec_float :=
  match x with
  | S754_finite s m e =>
      if e + 1 <=? emax - prec then S754_finite s m (e + 1) else S754_infinity s
  | _ => x
  end.

(** The binary64 value 2. *)
Definition two : spec_float := S754_finite false 4503599627370496 (-51).

Definition notSubnormal (x : spec_float) : Prop :=
  match SFclassify prec x with
  | PSubn | NSubn => False
  | _ => True
  end.

(** [x] is a subnormal binary64 value: non-zero and of magnitude below
    [2^-1022]. *)
Definition subnormal (x : float) : bool :=
  match classify x with
  | PSubn | NSubn => true
  | _ => false
  end.

End Binary64Vocabulary.

(** ** The alerts page *)

Section AlertsVocabulary.

Import Alerts.

(** One of the three severities of the [Alert] type. *)
Definition knownSeverity (a : Alert) : Prop :=
  severity a = "critical" \/ severity a = "warning" \/ severity a = "info".

(** [shown] holds exactly the alerts of [l] whose severity is [sev]:
    each of them as often as [l] holds it, in the order of [l], and
    nothing else. *)
Inductive AlertsOfSeverity (sev : string) : list Alert -> list Alert -> Prop :=
| NoAlerts : AlertsOfSeverity sev [] []
| Shown a l shown :
    severity a = sev -> AlertsOfSeverity sev l shown ->
    AlertsOfSeverity sev (a :: l) (a :: shown)
| Hidden a l shown :
    severity a <> sev -> AlertsOfSeverity sev l shown ->
    AlertsOfSeverity sev (a :: l) shown.

(** The alerts shown under filter [f] when the array [l] is stored. *)
Definition shownUnder (f : Filter) (l : list Alert) : list Alert :=
  match f with
  | All => l
  | _ => List.filter (fun a => String.eqb (severity a) (filterName f)) l
  end.

Definition shownCount (f : Filter) (l : list Alert) : nat :=
  List.length (shownUnder f l).

Definition sampleAlert (sev : string) : Alert :=
  {| id := 1; type := "high_consumption"; severity := sev;
     message := "Konsumsi tinggi"; value := 30; threshold := 25;
     date := "2025-01-01"; created_at := "2025-01-01T00:00:00.000Z";
     is_read := false |}.

End AlertsVocabulary.

(** ** The reports page *)

Section ReportsVocabulary.

Import ReportsPage.

Definition sampleReport (m y total : float) : MonthlyReport :=
  {| month := m; year := y; period := "monthly"; total_energy := total;
     avg_daily_energy := 9; peak_date := None |}.

End ReportsVocabulary.

(** ** The energy-usage history page *)

Section HistoryVocabulary.

Import HistoryPage.

(** No numeric field of the statistics is NaN. *)
Definition numbersOnly (s : Statistics) : Prop :=
  PrimFloat.is_nan (total_energy s) = false /\
  PrimFloat.is_nan (avg_daily_usage s) = false /\
  PrimFloat.is_nan (peak_usage s) = false /\
  PrimFloat.is_nan (total_days s) = false.

(** The statistics requests of a page view, one after the other. *)
Definition fetchAllStatistics (js : Analysis.Builtins)
    (rs : list Analysis.FetchOutcome) (st : State) : State :=
  fold_left (fun st r => fetchStatistics js r st) rs st.

Definition sampleDay (usage : float) : DailyUsageData :=
  {| du_day := Analysis.JString "Senin"; du_usage := usage;
     du_date := Analysis.JString "2025-01-06" |}.

(** An array item whose properties can be read: any value but [null]
    and [undefined]. *)
Definition readable (item : Analysis.JsValue) : Prop :=
  item <> Analysis.JNull /\ item <> Analysis.JUndefined.

(** The template [`Point ${n}`] for an integer [n]. *)
Definition pointOf (n : Z) : string :=
  "Point " ++ DecimalString.NilEmpty.string_of_int (Z.to_int n).

(** A 2xx response with a success envelope around [items]. *)
Definition trendResponse (items : list Analysis.JsValue) : Analysis.FetchOutcome :=
  Some {| Analysis.ok := true; Analysis.http_status := 200;
          Analysis.json :=
            Some (Analysis.JObject
                    [("success", Analysis.JBool true);
                     ("data", Analysis.JArray items)]) |}.

(** Two trend items: one with a time and an energy, one with a total
    only. *)
Definition sampleTrendItems : list Analysis.JsValue :=
  [ Analysis.JObject
      [("time", Analysis.JString "08:00"); ("energy", Analysis.JNumber 1.5)];
    Analysis.JObject [("total_energy", Analysis.JNumber 2)] ].

End HistoryVocabulary.

(** ** The gauges of the realtime page *)

Section CardVocabulary.

Import Realtime.

Definition lowVoltageReading (volts : float) : RawPowerData :=
  {| id := 1; tegangan := volts; arus := 1; daya_watt := 100;
     energi_kwh := 1; frekuensi := 50; pf := 0.9;
     created_at := "2025-01-01T00:00:00.000Z" |}.

End CardVocabulary.

(** ** The analysis page's status and charts *)

Section AnalysisViewVocabulary.

Import Analysis.

(** The rank of a power-factor status, Fair < Good < Excellent. *)
Definition statusRank (s : string) : option nat :=
  if String.eqb s "Fair" then Some 0%nat
  else if String.eqb s "Good" then Some 1%nat
  else if String.eqb s "Excellent" then Some 2%nat
  else None.

(** The three values of a day of the load pattern are numbers. *)
Definition numericDay (d : LoadPatternDay) : Prop :=
  PrimFloat.is_nan (morning d) = false /\
  PrimFloat.is_nan (afternoon d) = false /\
  PrimFloat.is_nan (evening d) = false.

(** Both data sets are non-empty and hold numbers only. *)
Definition chartable (peak : list PeakData) (load : list LoadPatternDay) : Prop :=
  peak <> [] /\ load <> [] /\
  Forall (fun p => PrimFloat.is_nan (usage p) = false) peak /\
  Forall numericDay load.

(** [fetchAllData] run once for each element of [os]. *)
Definition fetchAllDataRepeatedly (js : Builtins) (os : list Outcomes)
    (st : State) : State :=
  fold_left (fun st o => fetchAllData js o st) os st.

End AnalysisViewVocabulary.

(** ** Requests that fail *)

Section FailingVocabulary.

(** An alerts request that stores nothing: the request rejects, the body
    does not parse to an object, or [success] is falsy. *)
Definition RequestFails {A : Type} (r : Alerts.FetchOutcome A) : Prop :=
  r = None \/
  exists res,
    r = Some res /\
    (Alerts.json res = None \/
     exists j, Alerts.json res = Some j /\ Alerts.success j = false).

(** A reports request that delivers nothing: the request rejects, the
    status is not 2xx, the body does not parse to an object, [success] is
    falsy or [data] is not of the expected kind. *)
Definition ReportFails {A : Type} (r : Alerts.FetchOutcome (option A)) : Prop :=
  r = None \/
  exists res,
    r = Some res /\
    (Alerts.ok res = false \/ Alerts.json res = None \/
     exists j,
       Alerts.json res = Some j /\
       (Alerts.success j = false \/ Alerts.data j = None)).

(** A reports request that delivers [d]: a 2xx response whose body
    parses to an envelope with a truthy [success] and the [data] [d]. *)
Definition ReportDelivers {A : Type} (r : Alerts.FetchOutcome (option A)) (d : A)
  : Prop :=
  exists res j,
    r = Some res /\ Alerts.ok res = true /\ Alerts.json res = Some j /\
    Alerts.success j = true /\ Alerts.data j = Some d.

(** A power-factor request that stores nothing: the request rejects, the
    status is not 2xx, the body does not parse, the body is falsy, or its
    [power_factor] is falsy. *)
Definition PowerFactorMissing (r : Analysis.FetchOutcome) : Prop :=
  r = None \/
  exists res,
    r = Some res /\
    (Analysis.ok res = false \/ Analysis.json res = None \/
     exists data,
       Analysis.json res = Some data /\
       (Analysis.truthy data = false \/
        exists p,
          Analysis.getProp data "power_factor" = Some p /\
          Analysis.truthy p = false)).

(** A power-factor request that delivers the truthy value [p]. *)
Definition PowerFactorDelivers (r : Analysis.FetchOutcome) (p : Analysis.JsValue)
  : Prop :=
  exists res data,
    r = Some res /\ Analysis.ok res = true /\ Analysis.json res = Some data /\
    Analysis.truthy data = true /\
    Analysis.getProp data "power_factor" = Some p /\ Analysis.truthy p = true.

(** A 2xx response whose body is [{ power_factor: p }]. *)
Definition powerFactorResponse (p : Analysis.JsValue) : Analysis.FetchOutcome :=
  Some {| Analysis.ok := true; Analysis.http_status := 200;
          Analysis.json := Some (Analysis.JObject [("power_factor", p)]) |}.

End FailingVocabulary.

(** ** Refreshes and constants *)

Section RefreshVocabulary.

Definition powerFactorReading (x : float) : Realtime.RawPowerData :=
  {| Realtime.id := 1; Realtime.tegangan := 220; Realtime.arus := 1;
     Realtime.daya_watt := 100; Realtime.energi_kwh := 1;
     Realtime.frekuensi := 50; Realtime.pf := x;
     Realtime.created_at := "2025-01-01T00:00:00.000Z" |}.

Definition energyReading (x : float) : Realtime.RawPowerData :=
  {| Realtime.id := 1; Realtime.tegangan := 220; Realtime.arus := 1;
     Realtime.daya_watt := 100; Realtime.energi_kwh := x;
     Realtime.frekuensi := 50; Realtime.pf := 0.9;
     Realtime.created_at := "2025-01-01T00:00:00.000Z" |}.

(** The parts of the analysis page's statistics that no response
    changes. *)
Definition constantTrend (s : Analysis.Statistics) : Prop :=
  Analysis.efficiencyTrend s =
    {| Analysis.value := "+5%";
       Analysis.entryDescription := "Improvement this month" |} /\
  Analysis.entryDescription (Analysis.peakHours s) = "Highest consumption period" /\
  Analysis.entryDescription (Analysis.savingsPotential s) = "With optimizations".

End RefreshVocabulary.

(** * Properties *)

(** ** The realtime cyclic sampler *)

Section Sampler.

Import Realtime.
Local Open Scope Z_scope.

(** [fetch7Data] either only clears [isLive], or installs a non-empty
    array and sets [isLive]. *)
Lemma fetch7Data_cases (r : FetchOutcome) (st : State) :
  fetch7Data r st = setIsLive false st \/
  exists x d, fetch7Data r st = setIsLive true (setLast7Data (x :: d) st).
Proof.
  unfold fetch7Data, fetch7Data_try.
  destruct r as [res|]; [|now left].
  destruct (ok res); simpl; [|now left].
  destruct (json res) as [j|]; [|now left].
  destruct (success j); [|now left].
  destruct (data j) as [[|x d]|]; simpl; [now left| |now left].
  right. now exists x, d.
Qed.

Lemma fetch7Data_currentIndex (r : FetchOutcome) (st : State) :
  currentIndex (fetch7Data r st) = currentIndex st.
Proof.
  destruct (fetch7Data_cases r st) as [E|(x & d & E)]; now rewrite E.
Qed.

Lemma fetch7Data_failing (r : FetchOutcome) (st : State) :
  FailingFetch r -> fetch7Data r st = setIsLive false st.
Proof.
  intros F; unfold fetch7Data, fetch7Data_try.
  destruct F as [|res H|res H|res j H1 H2|res j H1 H2|res j H1 H2]; trivial.
  - now rewrite H.
  - rewrite H. now destruct (ok res).
  - rewrite H1, H2. now destruct (ok res).
  - rewrite H1, H2. now destruct (ok res), (success j).
  - rewrite H1, H2. now destruct (ok res), (success j).
Qed.

Lemma fetch7Data_nonempty (r : FetchOutcome) (st : State) :
  last7Data st <> [] -> last7Data (fetch7Data r st) <> [].
Proof.
  intros H.
  destruct (fetch7Data_cases r st) as [E|(x & d & E)]; rewrite E; simpl;
    [assumption|discriminate].
Qed.

Lemma cycleTick_last7Data (st : State) :
  last7Data (cycleTick st) = last7Data st.
Proof. unfold cycleTick. now destruct (_ =? 0). Qed.

Lemma len_pos_iff (st : State) : 0 < len st <-> last7Data st <> [].
Proof.
  unfold len. destruct (last7Data st); simpl; split; intros; try lia;
    congruence.
Qed.

Lemma cycleTick_currentIndex (st : State) :
  0 < len st ->
  currentIndex (cycleTick st) = Z.rem (currentIndex st + 1) (len st).
Proof.
  intros H. unfold cycleTick. fold (len st).
  destruct (Z.eqb_spec (len st) 0); [lia|reflexivity].
Qed.

Lemma cycleTick_inRange (st : State) :
  0 <= currentIndex st -> 0 < len st -> inRange (cycleTick st).
Proof.
  intros H0 HL. unfold inRange.
  rewrite cycleTick_currentIndex by assumption.
  unfold len at 2 3. rewrite cycleTick_last7Data. fold (len st).
  rewrite Z.rem_mod_nonneg by lia.
  apply Z.mod_pos_bound; assumption.
Qed.

Lemma step_index_nonneg (st : State) (ev : Event) :
  0 <= currentIndex st -> 0 <= currentIndex (step st ev).
Proof.
  intros H. destruct ev as [r|]; simpl.
  - now rewrite fetch7Data_currentIndex.
  - destruct (Z_lt_le_dec 0 (len st)) as [HL|HL].
    + apply cycleTick_inRange; assumption.
    + unfold cycleTick. fold (len st).
      assert (E : len st = 0) by (unfold len in *; lia).
      now rewrite E.
Qed.

Lemma run_index_nonneg (evs : list Event) (st : State) :
  0 <= currentIndex st -> 0 <= currentIndex (run evs st).
Proof.
  revert st. induction evs as [|ev evs IH]; intros st H; simpl; trivial.
  apply IH, step_index_nonneg, H.
Qed.



Lemma iter_cycleTick (n : nat) (st : State) :
  inRange st ->
  Nat.iter n cycleTick st =
  setCurrentIndex (fun i => (i + Z.of_nat n) mod len st) st.
Proof.
  intros R. unfold inRange in R.
  induction n as [|n IH].
  - simpl. unfold setCurrentIndex. rewrite Z.add_0_r, Z.mod_small by lia.
    now destruct st.
  - rewrite Nat.iter_succ, IH.
    unfold cycleTick, setCurrentIndex; simpl. fold (len st).
    destruct (Z.eqb_spec (len st) 0) as [E|E]; [lia|].
    f_equal.
    rewrite Z.rem_mod_nonneg.
    + rewrite Zplus_mod_idemp_l. f_equal. lia.
    + pose proof (Z.mod_pos_bound (currentIndex st + Z.of_nat n) (len st)). lia.
    + lia.
Qed.

(** What [live] reaches while the page is mounted is what [run]
    reaches. *)
Lemma live_unmounted (evs : list Event) : live evs Unmounted = Unmounted.
Proof. induction evs as [|ev evs IH]; simpl; trivial. Qed.

Lemma commit_mounted (st st' : State) :
  commit st = Mounted st' -> st' = st /\ render st <> RenderTypeError.
Proof.
  unfold commit. destruct (render st) eqn:E; intros H;
    try (injection H as <-; split; [reflexivity|discriminate]).
  discriminate H.
Qed.

Lemma live_run (evs : list Event) (st st' : State) :
  live evs (Mounted st) = Mounted st' -> run evs st = st'.
Proof.
  revert st. induction evs as [|ev evs IH]; intros st; simpl.
  - intros H. now injection H.
  - destruct (commit (step st ev)) as [st1|] eqn:C.
    + apply commit_mounted in C as [-> _]. apply IH.
    + rewrite live_unmounted. discriminate.
Qed.

Lemma render_defined_inRange (st : State) :
  0 <= currentIndex st -> 0 < len st -> render st <> RenderTypeError -> inRange st.
Proof.
  intros H0 HL R. unfold render in R. fold (len st) in R.
  destruct (Z.eqb_spec (len st) 0) as [E|_]; [lia|].
  unfold currentData in R.
  destruct (Z.ltb_spec (currentIndex st) 0) as [L|_]; [lia|].
  destruct (nth_error (last7Data st) (Z.to_nat (currentIndex st))) eqn:N;
    [|congruence].
  assert (N' : nth_error (last7Data st) (Z.to_nat (currentIndex st)) <> None)
    by congruence.
  apply nth_error_Some in N'. unfold inRange, len. lia.
Qed.

(** Every state that the mounted page shows has its index in range, or
    an empty buffer and index 0: a state outside is never shown, because
    rendering it throws. *)
Lemma mounted_page_settled (evs : list Event) (st : State) :
  live evs mount = Mounted st -> settled st.
Proof.
  assert (G : forall evs st0 st,
             settled st0 -> live evs (Mounted st0) = Mounted st -> settled st).
  { clear evs st. induction evs as [|ev evs IH]; intros st0 st S; simpl.
    - intros H. now injection H as <-.
    - destruct (commit (step st0 ev)) as [st1|] eqn:C;
        [|rewrite live_unmounted; discriminate].
      apply commit_mounted in C as [-> R]. apply IH.
      assert (H0 : 0 <= currentIndex (step st0 ev)).
      { apply step_index_nonneg. destruct S as [S|[_ S]]; [apply S|lia]. }
      destruct (Z_lt_le_dec 0 (len (step st0 ev))) as [HL|HL].
      + left. now apply render_defined_inRange.
      + right. assert (E : len (step st0 ev) = 0) by (unfold len in *; lia).
        split; [exact E|].
        destruct S as [S|[S1 S2]].
        * exfalso. unfold inRange in S.
          assert (NE : last7Data st0 <> []) by (apply len_pos_iff; lia).
          assert (NE' : last7Data (step st0 ev) <> []).
          { destruct ev as [r|]; simpl;
              [now apply fetch7Data_nonempty|now rewrite cycleTick_last7Data]. }
          apply len_pos_iff in NE'. lia.
        * destruct ev as [r|]; simpl.
          -- now rewrite fetch7Data_currentIndex.
          -- unfold cycleTick. fold (len st0). now rewrite S1. }
  apply G. right. split; reflexivity.
Qed.

(** C1.  The code does not keep the invariant.  On [shrinkingTrace] two
    records arrive, the focus advances to the second, and a refresh then
    installs a single record.  [fetch7Data] leaves [currentIndex] at 1,
    so the index is out of range right after the refresh and
    [last7Data[currentIndex]] is [undefined].  Rendering that state
    throws at the unguarded read [currentData.created_at] and the page
    is unmounted, although the state before it rendered the second
    record; the guarded reads next to it ([currentData?.tegangan]) give
    the gauge of a reading of 0. *)
Theorem C1_shrinking_refresh_unmounts_page :
  let before :=
    run [Refresh (delivers [reading 100; reading 200]); AdvanceFocus] initialState in
  let st := run shrinkingTrace initialState in
  render before = Dashboard (reading 200) 2 2 true /\
  st = fetch7Data (delivers [reading 300]) before /\
  last7Data st = [reading 300] /\
  currentIndex st = 1 /\
  ~ inRange st /\
  currentData st = None /\
  render st = RenderTypeError /\
  live shrinkingTrace mount = Unmounted /\
  RealtimeCards.voltageGauge (currentData st) = RealtimeCards.GaugeCard 0 250.
Proof.
  cbv zeta. repeat split; try reflexivity.
  unfold inRange. vm_compute. intros [_ H]. discriminate H.
Qed.

(** C2.  A failing fetch leaves the buffer exactly as it was, sets
    [isLive] to false and changes nothing else: the whole state after
    the fetch is the state before it with [isLive] cleared. *)
Theorem C2_refresh_failure_atomic (r : FetchOutcome) (st : State) :
  FailingFetch r ->
  last7Data (fetch7Data r st) = last7Data st /\
  isLive (fetch7Data r st) = false /\
  currentIndex (fetch7Data r st) = currentIndex st /\
  fetch7Data r st = setIsLive false st.
Proof.
  intros F. rewrite (fetch7Data_failing r st F). repeat split.
Qed.

Lemma C2_refresh_failure_witness :
  last7Data (fetch7Data None (run shrinkingTrace initialState)) = [reading 300] /\
  isLive (fetch7Data None (run shrinkingTrace initialState)) = false.
Proof.
  destruct (C2_refresh_failure_atomic None (run shrinkingTrace initialState) NetworkError)
    as (H1 & H2 & _).
  split; [exact H1|exact H2].
Defined.

(** C3.  The scenario holds from the first record only.  With the
    buffer of powers 100 and 200 and the focus on the first record, the
    refresh that installs the single record of power 300 is followed by
    an advance to index [(0 + 1) % 1 = 0].  With the focus on the second
    record the same refresh leaves [currentIndex] at 1 with one record:
    the next render throws at [currentData.created_at], the page is
    unmounted and its cycle timer cleared, so that no advance follows
    and the index never becomes 0. *)
Theorem C3_shrink_at_second_record_unmounts_page :
  let first :=
    {| last7Data := [reading 100; reading 200]; currentIndex := 0; isLive := true |} in
  let second :=
    {| last7Data := [reading 100; reading 200]; currentIndex := 1; isLive := true |} in
  render first = Dashboard (reading 100) 1 2 true /\
  live [Refresh (delivers [reading 300]); AdvanceFocus] (Mounted first)
    = Mounted {| last7Data := [reading 300]; currentIndex := 0; isLive := true |} /\
  render second = Dashboard (reading 200) 2 2 true /\
  fetch7Data (delivers [reading 300]) second
    = {| last7Data := [reading 300]; currentIndex := 1; isLive := true |} /\
  render (fetch7Data (delivers [reading 300]) second) = RenderTypeError /\
  live [Refresh (delivers [reading 300])] (Mounted second) = Unmounted /\
  live [Refresh (delivers [reading 300]); AdvanceFocus] (Mounted second) = Unmounted.
Proof. cbv zeta. repeat split. Qed.

(** C4.  With a buffer of length [L >= 1] that does not change and an
    index in [[0, L)], [L] applications of [advanceFocus] bring the
    index, and the whole state, back to where it started. *)
Theorem C4_advance_cyclic (st : State) :
  1 <= len st ->
  inRange st ->
  currentIndex (Nat.iter (List.length (last7Data st)) cycleTick st) = currentIndex st /\
  Nat.iter (List.length (last7Data st)) cycleTick st = st.
Proof.
  intros HL R.
  rewrite (iter_cycleTick _ st R). fold (len st).
  assert (E : (currentIndex st + len st) mod len st = currentIndex st).
  { unfold inRange in R.
    rewrite <- (Z.mul_1_l (len st)) at 1.
    rewrite Z.mod_add by lia. apply Z.mod_small; lia. }
  unfold setCurrentIndex; simpl. rewrite E. split; [reflexivity|now destruct st].
Qed.

Lemma C4_advance_cyclic_witness :
  currentIndex
    (Nat.iter 3 cycleTick
       {| last7Data := [reading 100; reading 200; reading 300];
          currentIndex := 2; isLive := true |}) = 2.
Proof.
  refine (proj1 (C4_advance_cyclic
    {| last7Data := [reading 100; reading 200; reading 300];
       currentIndex := 2; isLive := true |} _ _)).
  - unfold len; simpl; lia.
  - unfold inRange, len; simpl; lia.
Defined.

(** C10.  A 2xx response whose envelope has [success = true] and an
    empty [data] array is handled like a failure; no refresh ever
    installs an empty buffer; and a non-empty buffer stays non-empty
    under every sequence of refreshes and advances. *)
Theorem C10_buffer_never_emptied (st : State) :
  (forall res j,
      ok res = true -> json res = Some j ->
      success j = true -> data j = Some [] ->
      fetch7Data (Some res) st = setIsLive false st) /\
  (forall r, last7Data (fetch7Data r st) = [] -> last7Data st = []) /\
  (forall evs, last7Data st <> [] -> last7Data (run evs st) <> []).
Proof.
  split; [|split].
  - intros res j _ Hj _ Hd. apply fetch7Data_failing.
    now apply EmptyData with j.
  - intros r H.
    destruct (fetch7Data_cases r st) as [E|(x & d & E)]; rewrite E in H;
      simpl in H; [assumption|discriminate].
  - intros evs. revert st.
    induction evs as [|ev evs IH]; intros st NE; simpl; [assumption|].
    apply IH. destruct ev as [r|]; simpl.
    + now apply fetch7Data_nonempty.
    + now rewrite cycleTick_last7Data.
Qed.

Lemma C10_buffer_never_emptied_witness :
  last7Data
    (run [Refresh (delivers []); AdvanceFocus; Refresh None]
         {| last7Data := [reading 100]; currentIndex := 0; isLive := true |})
  <> [].
Proof.
  apply (C10_buffer_never_emptied
           {| last7Data := [reading 100]; currentIndex := 0; isLive := true |}).
  simpl. discriminate.
Defined.

End Sampler.

(** ** The analysis page's fallback data *)

Section AnalysisFallback.

Import Analysis.

Variable js : Builtins.

Lemma mapThrowing_throws {A B : Type} (f : A -> option B) (l : list A) (x : A) :
  In x l -> f x = None -> mapThrowing f l = None.
Proof.
  induction l as [|y l IH]; simpl; [contradiction|].
  intros [->|H] E.
  - now rewrite E.
  - rewrite (IH H E). now destruct (f y).
Qed.

Ltac break_match :=
  match goal with
  | |- context [match ?t with _ => _ end] =>
      lazymatch t with
      | context [match _ with _ => _ end] => fail
      | _ => destruct t
      end
  end.

(** Each data fetch writes its own cell with a value that does not depend
    on the state it runs in. *)
Lemma fetchPeakUsageData_sets (r : FetchOutcome) :
  exists d, forall st, fetchPeakUsageData js r st = setPeakUsageData d st.
Proof.
  unfold fetchPeakUsageData, fetchPeakUsageData_try.
  repeat break_match; simpl; eexists; intros st; reflexivity.
Qed.

Lemma fetchLoadPatternData_sets (r : FetchOutcome) :
  exists d, forall st, fetchLoadPatternData js r st = setLoadPatternData d st.
Proof.
  unfold fetchLoadPatternData, fetchLoadPatternData_try.
  repeat break_match; simpl; eexists; intros st; reflexivity.
Qed.

Lemma fetchPowerFactor_sets (r : FetchOutcome) (st : State) :
  fetchPowerFactor js r st = st \/
  exists x, fetchPowerFactor js r st = setPowerFactor x st.
Proof.
  unfold fetchPowerFactor, fetchPowerFactor_try.
  repeat break_match; simpl; eauto.
Qed.

Lemma fetchStatistics_sets (r : FetchOutcome) (st : State) :
  fetchStatistics js r st = st \/
  exists x, fetchStatistics js r st = setStatistics x st.
Proof.
  unfold fetchStatistics, fetchStatistics_try.
  repeat break_match; simpl; eauto.
Qed.

Lemma fetchPeakUsageData_failing (r : FetchOutcome) (st : State) :
  FailingDataFetch r ->
  fetchPeakUsageData js r st = setPeakUsageData DUMMY_PEAK_DATA st.
Proof.
  intros F. unfold fetchPeakUsageData, fetchPeakUsageData_try.
  destruct F as [|res H|res H|res items H HI|res v H HN|res H]; trivial.
  - now rewrite H.
  - rewrite H. now destruct (ok res).
  - rewrite H. destruct (ok res); cbn [negb]; trivial.
    destruct items as [|x items]; trivial.
    now rewrite (mapThrowing_throws (formatPeak js) (x :: items) JNull HI).
  - rewrite H. destruct (ok res); simpl; trivial.
    destruct v as [| | | | |[|x items]|]; trivial.
    now destruct (HN (x :: items)).
  - rewrite H. now destruct (ok res).
Qed.

Lemma fetchLoadPatternData_failing (r : FetchOutcome) (st : State) :
  FailingDataFetch r ->
  fetchLoadPatternData js r st = setLoadPatternData DUMMY_LOAD_PATTERN st.
Proof.
  intros F. unfold fetchLoadPatternData, fetchLoadPatternData_try.
  destruct F as [|res H|res H|res items H HI|res v H HN|res H]; trivial.
  - now rewrite H.
  - rewrite H. now destruct (ok res).
  - rewrite H. destruct (ok res); cbn [negb]; trivial.
    destruct items as [|x items]; trivial.
    now rewrite (mapThrowing_throws (formatLoadPattern js) (x :: items) JNull HI).
  - rewrite H. destruct (ok res); simpl; trivial.
    destruct v as [| | | | |[|x items]|]; trivial.
    now destruct (HN (x :: items)).
  - rewrite H. now destruct (ok res).
Qed.

(** The state after [fetchAllData], cell by cell. *)
Lemma fetchAllData_cells (o : Outcomes) (st : State) :
  let st' := fetchAllData js o st in
  peakUsageData st' = peakUsageData (fetchPeakUsageData js (peakOutcome o) st) /\
  loadPatternData st' = loadPatternData (fetchLoadPatternData js (loadOutcome o) st) /\
  error st' = None /\
  loading st' = false.
Proof.
  unfold fetchAllData, fetchAllData_try.
  destruct (fetchPeakUsageData_sets (peakOutcome o)) as [d1 E1].
  destruct (fetchLoadPatternData_sets (loadOutcome o)) as [d2 E2].
  rewrite !E1, !E2.
  set (s2 := setLoadPatternData d2 _).
  destruct (fetchPowerFactor_sets (powerFactorOutcome o) s2) as [E3|[x3 E3]];
    rewrite E3;
    [set (s3 := s2)|set (s3 := setPowerFactor x3 s2)];
    (destruct (fetchStatistics_sets (statisticsOutcome o) s3) as [E4|[x4 E4]];
     rewrite E4; simpl; repeat split).
Qed.

(** C9.  When the peak-usage fetch fails, the displayed peak data set is
    [DUMMY_PEAK_DATA]; when the load-pattern fetch fails, the displayed
    load pattern is [DUMMY_LOAD_PATTERN]; this holds for each fetch on its
    own and after [fetchAllData], whatever the other three requests do.
    Neither fetch writes the error cell, and after [fetchAllData] it is
    [null]. *)
Theorem C9_dummy_data_fallback (o : Outcomes) (st : State) :
  (FailingDataFetch (peakOutcome o) ->
   peakUsageData (fetchPeakUsageData js (peakOutcome o) st) = DUMMY_PEAK_DATA /\
   peakUsageData (fetchAllData js o st) = DUMMY_PEAK_DATA) /\
  (FailingDataFetch (loadOutcome o) ->
   loadPatternData (fetchLoadPatternData js (loadOutcome o) st) = DUMMY_LOAD_PATTERN /\
   loadPatternData (fetchAllData js o st) = DUMMY_LOAD_PATTERN) /\
  error (fetchPeakUsageData js (peakOutcome o) st) = error st /\
  error (fetchLoadPatternData js (loadOutcome o) st) = error st /\
  error (fetchAllData js o st) = None.
Proof.
  destruct (fetchAllData_cells o st) as (P & L & E & _).
  split; [|split; [|split; [|split]]].
  - intros F. rewrite P, (fetchPeakUsageData_failing _ st F). now split.
  - intros F. rewrite L, (fetchLoadPatternData_failing _ st F). now split.
  - destruct (fetchPeakUsageData_sets (peakOutcome o)) as [d ->]; reflexivity.
  - destruct (fetchLoadPatternData_sets (loadOutcome o)) as [d ->]; reflexivity.
  - exact E.
Qed.

End AnalysisFallback.

Lemma C9_dummy_data_fallback_witness :
  Analysis.peakUsageData
    (Analysis.fetchAllData sampleBuiltins
       {| Analysis.peakOutcome := http500;
          Analysis.loadOutcome := None;
          Analysis.powerFactorOutcome := None;
          Analysis.statisticsOutcome := None |}
       sampleState) = Analysis.DUMMY_PEAK_DATA /\
  Analysis.loadPatternData
    (Analysis.fetchAllData sampleBuiltins
       {| Analysis.peakOutcome := http500;
          Analysis.loadOutcome := None;
          Analysis.powerFactorOutcome := None;
          Analysis.statisticsOutcome := None |}
       sampleState) = Analysis.DUMMY_LOAD_PATTERN.
Proof.
  pose proof (C9_dummy_data_fallback sampleBuiltins
    {| Analysis.peakOutcome := http500;
       Analysis.loadOutcome := None;
       Analysis.powerFactorOutcome := None;
       Analysis.statisticsOutcome := None |} sampleState) as (P & L & _).
  split.
  - apply P. simpl. apply BadStatus. reflexivity.
  - apply L. simpl. apply Rejected.
Defined.

(** ** The order of binary64 values *)

Section FloatOrder.

Lemma SFcompare_antisym (x y : spec_float) :
  SFcompare y x = option_map CompOpp (SFcompare x y).
Proof.
  destruct x as [sx|sx| |sx mx ex], y as [sy|sy| |sy my ey]; simpl; trivial;
    try (destruct sx; reflexivity); try (destruct sy; reflexivity);
    try (destruct sx, sy; reflexivity).
  change (Pos.compare_cont Eq my mx) with (Pos.compare my mx).
  change (Pos.compare_cont Eq mx my) with (Pos.compare mx my).
  rewrite (Z.compare_antisym ex ey), (Pos.compare_antisym mx my).
  destruct sx, sy; simpl; trivial; destruct (ex ?= ey)%Z; simpl; trivial;
    now rewrite CompOpp_involutive.
Qed.

Lemma SFltb_trans (x y z : spec_float) :
  SFltb x y = true -> SFltb y z = true -> SFltb x z = true.
Proof.
  unfold SFltb.
  destruct x as [sx|sx| |sx mx ex], y as [sy|sy| |sy my ey],
           z as [sz|sz| |sz mz ez]; simpl; try discriminate; trivial;
    try (destruct sx; simpl; try discriminate; trivial; fail);
    try (destruct sy; simpl; try discriminate; trivial; fail);
    try (destruct sz; simpl; try discriminate; trivial; fail);
    try (destruct sx, sy; simpl; try discriminate; trivial; fail);
    try (destruct sx, sz; simpl; try discriminate; trivial; fail);
    try (destruct sy, sz; simpl; try discriminate; trivial; fail);
    try (destruct sx, sy, sz; simpl; try discriminate; trivial; fail).
  change (Pos.compare_cont Eq mx my) with (Pos.compare mx my).
  change (Pos.compare_cont Eq my mz) with (Pos.compare my mz).
  change (Pos.compare_cont Eq mx mz) with (Pos.compare mx mz).
  destruct sx, sy, sz; simpl; try discriminate; trivial;
    destruct (Z.compare_spec ex ey), (Z.compare_spec ey ez), (Z.compare_spec ex ez);
    try lia; try discriminate; trivial;
    destruct (Pos.compare_spec mx my), (Pos.compare_spec my mz), (Pos.compare_spec mx mz);
    simpl; try lia; try discriminate; trivial.
Qed.

Lemma SFcompare_total (x y : spec_float) :
  x <> S754_nan -> y <> S754_nan -> exists c, SFcompare x y = Some c.
Proof.
  destruct x, y; simpl; try congruence; eauto.
Qed.

Lemma ltb_trans (a b c : float) :
  (a <? b)%float = true -> (b <? c)%float = true -> (a <? c)%float = true.
Proof. rewrite !ltb_spec. apply SFltb_trans. Qed.

Lemma is_nan_Prim2SF (x : float) :
  PrimFloat.is_nan x = false -> Prim2SF x <> S754_nan.
Proof.
  unfold PrimFloat.is_nan. rewrite FloatAxioms.eqb_spec. unfold SFeqb.
  intros H E. rewrite E in H. discriminate H.
Qed.

Lemma leb_negb_ltb (t u : float) :
  PrimFloat.is_nan t = false -> PrimFloat.is_nan u = false ->
  (t <=? u)%float = negb (u <? t)%float.
Proof.
  intros Ht Hu. apply is_nan_Prim2SF in Ht, Hu.
  rewrite leb_spec, ltb_spec. unfold SFleb, SFltb.
  rewrite (SFcompare_antisym (Prim2SF t) (Prim2SF u)).
  destruct (SFcompare_total _ _ Ht Hu) as [c ->]. now destruct c.
Qed.

End FloatOrder.

(** ** Rounding of binary64 products *)

Section Binary64Rounding.

Local Open Scope Z_scope.

Lemma Zdigits2_nonneg (z : Z) : 0 <= Zdigits2 z.
Proof. destruct z; simpl; lia. Qed.

Lemma shr_bump (mrs : shr_record) (e n n' : Z) :
  n = n' \/ (n <= 0 /\ n' <= 0) ->
  shr mrs (e + 1) n' = (fst (shr mrs e n), snd (shr mrs e n) + 1).
Proof.
  intros [<-|[H H']].
  - destruct n; simpl; f_equal; lia.
  - destruct n, n'; simpl; trivial; lia.
Qed.

Lemma shr_exp_lb (mrs : shr_record) (e n : Z) :
  e <= snd (shr mrs e n) /\ e + n <= snd (shr mrs e n).
Proof. destruct n; simpl; lia. Qed.

(** Rounding the same integer at the next exponent. *)
Lemma binary_round_aux_bump (s : bool) (M : positive) (E : Z) (l : location) :
  emin <= Zdigits2 (Zpos M) + E - prec ->
  binary_round_aux prec emax s (Zpos M) (E + 1) l =
  bump (binary_round_aux prec emax s (Zpos M) E l).
Proof.
  intros N. unfold binary_round_aux, shr_fexp, fexp.
  set (d := Zdigits2 (Zpos M)) in *.
  set (rec := shr_record_of_loc (Zpos M) l).
  rewrite (shr_bump rec E (Z.max (d + E - prec) emin - E)) by lia.
  pose proof (shr_exp_lb rec E (Z.max (d + E - prec) emin - E)) as [B1 B2].
  destruct (shr rec E _) as [mrs' e']. cbn [fst snd] in *.
  set (m1 := round_nearest_even _ _).
  pose proof (Zdigits2_nonneg m1) as D1.
  set (rec1 := shr_record_of_loc m1 loc_Exact).
  rewrite (shr_bump rec1 e' (Z.max (Zdigits2 m1 + e' - prec) emin - e')) by lia.
  destruct (shr rec1 e' _) as [mrs'' e'']. cbn [fst snd].
  destruct (shr_m mrs''); trivial.
  unfold bump.
  destruct (Z.leb_spec e'' (emax - prec)), (Z.leb_spec (e'' + 1) (emax - prec));
    trivial; lia.
Qed.

Lemma digits2_bounds (p : positive) :
  2 ^ (Zpos (digits2_pos p) - 1) <= Zpos p < 2 ^ Zpos (digits2_pos p).
Proof.
  induction p as [p IH|p IH|]; cbn [digits2_pos].
  - rewrite Pos2Z.inj_succ. replace (Z.succ (Zpos (digits2_pos p)) - 1)
      with (Z.succ (Zpos (digits2_pos p) - 1)) by lia.
    rewrite !Z.pow_succ_r by lia. lia.
  - rewrite Pos2Z.inj_succ. replace (Z.succ (Zpos (digits2_pos p)) - 1)
      with (Z.succ (Zpos (digits2_pos p) - 1)) by lia.
    rewrite !Z.pow_succ_r by lia. lia.
  - simpl. lia.
Qed.

Lemma Zdigits2_bounds (z : Z) :
  0 < z -> 2 ^ (Zdigits2 z - 1) <= z < 2 ^ Zdigits2 z.
Proof. destruct z as [|p|p]; try lia. intros _. apply digits2_bounds. Qed.

Lemma digits2_mul_lb (m n : positive) (a b : Z) :
  Zpos (digits2_pos m) = a -> Zpos (digits2_pos n) = b ->
  a + b - 1 <= Zpos (digits2_pos (m * n)).
Proof.
  intros Ha Hb.
  pose proof (digits2_bounds m) as [Lm _]. pose proof (digits2_bounds n) as [Ln _].
  pose proof (digits2_bounds (m * n)) as [_ U].
  rewrite Ha in Lm. rewrite Hb in Ln.
  assert (P : 2 ^ (a - 1 + (b - 1)) <= Zpos m * Zpos n).
  { rewrite Z.pow_add_r by lia.
    apply Z.mul_le_mono_nonneg; try lia; apply Z.pow_nonneg; lia. }
  rewrite Pos2Z.inj_mul in U.
  assert (Q : 2 ^ (a - 1 + (b - 1)) < 2 ^ Zpos (digits2_pos (m * n))) by lia.
  apply Z.pow_lt_mono_r_iff in Q; lia.
Qed.

Lemma shr_1_m (mrs : shr_record) :
  0 <= shr_m mrs -> shr_m (shr_1 mrs) = shr_m mrs / 2.
Proof.
  destruct mrs as [m r s]. cbn [shr_m]. intros H.
  rewrite <- Z.div2_div.
  destruct m as [|[p|p|]|p]; try lia; reflexivity.
Qed.

Lemma iter_shr_1_m (p : positive) (mrs : shr_record) :
  0 <= shr_m mrs ->
  shr_m (iter_pos shr_1 p mrs) = shr_m mrs / 2 ^ Zpos p.
Proof.
  revert mrs. induction p as [p IH|p IH|]; intros mrs H; cbn [iter_pos].
  - assert (H1 : 0 <= shr_m (shr_1 mrs))
      by (rewrite shr_1_m by assumption; apply Z.div_pos; lia).
    assert (H2 : 0 <= shr_m (iter_pos shr_1 p (shr_1 mrs)))
      by (rewrite IH by assumption; apply Z.div_pos; [lia|apply Z.pow_pos_nonneg; lia]).
    rewrite IH, IH, shr_1_m by assumption.
    rewrite !Z.div_div by (try lia; apply Z.pow_pos_nonneg; lia).
    f_equal.
    replace (Zpos p~1) with (1 + Zpos p + Zpos p) by lia.
    rewrite !Z.pow_add_r, Z.pow_1_r by lia. ring.
  - assert (H2 : 0 <= shr_m (iter_pos shr_1 p mrs))
      by (rewrite IH by assumption; apply Z.div_pos; [lia|apply Z.pow_pos_nonneg; lia]).
    rewrite IH, IH by assumption.
    rewrite !Z.div_div by (try lia; apply Z.pow_pos_nonneg; lia).
    f_equal.
    replace (Zpos p~0) with (Zpos p + Zpos p) by lia.
    rewrite Z.pow_add_r by lia. ring.
  - rewrite shr_1_m by assumption. reflexivity.
Qed.

(** Shifting a positive integer down to no fewer than one digit leaves it
    positive. *)
Lemma shr_m_pos (m e n : Z) (l : location) :
  0 < m -> n <= Zdigits2 m - 1 ->
  0 < shr_m (fst (shr (shr_record_of_loc m l) e n)).
Proof.
  intros Hm Hn.
  assert (E : shr_m (shr_record_of_loc m l) = m) by (destruct l as [|[]]; reflexivity).
  destruct n as [|p|p]; cbn [shr fst]; try (rewrite E; assumption).
  rewrite iter_shr_1_m by (rewrite E; lia). rewrite E.
  pose proof (Zdigits2_bounds m Hm) as [L _].
  apply Z.div_str_pos. split; [apply Z.pow_pos_nonneg; lia|].
  apply Z.le_trans with (2 ^ (Zdigits2 m - 1)); [|assumption].
  apply Z.pow_le_mono_r; lia.
Qed.

Lemma round_nearest_even_ge (m : Z) (l : location) :
  m <= round_nearest_even m l.
Proof.
  destruct l as [|[]]; simpl; try lia. destruct (Z.even m); lia.
Qed.

(** In the normal range, rounding a positive integer gives a finite number
    or overflows, with an exponent no smaller than the one the integer
    came with plus the digits that were dropped. *)
Lemma binary_round_aux_normal (s : bool) (M : positive) (E : Z) (l : location) :
  emin <= Zdigits2 (Zpos M) + E - prec ->
  exists m e,
    binary_round_aux prec emax s (Zpos M) E l =
      (if e <=? emax - prec then S754_finite s m e else S754_infinity s) /\
    E + (Zdigits2 (Zpos M) - prec) <= e.
Proof.
  intros N. unfold binary_round_aux, shr_fexp, fexp.
  set (d := Zdigits2 (Zpos M)) in *.
  assert (Hd : 1 <= d) by (unfold d; simpl; lia).
  replace (Z.max (d + E - prec) emin - E) with (d - prec) by lia.
  pose proof (shr_exp_lb (shr_record_of_loc (Zpos M) l) E (d - prec)) as [B1 B2].
  pose proof (shr_m_pos (Zpos M) E (d - prec) l) as P1.
  destruct (shr _ E _) as [mrs' e']. cbn [fst snd] in *.
  specialize (P1 ltac:(lia) ltac:(unfold d, prec; cbn [Zdigits2]; lia)).
  pose proof (round_nearest_even_ge (shr_m mrs') (loc_of_shr_record mrs')) as G.
  set (m1 := round_nearest_even _ _) in *.
  pose proof (shr_exp_lb (shr_record_of_loc m1 loc_Exact) e'
                (Z.max (Zdigits2 m1 + e' - prec) emin - e')) as [C1 C2].
  pose proof (shr_m_pos m1 e' (Z.max (Zdigits2 m1 + e' - prec) emin - e') loc_Exact) as P2.
  destruct (shr _ e' _) as [mrs'' e'']. cbn [fst snd] in *.
  specialize (P2 ltac:(lia)).
  assert (D1 : 1 <= Zdigits2 m1) by (destruct m1; simpl; lia).
  assert (D2 : 1 <= prec) by (unfold prec; lia).
  specialize (P2 ltac:(lia)).
  destruct (shr_m mrs'') as [|m|m]; try lia.
  exists m, e''. split; [reflexivity|lia].
Qed.

Lemma double_finite (s : bool) (m : positive) (e : Z) :
  Zpos (digits2_pos m) = prec -> emin <= e ->
  SF64mul two (S754_finite s m e) = bump (S754_finite s m e).
Proof.
  intros D L. unfold prec in D. injection D as D.
  unfold SF64mul, two, SFmul, binary_round_aux, shr_fexp, fexp.
  cbn [xorb Pos.mul Zdigits2 digits2_pos]. rewrite D.
  cbn [Pos.succ].
  replace (Z.max (105 + (-51 + e) - prec) emin - (-51 + e)) with 52
    by (unfold prec in *; lia).
  cbn [shr shr_record_of_loc iter_pos shr_1 orb shr_m loc_of_shr_record
       round_nearest_even Zdigits2].
  rewrite D.
  replace (Z.max (53 + (-51 + e + 52) - prec) emin - (-51 + e + 52)) with 0
    by (unfold prec in *; lia).
  cbn [shr shr_m bump].
  replace (-51 + e + 52) with (e + 1) by lia. reflexivity.
Qed.

Lemma valid_finite_bounds (s : bool) (m : positive) (e : Z) :
  valid_binary (S754_finite s m e) = true ->
  Z.max (Zpos (digits2_pos m) + e - prec) emin = e /\ e <= emax - prec.
Proof.
  unfold valid_binary, bounded, canonical_mantissa, fexp.
  intros H. apply andb_true_iff in H as [H1 H2].
  apply Z.eqb_eq in H1. apply Z.leb_le in H2. split; assumption.
Qed.

Lemma notSubnormal_finite (s : bool) (m : positive) (e : Z) :
  notSubnormal (S754_finite s m e) -> Zpos (digits2_pos m) = prec.
Proof.
  unfold notSubnormal, SFclassify.
  destruct (Z.eqb_spec (Zpos (digits2_pos m)) prec); [trivial|].
  now destruct s.
Qed.

(** Doubling a binary64 value that is not subnormal adds one to its
    exponent, or overflows. *)
Lemma double_bump (x : spec_float) :
  valid_binary x = true -> notSubnormal x ->
  SF64mul two x = bump x.
Proof.
  intros V N. destruct x as [s|s| |s m e]; try reflexivity.
  apply double_finite.
  - now apply notSubnormal_finite in N.
  - apply valid_finite_bounds in V. lia.
Qed.

(** Doubling commutes with a multiplication by a factor of magnitude at
    least 2: neither product can fall into the subnormal range. *)
Lemma mul_double_SF (x : spec_float) (sr : bool) (mr : positive) (er : Z) :
  valid_binary x = true -> notSubnormal x ->
  Zpos (digits2_pos mr) = prec -> -51 <= er ->
  valid_binary (SF64mul x (S754_finite sr mr er)) = true ->
  SF64mul (SF64mul two x) (S754_finite sr mr er) =
  SF64mul two (SF64mul x (S754_finite sr mr er)).
Proof.
  intros V N Dr Er VA. rewrite (double_bump x V N).
  destruct x as [s|s| |s m e]; try reflexivity.
  pose proof (notSubnormal_finite _ _ _ N) as D.
  pose proof (valid_finite_bounds _ _ _ V) as [C B].
  assert (Le : emin <= e) by lia.
  pose proof (digits2_mul_lb m mr _ _ D Dr) as DM.
  assert (NC : emin <= Zdigits2 (Zpos (m * mr)) + (e + er) - prec)
    by (cbn [Zdigits2]; unfold prec in *; lia).
  destruct (binary_round_aux_normal (xorb s sr) (m * mr) (e + er) loc_Exact NC)
    as (mA & eA & EA & LA).
  cbn [Zdigits2] in LA.
  assert (HA : SF64mul (S754_finite s m e) (S754_finite sr mr er) =
               binary_round_aux prec emax (xorb s sr) (Zpos (m * mr)) (e + er) loc_Exact)
    by reflexivity.
  rewrite HA in *. unfold bump at 1.
  destruct (Z.leb_spec (e + 1) (emax - prec)) as [Hs|Hs].
  - change (SF64mul (S754_finite s m (e + 1)) (S754_finite sr mr er))
      with (binary_round_aux prec emax (xorb s sr) (Zpos (m * mr)) (e + 1 + er) loc_Exact).
    replace (e + 1 + er) with (e + er + 1) by lia.
    rewrite binary_round_aux_bump by assumption.
    rewrite EA in *.
    destruct (Z.leb_spec eA (emax - prec)) as [Hf|Hf]; [|reflexivity].
    symmetry. apply double_finite.
    + apply valid_finite_bounds in VA as [CA _]. unfold prec in *. lia.
    + unfold prec in *. lia.
  - rewrite EA.
    destruct (Z.leb_spec eA (emax - prec)) as [Hf|Hf];
      [unfold prec, emax in *; lia|reflexivity].
Qed.

Lemma Prim2SF_inj (x y : float) : Prim2SF x = Prim2SF y -> x = y.
Proof.
  intros H. rewrite <- (SF2Prim_Prim2SF x), <- (SF2Prim_Prim2SF y). now rewrite H.
Qed.

Lemma mul_double (k r : float) (sr : bool) (mr : positive) (er : Z) :
  Prim2SF r = S754_finite sr mr er ->
  Zpos (digits2_pos mr) = prec -> -51 <= er ->
  subnormal k = false ->
  (2 * k * r = 2 * (k * r))%float.
Proof.
  intros Hr Dr Er Hk. apply Prim2SF_inj.
  rewrite !mul_spec, Hr.
  change (Prim2SF 2) with two.
  apply mul_double_SF; trivial.
  - apply Prim2SF_valid.
  - unfold subnormal in Hk. rewrite classify_spec in Hk. unfold notSubnormal.
    unfold SF64classify in Hk. now destruct (SFclassify prec (Prim2SF k)).
  - rewrite <- Hr, <- mul_spec. apply Prim2SF_valid.
Qed.

End Binary64Rounding.

(** ** Energy status and cost *)

Section EnergyStatusFacts.

Import EnergyHistory.
Local Open Scope float_scope.

Lemma thresholds_table (period : Period) :
  let '(a, b, c, d) := specTable period in
  veryLow (ENERGY_THRESHOLDS period) = a /\
  low (ENERGY_THRESHOLDS period) = b /\
  normal (ENERGY_THRESHOLDS period) = c /\
  high (ENERGY_THRESHOLDS period) = d /\
  veryHigh (ENERGY_THRESHOLDS period) = d.
Proof. destruct period; repeat split. Qed.

Lemma thresholds_ascending (period : Period) :
  let '(a, b, c, d) := specTable period in
  (a <? b) = true /\ (b <? c) = true /\ (c <? d) = true /\
  PrimFloat.is_nan a = false /\ PrimFloat.is_nan b = false /\
  PrimFloat.is_nan c = false /\ PrimFloat.is_nan d = false.
Proof. destruct period; repeat split. Qed.

(** The first threshold that [usage] is below decides the status. *)
Lemma getEnergyStatus_ladder (usage : float) (period : Period) :
  let '(a, b, c, d) := specTable period in
  status (getEnergyStatus usage period) =
  if usage <? a then "Very Low"%string
  else if usage <? b then "Low"%string
  else if usage <? c then "Normal"%string
  else if usage <? d then "High"%string
  else "Very High"%string.
Proof.
  unfold getEnergyStatus.
  destruct period; simpl;
    repeat match goal with |- context [?x <? ?y] => destruct (x <? y) end;
    reflexivity.
Qed.

(** C5.  [getEnergyStatus] uses exactly the thresholds of the table, which
    ascend; the status is decided by the first threshold the usage is
    below, and is Very High when it is below none; for a usage that is a
    number this makes the status Very Low below the first threshold, Low,
    Normal and High on the half-open intervals between consecutive
    thresholds (lower bound included, upper bound excluded) and Very High
    from the last threshold upwards; 7.9 kWh a day is Low and 8.0 kWh a
    day is Normal. *)
Theorem C5_classify_buckets (period : Period) (usage : float) :
  let '(a, b, c, d) := specTable period in
  let s := status (getEnergyStatus usage period) in
  (veryLow (ENERGY_THRESHOLDS period) = a /\
   low (ENERGY_THRESHOLDS period) = b /\
   normal (ENERGY_THRESHOLDS period) = c /\
   high (ENERGY_THRESHOLDS period) = d /\
   veryHigh (ENERGY_THRESHOLDS period) = d) /\
  ((a <? b) = true /\ (b <? c) = true /\ (c <? d) = true) /\
  ((s = "Very Low"%string <-> (usage <? a) = true) /\
   (s = "Low"%string <-> (usage <? a) = false /\ (usage <? b) = true) /\
   (s = "Normal"%string <-> (usage <? b) = false /\ (usage <? c) = true) /\
   (s = "High"%string <-> (usage <? c) = false /\ (usage <? d) = true) /\
   (s = "Very High"%string <-> (usage <? d) = false)) /\
  (PrimFloat.is_nan usage = false ->
   (s = "Very Low"%string <-> (usage <? a) = true) /\
   (s = "Low"%string <-> (a <=? usage) = true /\ (usage <? b) = true) /\
   (s = "Normal"%string <-> (b <=? usage) = true /\ (usage <? c) = true) /\
   (s = "High"%string <-> (c <=? usage) = true /\ (usage <? d) = true) /\
   (s = "Very High"%string <-> (d <=? usage) = true)) /\
  status (getEnergyStatus 7.9 daily) = "Low"%string /\
  status (getEnergyStatus 8.0 daily) = "Normal"%string.
Proof.
  pose proof (thresholds_table period) as T.
  pose proof (thresholds_ascending period) as A.
  pose proof (getEnergyStatus_ladder usage period) as L.
  destruct (specTable period) as [[[a b] c] d].
  destruct A as (Hab & Hbc & Hcd & Na & Nb & Nc & Nd).
  split; [exact T|]. split; [auto|].
  cbv zeta. rewrite L.
  assert (Jab : (usage <? a) = true -> (usage <? b) = true)
    by (intros H; exact (ltb_trans _ _ _ H Hab)).
  assert (Jbc : (usage <? b) = true -> (usage <? c) = true)
    by (intros H; exact (ltb_trans _ _ _ H Hbc)).
  assert (Jcd : (usage <? c) = true -> (usage <? d) = true)
    by (intros H; exact (ltb_trans _ _ _ H Hcd)).
  assert (K :
    ((if usage <? a then "Very Low"%string
      else if usage <? b then "Low"%string
      else if usage <? c then "Normal"%string
      else if usage <? d then "High"%string else "Very High"%string)
       = "Very Low"%string <-> (usage <? a) = true) /\
    ((if usage <? a then "Very Low"%string
      else if usage <? b then "Low"%string
      else if usage <? c then "Normal"%string
      else if usage <? d then "High"%string else "Very High"%string)
       = "Low"%string <-> (usage <? a) = false /\ (usage <? b) = true) /\
    ((if usage <? a then "Very Low"%string
      else if usage <? b then "Low"%string
      else if usage <? c then "Normal"%string
      else if usage <? d then "High"%string else "Very High"%string)
       = "Normal"%string <-> (usage <? b) = false /\ (usage <? c) = true) /\
    ((if usage <? a then "Very Low"%string
      else if usage <? b then "Low"%string
      else if usage <? c then "Normal"%string
      else if usage <? d then "High"%string else "Very High"%string)
       = "High"%string <-> (usage <? c) = false /\ (usage <? d) = true) /\
    ((if usage <? a then "Very Low"%string
      else if usage <? b then "Low"%string
      else if usage <? c then "Normal"%string
      else if usage <? d then "High"%string else "Very High"%string)
       = "Very High"%string <-> (usage <? d) = false)).
  { destruct (usage <? a), (usage <? b), (usage <? c), (usage <? d);
      simpl; repeat split; intros;
      repeat match goal with
             | H : _ /\ _ |- _ => destruct H
             | H : true = true -> _ |- _ => specialize (H eq_refl)
             end;
      try reflexivity; try discriminate; try congruence. }
  split; [exact K|]. split; [|split; reflexivity].
  intros Nu. rewrite !leb_negb_ltb by assumption.
  destruct K as (K1 & K2 & K3 & K4 & K5).
  rewrite K1, K2, K3, K4, K5.
  destruct (usage <? a), (usage <? b), (usage <? c), (usage <? d);
    simpl; repeat split; intros;
    repeat match goal with
           | H : _ /\ _ |- _ => destruct H
           end;
    try reflexivity; try discriminate; try congruence.
Qed.

Lemma C5_classify_buckets_witness :
  status (getEnergyStatus 0.5 hourly) = "Normal"%string <->
  (0.3 <=? 0.5) = true /\ (0.5 <? 0.8) = true.
Proof.
  pose proof (C5_classify_buckets hourly 0.5) as H. simpl in H.
  destruct H as (_ & _ & _ & H & _).
  destruct (H eq_refl) as (_ & _ & N & _). exact N.
Defined.

(** C6.  For a fixed period, a smaller usage never gets a higher tier. *)
Theorem C6_classify_monotonic (period : Period) (usage1 usage2 : float) :
  (usage1 <? usage2) = true ->
  exists t1 t2 : nat,
    tier usage1 period = Some t1 /\
    tier usage2 period = Some t2 /\
    (t1 <= t2)%nat.
Proof.
  intros H. unfold tier.
  pose proof (getEnergyStatus_ladder usage1 period) as L1.
  pose proof (getEnergyStatus_ladder usage2 period) as L2.
  destruct (specTable period) as [[[a b] c] d].
  rewrite L1, L2.
  assert (J : forall t, (usage2 <? t) = true -> (usage1 <? t) = true)
    by (intros t Ht; exact (ltb_trans _ _ _ H Ht)).
  pose proof (J a) as Ja. pose proof (J b) as Jb.
  pose proof (J c) as Jc. pose proof (J d) as Jd.
  destruct (usage2 <? a), (usage2 <? b), (usage2 <? c), (usage2 <? d);
    repeat match goal with
           | K : true = true -> _ |- _ => rewrite (K eq_refl)
           end;
    destruct (usage1 <? a), (usage1 <? b), (usage1 <? c), (usage1 <? d);
    simpl; do 2 eexists; (split; [reflexivity|split; [reflexivity|lia]]).
Qed.

Lemma C6_classify_monotonic_witness :
  exists t1 t2 : nat,
    tier 7.9 daily = Some t1 /\ tier 26 daily = Some t2 /\ (t1 <= t2)%nat.
Proof. apply (C6_classify_monotonic daily 7.9 26). reflexivity. Defined.

(** C7.  Both copies of [calculateCost] multiply the kWh by the R1 2200 VA
    tariff of 1444.70 Rp/kWh and divide the result by 15500 Rp/USD, with
    no other operation on either amount. *)
Theorem C7_calculateCost_definition (kWh : float) :
  R1_2200VA ELECTRICITY_RATES = 1444.70 /\
  Reports.R1_2200VA Reports.ELECTRICITY_RATES = 1444.70 /\
  Reports.USD_TO_IDR = 15500 /\
  idr (calculateCost kWh) = kWh * 1444.70 /\
  usd (calculateCost kWh) = idr (calculateCost kWh) / 15500 /\
  calculateCost kWh = costOf 1444.70 15500 kWh /\
  Reports.calculateCost kWh = calculateCost kWh.
Proof. repeat split. Qed.

(** C8, as stated, fails: for the smallest positive binary64 value
    [5e-324] the cost of twice the input is 2889 units of [2^-1074] Rp and
    twice the cost of the input is 2890 units, because the product with
    the tariff is rounded to a whole number of units in the subnormal
    range. *)
Lemma C8_linearity_fails_on_subnormal :
  ~ (calculateCost 0 = {| idr := 0; usd := 0 |} /\
     forall k : float,
       idr (calculateCost (2 * k)) = 2 * idr (calculateCost k)).
Proof.
  intros [_ H]. specialize (H 5e-324).
  assert (E : (idr (calculateCost (2 * 5e-324)) =?
               2 * idr (calculateCost 5e-324)) = false) by reflexivity.
  rewrite H in E. vm_compute in E. discriminate E.
Qed.

(** C8 (amended).  [calculateCost 0] is [{idr: 0, usd: 0}], and for every
    input that is not a subnormal binary64 value (zero, a value of
    magnitude at least [2^-1022], an infinity or NaN) the local-currency
    cost of twice the input is twice the local-currency cost of the
    input. *)
Theorem C8_cost_zero_and_doubling (k : float) :
  calculateCost 0 = {| idr := 0; usd := 0 |} /\
  (subnormal k = false ->
   idr (calculateCost (2 * k)) = 2 * idr (calculateCost k)).
Proof.
  split; [reflexivity|]. intros N.
  unfold calculateCost; cbn [idr R1_2200VA ELECTRICITY_RATES].
  apply (mul_double k 1444.70 false 6353857794591949 (-42));
    [reflexivity|reflexivity|lia|exact N].
Qed.

Lemma C8_cost_zero_and_doubling_witness :
  idr (calculateCost (2 * 7.9)) = 2 * idr (calculateCost 7.9).
Proof. apply (C8_cost_zero_and_doubling 7.9). reflexivity. Defined.

(** A usage that is not a number is below no threshold and falls through
    to the last branch. *)
Lemma getEnergyStatus_nan (period : Period) :
  status (getEnergyStatus nan period) = "Very High"%string.
Proof. now destruct period. Qed.

End EnergyStatusFacts.

(** * Further properties of the pages *)

(** Case analysis on the innermost scrutinee of the goal. *)
Ltac split_innermost :=
  match goal with
  | |- context [match ?t with _ => _ end] =>
      lazymatch t with
      | context [match _ with _ => _ end] => fail
      | _ => destruct t
      end
  end.

(** ** More on the realtime sampler *)

Section SamplerMore.

Import Realtime.
Local Open Scope Z_scope.

(** Every outcome of a fetch is either failing or delivers a non-empty
    array. *)
Lemma fetch_outcome_cases (r : FetchOutcome) :
  FailingFetch r \/
  exists res j x d,
    r = Some res /\ ok res = true /\ json res = Some j /\
    success j = true /\ data j = Some (x :: d).
Proof.
  destruct r as [res|]; [|left; constructor].
  destruct (ok res) eqn:Hok; [|left; now apply HttpError].
  destruct (json res) as [j|] eqn:Hj; [|left; now apply InvalidBody].
  destruct (success j) eqn:Hs; [|left; now apply NotSuccess with j].
  destruct (data j) as [[|x d]|] eqn:Hd.
  - left; now apply EmptyData with j.
  - right. now exists res, j, x, d.
  - left; now apply MissingData with j.
Qed.

Lemma fetch7Data_delivering (res : Response) (j : ApiResponse)
    (x : RawPowerData) (d : list RawPowerData) (st : State) :
  ok res = true -> json res = Some j -> success j = true ->
  data j = Some (x :: d) ->
  fetch7Data (Some res) st = setIsLive true (setLast7Data (x :: d) st).
Proof.
  intros Hok Hj Hs Hd. unfold fetch7Data, fetch7Data_try.
  now rewrite Hok, Hj, Hs, Hd.
Qed.

(** X1.  After a refresh the page is marked disconnected exactly when
    that fetch failed; otherwise it is marked live and shows the array
    the response delivered. *)
Theorem live_badge_reports_last_fetch (r : FetchOutcome) (st : State) :
  (isLive (fetch7Data r st) = false <-> FailingFetch r) /\
  (isLive (fetch7Data r st) = true <->
   exists res j x d,
     r = Some res /\ ok res = true /\ json res = Some j /\
     success j = true /\ data j = Some (x :: d) /\
     last7Data (fetch7Data r st) = x :: d).
Proof.
  destruct (fetch_outcome_cases r) as [F|(res & j & x & d & -> & Hok & Hj & Hs & Hd)].
  - rewrite (fetch7Data_failing r st F). simpl. split; split; try easy.
    intros (res & j & x & d & -> & Hok & Hj & Hs & Hd & _).
    pose proof (fetch7Data_failing _ st F) as E.
    rewrite (fetch7Data_delivering res j x d st Hok Hj Hs Hd) in E.
    apply (f_equal isLive) in E. discriminate E.
  - rewrite (fetch7Data_delivering res j x d st Hok Hj Hs Hd). simpl.
    split; split; try easy.
    + intros F. pose proof (fetch7Data_failing _ st F) as E.
      rewrite (fetch7Data_delivering res j x d st Hok Hj Hs Hd) in E.
      apply (f_equal isLive) in E. discriminate E.
    + intros _. now exists res, j, x, d.
Qed.

(** X2.  From an index in range, the cycle reaches every record of an
    unchanged buffer within fewer advances than the buffer has records. *)
Theorem cycle_visits_every_record (st : State) (j : Z) :
  inRange st -> 0 <= j < len st ->
  exists n : nat,
    (n < List.length (last7Data st))%nat /\
    currentIndex (Nat.iter n cycleTick st) = j /\
    last7Data (Nat.iter n cycleTick st) = last7Data st.
Proof.
  intros R Hj. pose proof R as R'. unfold inRange in R'.
  exists (Z.to_nat ((j - currentIndex st) mod len st)).
  pose proof (Z.mod_pos_bound (j - currentIndex st) (len st) ltac:(lia)) as B.
  rewrite (iter_cycleTick _ st R). simpl.
  split; [unfold len in *; lia|]. split; [|reflexivity].
  rewrite Z2Nat.id by lia.
  rewrite Zplus_mod_idemp_r.
  replace (currentIndex st + (j - currentIndex st)) with j by lia.
  apply Z.mod_small; lia.
Qed.

Lemma cycle_visits_every_record_witness :
  exists n : nat,
    (n < 3)%nat /\
    currentIndex
      (Nat.iter n cycleTick
         {| last7Data := [reading 100; reading 200; reading 300];
            currentIndex := 2; isLive := true |}) = 1.
Proof.
  destruct (cycle_visits_every_record
              {| last7Data := [reading 100; reading 200; reading 300];
                 currentIndex := 2; isLive := true |} 1) as (n & Hn & Hi & _).
  - unfold inRange, len; simpl; lia.
  - unfold len; simpl; lia.
  - exists n. split; [exact Hn|exact Hi].
Defined.

Lemma run_last7Data_empty (evs : list Event) (st : State) :
  last7Data (run evs st) = [] <->
  last7Data st = [] /\ forall r, In (Refresh r) evs -> FailingFetch r.
Proof.
  revert st. induction evs as [|ev evs IH]; intros st; simpl.
  - split; [intros H; split; [exact H|intros r []]|intros [H _]; exact H].
  - rewrite IH. destruct ev as [r|]; simpl.
    + destruct (fetch_outcome_cases r)
        as [F|(res & j & x & d & -> & Hok & Hj & Hs & Hd)].
      * rewrite (fetch7Data_failing r st F). simpl. split.
        -- intros [H1 H2]. split; [exact H1|].
           intros r' [E|H]; [injection E as <-; exact F|now apply H2].
        -- intros [H1 H2]. split; [exact H1|]. intros r' H. apply H2. now right.
      * rewrite (fetch7Data_delivering res j x d st Hok Hj Hs Hd). simpl. split.
        -- intros [H _]. discriminate H.
        -- intros [_ H]. exfalso.
           specialize (H (Some res) (or_introl eq_refl)).
           pose proof (fetch7Data_failing _ st H) as E.
           rewrite (fetch7Data_delivering res j x d st Hok Hj Hs Hd) in E.
           apply (f_equal isLive) in E. discriminate E.
    + rewrite cycleTick_last7Data. split.
      * intros [H1 H2]. split; [exact H1|].
        intros r' [E|H]; [discriminate E|now apply H2].
      * intros [H1 H2]. split; [exact H1|]. intros r' H. apply H2. now right.
Qed.

(** X3.  Started from the initial state, the page shows the loading
    screen exactly as long as no refresh has succeeded: every fetch so far
    failed. *)
Theorem loading_until_first_success (evs : list Event) :
  render (run evs initialState) = Loading <->
  forall r, In (Refresh r) evs -> FailingFetch r.
Proof.
  assert (E : render (run evs initialState) = Loading <->
              last7Data (run evs initialState) = []).
  { unfold render.
    destruct (last7Data (run evs initialState)) as [|x l] eqn:H; simpl.
    - split; reflexivity.
    - change (Z.pos (Pos.of_succ_nat (List.length l)) =? 0) with false.
      split; [|discriminate].
      destruct (currentData _); discriminate. }
  rewrite E, run_last7Data_empty. simpl. split; [intros [_ H]; exact H|auto].
Qed.



End SamplerMore.

(** ** The alerts page *)

Section AlertsFacts.

Import Alerts.

Lemma filterName_not_all (f : Filter) :
  f <> All -> forall st, filter st = f ->
  filteredAlerts st =
    match alerts st with
    | Some l =>
        Value (Some (List.filter (fun a => String.eqb (severity a) (filterName f)) l))
    | None => TypeError
    end.
Proof.
  intros H st E. unfold filteredAlerts. rewrite E. now destruct f.
Qed.

Lemma filter_AlertsOfSeverity (sev : string) (l : list Alert) :
  AlertsOfSeverity sev l (List.filter (fun a => String.eqb (severity a) sev) l).
Proof.
  induction l as [|a l IH]; simpl; [constructor|].
  destruct (String.eqb_spec (severity a) sev) as [E|E]; now constructor.
Qed.

Lemma AlertsOfSeverity_unique (sev : string) (l s1 s2 : list Alert) :
  AlertsOfSeverity sev l s1 -> AlertsOfSeverity sev l s2 -> s1 = s2.
Proof.
  intros H1. revert s2.
  induction H1 as [|a l s1 E _ IH|a l s1 E _ IH]; intros s2 H2;
    inversion H2; subst; try congruence.
  - f_equal. now apply IH.
  - now apply IH.
Qed.

(** X5.  With a severity filter, the list shown holds exactly the stored
    alerts of that severity, each as often as it is stored and in the
    stored order, and it is the only such list; with the filter [All] it
    is the stored list itself. *)
Theorem filteredAlerts_selects_severity (st : State) (l : list Alert) :
  alerts st = Some l ->
  (filter st = All -> filteredAlerts st = Value (Some l)) /\
  (filter st <> All ->
   exists shown,
     filteredAlerts st = Value (Some shown) /\
     AlertsOfSeverity (filterName (filter st)) l shown /\
     (forall shown',
        AlertsOfSeverity (filterName (filter st)) l shown' -> shown' = shown) /\
     (forall a, In a shown <-> In a l /\ severity a = filterName (filter st)) /\
     (forall l1 l2, l = (l1 ++ l2)%list ->
        exists s1 s2,
          shown = (s1 ++ s2)%list /\
          AlertsOfSeverity (filterName (filter st)) l1 s1 /\
          AlertsOfSeverity (filterName (filter st)) l2 s2) /\
     (List.length shown <= List.length l)%nat).
Proof.
  intros Ha. split.
  - intros E. unfold filteredAlerts. now rewrite E, Ha.
  - intros NE. rewrite (filterName_not_all (filter st) NE st eq_refl), Ha.
    set (p := fun a => String.eqb (severity a) (filterName (filter st))).
    exists (List.filter p l). split; [reflexivity|].
    split; [apply filter_AlertsOfSeverity|]. split; [|split; [|split]].
    + intros shown' H.
      apply (AlertsOfSeverity_unique _ _ _ _ H (filter_AlertsOfSeverity _ l)).
    + intros a. rewrite filter_In. unfold p. now rewrite String.eqb_eq.
    + intros l1 l2 ->. exists (List.filter p l1), (List.filter p l2).
      split; [apply filter_app|].
      split; apply filter_AlertsOfSeverity.
    + apply filter_length_le.
Qed.

Lemma filteredAlerts_selects_severity_witness :
  filteredAlerts
    {| alerts := Some [sampleAlert "critical"; sampleAlert "info";
                       sampleAlert "critical"];
       summary := None; loading := false; filter := Critical |}
  = Value (Some [sampleAlert "critical"; sampleAlert "critical"]).
Proof.
  destruct (filteredAlerts_selects_severity
              {| alerts := Some [sampleAlert "critical"; sampleAlert "info";
                                 sampleAlert "critical"];
                 summary := None; loading := false; filter := Critical |}
              [sampleAlert "critical"; sampleAlert "info"; sampleAlert "critical"]
              eq_refl) as [_ H].
  destruct H as (shown & E & _ & U & _); [discriminate|].
  rewrite E. f_equal. f_equal. symmetry. apply U.
  apply Shown; [reflexivity|].
  apply Hidden; [discriminate|].
  apply Shown; [reflexivity|].
  apply NoAlerts.
Defined.

Lemma count_split (l : list Alert) :
  Forall knownSeverity l ->
  (shownCount Critical l + shownCount Warning l + shownCount Info l
   = List.length l)%nat.
Proof.
  unfold shownCount, shownUnder. induction 1 as [|a l Ha _ IH]; [reflexivity|].
  cbn [List.filter filterName] in *.
  destruct Ha as [E|[E|E]]; rewrite E; cbn -[List.filter]; cbn [List.length]; lia.
Qed.

(** X6.  When every stored alert has one of the three severities, the
    three severity filters split the stored list: the numbers of alerts
    they show add up to the number shown under [All], and no alert is
    shown under two of them.  [shownUnder] is what [filteredAlerts]
    computes from a stored array. *)
Theorem severity_filters_partition (l : list Alert) :
  Forall knownSeverity l ->
  (forall st, alerts st = Some l ->
     filteredAlerts st = Value (Some (shownUnder (filter st) l))) /\
  (shownCount Critical l + shownCount Warning l + shownCount Info l
   = shownCount All l)%nat /\
  forall a f g,
    f <> All -> g <> All -> f <> g ->
    In a (shownUnder f l) -> ~ In a (shownUnder g l).
Proof.
  intros H. split; [|split].
  - intros st E. unfold filteredAlerts, shownUnder. rewrite E.
    now destruct (filter st).
  - rewrite (count_split l H). reflexivity.
  - intros a f g Hf Hg Hfg Hin Hin'.
    destruct f, g; try congruence; simpl in Hin, Hin';
      apply filter_In in Hin as [_ E1]; apply filter_In in Hin' as [_ E2];
      apply String.eqb_eq in E1, E2; rewrite E1 in E2; discriminate E2.
Qed.

Lemma severity_filters_partition_witness :
  (shownCount Critical [sampleAlert "critical"; sampleAlert "info"]
   + shownCount Warning [sampleAlert "critical"; sampleAlert "info"]
   + shownCount Info [sampleAlert "critical"; sampleAlert "info"]
   = shownCount All [sampleAlert "critical"; sampleAlert "info"])%nat.
Proof.
  refine (proj1 (proj2 (severity_filters_partition
            [sampleAlert "critical"; sampleAlert "info"] _))).
  apply Forall_cons; [left; reflexivity|].
  apply Forall_cons; [right; right; reflexivity|apply Forall_nil].
Defined.

(** X7.  [fetchAlerts] always ends with [loading] false and never writes
    the summary or the filter.  It replaces the stored alerts exactly
    when the body parses to an envelope with a truthy [success], whatever
    the HTTP status; in every other case the stored alerts stay as they
    were. *)
Theorem fetchAlerts_outcome
    (r : FetchOutcome (option (list Alert))) (st : State) :
  loading (fetchAlerts r st) = false /\
  summary (fetchAlerts r st) = summary st /\
  filter (fetchAlerts r st) = filter st /\
  (forall res j,
      r = Some res -> json res = Some j -> success j = true ->
      alerts (fetchAlerts r st) = data j) /\
  ((r = None \/
    (exists res, r = Some res /\ json res = None) \/
    (exists res j, r = Some res /\ json res = Some j /\ success j = false)) ->
   alerts (fetchAlerts r st) = alerts st).
Proof.
  unfold fetchAlerts, fetchAlerts_try.
  destruct r as [res|]; simpl.
  - destruct (json res) as [j|] eqn:Hj; simpl.
    + destruct (success j) eqn:Hs; simpl; repeat split; trivial.
      * intros res' j' E Hj' _. injection E as <-. rewrite Hj in Hj'.
        now injection Hj' as <-.
      * intros [E|[(res' & E & Hj')|(res' & j' & E & Hj' & Hs')]];
          [discriminate E| |].
        -- injection E as <-. rewrite Hj in Hj'. discriminate Hj'.
        -- injection E as <-. rewrite Hj in Hj'. injection Hj' as <-.
           rewrite Hs in Hs'. discriminate Hs'.
      * intros res' j' E Hj' Hs'. injection E as <-. rewrite Hj in Hj'.
        injection Hj' as <-. rewrite Hs in Hs'. discriminate Hs'.
    + repeat split; trivial.
      intros res' j' E Hj'. injection E as <-. rewrite Hj in Hj'. discriminate Hj'.
  - repeat split; trivial. intros res j E. discriminate E.
Qed.

Lemma fetchAlerts_outcome_witness :
  alerts (fetchAlerts
            (Some {| ok := false; http_status := 500;
                     json := Some {| success := true;
                                     data := Some [sampleAlert "info"] |} |})
            initialState) = Some [sampleAlert "info"].
Proof.
  destruct (fetchAlerts_outcome
              (Some {| ok := false; http_status := 500;
                       json := Some {| success := true;
                                       data := Some [sampleAlert "info"] |} |})
              initialState) as (_ & _ & _ & H & _).
  exact (H _ _ eq_refl eq_refl eq_refl).
Defined.

(** X8.  [fetchAlerts] does not check that [data] is an array.  On a
    page that shows a stored array under a severity filter, a response
    whose envelope has a truthy [success] and a [data] that is not an
    array is stored as it comes, and the next evaluation of
    [alerts.filter] in the component body throws a [TypeError], whatever
    the HTTP status of the response. *)
Theorem unchecked_data_breaks_severity_filter
    (res : Response (option (list Alert))) (j : Envelope (option (list Alert)))
    (l : list Alert) (st : State) :
  alerts st = Some l -> filter st <> All ->
  json res = Some j -> success j = true -> data j = None ->
  (exists shown, filteredAlerts st = Value (Some shown)) /\
  alerts (fetchAlerts (Some res) st) = None /\
  filter (fetchAlerts (Some res) st) = filter st /\
  filteredAlerts (fetchAlerts (Some res) st) = TypeError.
Proof.
  intros Ha Hf Hj Hs Hd.
  split.
  - rewrite (filterName_not_all (filter st) Hf st eq_refl), Ha. eauto.
  - unfold fetchAlerts, fetchAlerts_try. rewrite Hj, Hs, Hd.
    split; [reflexivity|]. split; [reflexivity|].
    unfold filteredAlerts. simpl. now destruct (filter st).
Qed.

Lemma unchecked_data_breaks_severity_filter_witness :
  filteredAlerts
    (fetchAlerts
       (Some {| ok := true; http_status := 200;
                json := Some {| success := true; data := None |} |})
       (setFilter Critical
          (fetchAlerts
             (Some {| ok := true; http_status := 200;
                      json := Some {| success := true;
                                      data := Some [sampleAlert "critical"] |} |})
             initialState))) = TypeError.
Proof.
  refine (proj2 (proj2 (proj2 (unchecked_data_breaks_severity_filter
    {| ok := true; http_status := 200;
       json := Some {| success := true; data := None |} |}
    {| success := true; data := None |}
    [sampleAlert "critical"]
    (setFilter Critical
       (fetchAlerts
          (Some {| ok := true; http_status := 200;
                   json := Some {| success := true;
                                   data := Some [sampleAlert "critical"] |} |})
          initialState))
    eq_refl _ eq_refl eq_refl eq_refl)))).
  discriminate.
Defined.

(** X9.  [getSeverityColor] gives the three severities three different
    colours and gives the grey default exactly to every other string,
    the empty string and other capitalisations included. *)
Theorem getSeverityColor_default_iff_unknown (s : string) :
  (getSeverityColor s = "bg-gray-100 border-gray-300 text-gray-800"
   <-> s <> "critical" /\ s <> "warning" /\ s <> "info") /\
  getSeverityColor "critical" <> getSeverityColor "warning" /\
  getSeverityColor "critical" <> getSeverityColor "info" /\
  getSeverityColor "warning" <> getSeverityColor "info" /\
  getSeverityColor "Critical" = getSeverityColor "".
Proof.
  split; [|repeat split; discriminate].
  unfold getSeverityColor.
  destruct (String.eqb_spec s "critical") as [->|H1]; simpl.
  - split; [discriminate|intros [H _]; congruence].
  - destruct (String.eqb_spec s "warning") as [->|H2]; simpl.
    + split; [discriminate|intros (_ & H & _); congruence].
    + destruct (String.eqb_spec s "info") as [->|H3]; simpl.
      * split; [discriminate|intros (_ & _ & H); congruence].
      * split; [auto|reflexivity].
Qed.

End AlertsFacts.

(** ** The reports page *)

Section ReportsFacts.

Import ReportsPage.
Local Open Scope float_scope.

Lemma SFcompare_refl (x : spec_float) :
  x <> S754_nan -> SFcompare x x = Some Eq.
Proof.
  destruct x as [s|s| |s m e]; simpl; trivial; try congruence.
  - now destruct s.
  - intros _. change (Pos.compare_cont Eq m m) with (Pos.compare m m).
    rewrite Z.compare_refl, Pos.compare_refl. now destruct s.
Qed.

Lemma Prim2SF_is_nan (x : float) :
  Prim2SF x <> S754_nan -> PrimFloat.is_nan x = false.
Proof.
  intros H. unfold PrimFloat.is_nan. rewrite FloatAxioms.eqb_spec. unfold SFeqb.
  now rewrite (SFcompare_refl _ H).
Qed.

(** A number above zero and below infinity is a positive finite value. *)
Lemma positive_finite (a : float) :
  (0 <? a) = true -> (a <? infinity) = true ->
  exists m e, Prim2SF a = S754_finite false m e.
Proof.
  rewrite !ltb_spec. change (Prim2SF 0) with (S754_zero false).
  change (Prim2SF infinity) with (S754_infinity false).
  unfold SFltb.
  destruct (Prim2SF a) as [s|s| |s m e]; simpl; try discriminate;
    destruct s; simpl; try discriminate; intros; eauto.
Qed.

Lemma positive_truthy (a : float) :
  (0 <? a) = true -> Analysis.orNumber a 0 = a.
Proof.
  intros H. unfold Analysis.orNumber, Analysis.truthyNumber.
  assert (N : PrimFloat.is_nan a = false).
  { apply Prim2SF_is_nan. intros E. rewrite ltb_spec, E in H. discriminate H. }
  assert (Z0 : PrimFloat.is_zero a = false).
  { unfold PrimFloat.is_zero. rewrite FloatAxioms.eqb_spec.
    rewrite ltb_spec in H. change (Prim2SF 0) with (S754_zero false) in H.
    change (Prim2SF zero) with (S754_zero false).
    unfold SFltb in H. unfold SFeqb.
    destruct (Prim2SF a) as [s|s| |s m e]; simpl in *; try discriminate;
      now destruct s. }
  now rewrite N, Z0.
Qed.

(** The relative change between two equal positive finite amounts is
    zero. *)
Lemma change_of_equal (a : float) :
  (0 <? a) = true -> (a <? infinity) = true ->
  (a - a) / a * 100 = 0.
Proof.
  intros H0 Hi. destruct (positive_finite a H0 Hi) as (m & e & E).
  apply Prim2SF_inj. rewrite mul_spec, div_spec, sub_spec, E.
  assert (S : SF64sub (S754_finite false m e) (S754_finite false m e)
              = S754_zero false).
  { unfold SF64sub, SFsub. rewrite Z.min_id. unfold shl_align.
    rewrite Z.sub_diag. cbn [fst cond_Zopp]. reflexivity. }
  rewrite S. reflexivity.
Qed.

(** A reports request either delivers or fails. *)
Lemma report_outcome_cases {A : Type} (r : Alerts.FetchOutcome (option A)) :
  ReportFails r \/ exists d, ReportDelivers r d.
Proof.
  destruct r as [res|]; [|left; left; reflexivity].
  destruct (Alerts.ok res) eqn:Hok; [|left; right; exists res; auto].
  destruct (Alerts.json res) as [j|] eqn:Hj; [|left; right; exists res; auto].
  destruct (Alerts.success j) eqn:Hs;
    [|left; right; exists res; split; [reflexivity|]; right; right; exists j; auto].
  destruct (Alerts.data j) as [d|] eqn:Hd;
    [|left; right; exists res; split; [reflexivity|]; right; right; exists j; auto].
  right. exists d, res, j. auto.
Qed.

Lemma fetchMonthly_delivers
    (r : Alerts.FetchOutcome (option (list MonthlyReport)))
    (l : list MonthlyReport) (st : State) :
  ReportDelivers r l -> fetchMonthly r st = setMonthlyReports l st.
Proof.
  intros (res & j & -> & Hok & Hj & Hs & Hd).
  unfold fetchMonthly, fetchMonthly_try. now rewrite Hok, Hj, Hs, Hd.
Qed.

Lemma fetchMonthly_fails
    (r : Alerts.FetchOutcome (option (list MonthlyReport))) (st : State) :
  ReportFails r -> fetchMonthly r st = setMonthlyReports [] st.
Proof.
  intros F. unfold fetchMonthly, fetchMonthly_try.
  destruct F as [->|(res & -> & [Hk|[Hj|(j & Hj & [Hs|Hd])]])]; trivial.
  - now rewrite Hk.
  - rewrite Hj. now destruct (Alerts.ok res).
  - rewrite Hj, Hs. now destruct (Alerts.ok res).
  - rewrite Hj, Hd. now destruct (Alerts.ok res), (Alerts.success j).
Qed.

Lemma fetchCurrent_delivers (m y : float)
    (r : Alerts.FetchOutcome (option CurrentMonthReport))
    (c : CurrentMonthReport) (st : State) :
  ReportDelivers r c -> fetchCurrent m y r st = setCurrentMonth (Some c) st.
Proof.
  intros (res & j & -> & Hok & Hj & Hs & Hd).
  unfold fetchCurrent, fetchCurrent_try. now rewrite Hok, Hj, Hs, Hd.
Qed.

Lemma fetchCurrent_fails (m y : float)
    (r : Alerts.FetchOutcome (option CurrentMonthReport)) (st : State) :
  ReportFails r ->
  fetchCurrent m y r st = setCurrentMonth (Some (emptyCurrentMonth m y)) st.
Proof.
  intros F. unfold fetchCurrent, fetchCurrent_try.
  destruct F as [->|(res & -> & [Hk|[Hj|(j & Hj & [Hs|Hd])]])]; trivial.
  - now rewrite Hk.
  - rewrite Hj. now destruct (Alerts.ok res).
  - rewrite Hj, Hs. now destruct (Alerts.ok res).
  - rewrite Hj, Hd. now destruct (Alerts.ok res), (Alerts.success j).
Qed.

Lemma fetchStats_delivers
    (r : Alerts.FetchOutcome (option Statistics)) (s : Statistics) (st : State) :
  ReportDelivers r s -> fetchStats r st = setStatistics (Some s) st.
Proof.
  intros (res & j & -> & Hok & Hj & Hs & Hd).
  unfold fetchStats, fetchStats_try. now rewrite Hok, Hj, Hs, Hd.
Qed.

Lemma fetchStats_fails
    (r : Alerts.FetchOutcome (option Statistics)) (st : State) :
  ReportFails r -> fetchStats r st = setStatistics (Some emptyStatistics) st.
Proof.
  intros F. unfold fetchStats, fetchStats_try.
  destruct F as [->|(res & -> & [Hk|[Hj|(j & Hj & [Hs|Hd])]])]; trivial.
  - now rewrite Hk.
  - rewrite Hj. now destruct (Alerts.ok res).
  - rewrite Hj, Hs. now destruct (Alerts.ok res).
  - rewrite Hj, Hd. now destruct (Alerts.ok res), (Alerts.success j).
Qed.

(** [fetchData] writes each cell once, from its own request. *)
Lemma fetchData_cells (o : Outcomes) (st : State) :
  monthlyReports (fetchData o st) = monthlyReports (fetchMonthly (monthlyOutcome o) st) /\
  currentMonth (fetchData o st)
    = currentMonth (fetchCurrent (nowMonth o) (nowYear o) (currentOutcome o) st) /\
  statistics (fetchData o st) = statistics (fetchStats (statsOutcome o) st) /\
  loading (fetchData o st) = false /\
  generatingReport (fetchData o st) = generatingReport st.
Proof.
  unfold fetchData, fetchMonthly, fetchMonthly_try, fetchCurrent,
    fetchCurrent_try, fetchStats, fetchStats_try.
  cbv zeta. split; [|split; [|split; [|split]]];
    repeat split_innermost; reflexivity.
Qed.

(** X10.  Whatever the three requests do, [fetchData] ends with
    [loading] false and never writes [generatingReport].  Each of the
    three requests either delivers or fails.  The monthly reports are the
    delivered array when their request delivers and are emptied when it
    fails, the ones of an earlier fetch are not kept; the current month
    and the statistics are the delivered objects when their requests
    deliver and the zeroed placeholders when they fail, so that both are
    never [null] after a fetch. *)
Theorem fetchData_always_settles (o : Outcomes) (st : State) :
  let st' := fetchData o st in
  loading st' = false /\
  generatingReport st' = generatingReport st /\
  (forall l, ReportDelivers (monthlyOutcome o) l -> monthlyReports st' = l) /\
  (ReportFails (monthlyOutcome o) -> monthlyReports st' = []) /\
  (forall c, ReportDelivers (currentOutcome o) c -> currentMonth st' = Some c) /\
  (ReportFails (currentOutcome o) ->
   currentMonth st' = Some (emptyCurrentMonth (nowMonth o) (nowYear o))) /\
  (forall s, ReportDelivers (statsOutcome o) s -> statistics st' = Some s) /\
  (ReportFails (statsOutcome o) -> statistics st' = Some emptyStatistics) /\
  (ReportFails (monthlyOutcome o) \/ exists l, ReportDelivers (monthlyOutcome o) l) /\
  (ReportFails (currentOutcome o) \/ exists c, ReportDelivers (currentOutcome o) c) /\
  (ReportFails (statsOutcome o) \/ exists s, ReportDelivers (statsOutcome o) s) /\
  currentMonth st' <> None /\
  statistics st' <> None.
Proof.
  cbv zeta. destruct (fetchData_cells o st) as (M & C & S & L & G).
  rewrite M, C, S.
  split; [exact L|]. split; [exact G|].
  split; [intros l D; now rewrite (fetchMonthly_delivers _ _ _ D)|].
  split; [intros F; now rewrite (fetchMonthly_fails _ _ F)|].
  split; [intros c D; now rewrite (fetchCurrent_delivers _ _ _ _ _ D)|].
  split; [intros F; now rewrite (fetchCurrent_fails _ _ _ _ F)|].
  split; [intros s D; now rewrite (fetchStats_delivers _ _ _ D)|].
  split; [intros F; now rewrite (fetchStats_fails _ _ F)|].
  split; [apply report_outcome_cases|].
  split; [apply report_outcome_cases|].
  split; [apply report_outcome_cases|].
  split.
  - destruct (report_outcome_cases (currentOutcome o)) as [F|[c D]];
      [rewrite (fetchCurrent_fails _ _ _ _ F)
      |rewrite (fetchCurrent_delivers _ _ _ _ _ D)]; discriminate.
  - destruct (report_outcome_cases (statsOutcome o)) as [F|[s D]];
      [rewrite (fetchStats_fails _ _ F)|rewrite (fetchStats_delivers _ _ _ D)];
      discriminate.
Qed.

Lemma fetchData_always_settles_witness :
  monthlyReports
    (fetchData
       {| monthlyOutcome :=
            Some {| Alerts.ok := true; Alerts.http_status := 200;
                    Alerts.json :=
                      Some {| Alerts.success := true;
                              Alerts.data := Some [sampleReport 12 2024 275.5] |} |};
          currentOutcome := None; statsOutcome := None;
          nowMonth := 1; nowYear := 2025 |}
       {| monthlyReports := [sampleReport 11 2024 300]; currentMonth := None;
          statistics := None; loading := false; generatingReport := false |})
  = [sampleReport 12 2024 275.5] /\
  currentMonth
    (fetchData
       {| monthlyOutcome :=
            Some {| Alerts.ok := true; Alerts.http_status := 200;
                    Alerts.json :=
                      Some {| Alerts.success := true;
                              Alerts.data := Some [sampleReport 12 2024 275.5] |} |};
          currentOutcome := None; statsOutcome := None;
          nowMonth := 1; nowYear := 2025 |}
       {| monthlyReports := [sampleReport 11 2024 300]; currentMonth := None;
          statistics := None; loading := false; generatingReport := false |})
  = Some (emptyCurrentMonth 1 2025).
Proof.
  destruct (fetchData_always_settles
              {| monthlyOutcome :=
                   Some {| Alerts.ok := true; Alerts.http_status := 200;
                           Alerts.json :=
                             Some {| Alerts.success := true;
                                     Alerts.data := Some [sampleReport 12 2024 275.5] |} |};
                 currentOutcome := None; statsOutcome := None;
                 nowMonth := 1; nowYear := 2025 |}
              {| monthlyReports := [sampleReport 11 2024 300]; currentMonth := None;
                 statistics := None; loading := false; generatingReport := false |})
    as (_ & _ & D & _ & _ & F & _).
  split.
  - apply D. unfold ReportDelivers. simpl.
    exists {| Alerts.ok := true; Alerts.http_status := 200;
              Alerts.json :=
                Some {| Alerts.success := true;
                        Alerts.data := Some [sampleReport 12 2024 275.5] |} |}.
    exists {| Alerts.success := true;
              Alerts.data := Some [sampleReport 12 2024 275.5] |}.
    repeat split.
  - apply F. now left.
Defined.

Lemma calculateMetrics_change_cases (st : State) (cm : CurrentMonthReport) :
  currentMonth st = Some cm ->
  energyChange (calculateMetrics st) =
  match
    List.find
      (fun r => (month r =? previousMonthNum (cm_month cm))
                && (year r =? previousYearNum (cm_month cm) (cm_year cm)))
      (monthlyReports st)
  with
  | Some previousMonth =>
      if 0 <? total_energy previousMonth then
        (Analysis.orNumber (cm_total_energy cm) 0 - total_energy previousMonth)
        / total_energy previousMonth * 100
      else 0
  | None => 0
  end.
Proof.
  intros E. unfold calculateMetrics. rewrite E. cbn [energyChange].
  destruct (monthlyReports st) as [|r l]; reflexivity.
Qed.

(** X11.  Without a current month every metric is zero.  With one, the
    change against the previous month is zero unless the stored reports
    hold one for the month before the current one (December of the year
    before, for January) whose total is above zero: the division is never
    by a total that is zero, negative or NaN. *)
Theorem energyChange_needs_previous_month (st : State) :
  (currentMonth st = None ->
   calculateMetrics st =
     {| monthlyEnergy := 0; energyChange := 0; estimatedCostIDR := 0;
        estimatedCostUSD := 0; efficiencyScore := 0 |}) /\
  (forall cm,
      currentMonth st = Some cm ->
      energyChange (calculateMetrics st) <> 0 ->
      exists r,
        In r (monthlyReports st) /\
        (month r =? (if cm_month cm =? 1 then 12 else cm_month cm - 1)) = true /\
        (year r =? (if cm_month cm =? 1 then cm_year cm - 1 else cm_year cm)) = true /\
        (0 <? total_energy r) = true).
Proof.
  split.
  - intros E. unfold calculateMetrics. now rewrite E.
  - intros cm E. rewrite (calculateMetrics_change_cases st cm E).
    destruct (List.find _ _) as [r|] eqn:F; [|congruence].
    destruct (0 <? total_energy r) eqn:P; [|congruence].
    intros _. apply find_some in F as [Hin Hk].
    apply andb_true_iff in Hk as [Hm Hy].
    exists r. repeat split; assumption.
Qed.

Lemma energyChange_needs_previous_month_witness :
  energyChange
    (calculateMetrics
       {| monthlyReports := [sampleReport 11 2024 300; sampleReport 12 2024 100];
          currentMonth :=
            Some {| cm_month := 1; cm_year := 2025; cm_total_energy := 120;
                    cm_avg_daily_energy := 4; cm_peak_date := None |};
          statistics := None; loading := false; generatingReport := false |})
  = 20 /\
  exists r,
    In r [sampleReport 11 2024 300; sampleReport 12 2024 100] /\
    (month r =? 12) = true /\ (year r =? 2024) = true /\
    (0 <? total_energy r) = true.
Proof.
  split; [reflexivity|].
  apply (proj2 (energyChange_needs_previous_month
           {| monthlyReports := [sampleReport 11 2024 300; sampleReport 12 2024 100];
              currentMonth :=
                Some {| cm_month := 1; cm_year := 2025; cm_total_energy := 120;
                        cm_avg_daily_energy := 4; cm_peak_date := None |};
              statistics := None; loading := false; generatingReport := false |})
           {| cm_month := 1; cm_year := 2025; cm_total_energy := 120;
              cm_avg_daily_energy := 4; cm_peak_date := None |}
           eq_refl).
  intros H. apply (f_equal PrimFloat.is_zero) in H. vm_compute in H.
  discriminate H.
Defined.

(** X12.  When the first stored report for the previous month has the
    same positive finite total as the current month, the change shown is
    exactly zero. *)
Theorem energyChange_zero_for_equal_totals
    (st : State) (cm : CurrentMonthReport) (r : MonthlyReport) :
  currentMonth st = Some cm ->
  List.find
    (fun r => (month r =? previousMonthNum (cm_month cm))
              && (year r =? previousYearNum (cm_month cm) (cm_year cm)))
    (monthlyReports st) = Some r ->
  total_energy r = cm_total_energy cm ->
  (0 <? total_energy r) = true ->
  (total_energy r <? infinity) = true ->
  energyChange (calculateMetrics st) = 0.
Proof.
  intros E F T P I. rewrite (calculateMetrics_change_cases st cm E), F, P.
  rewrite <- T, (positive_truthy _ P). now apply change_of_equal.
Qed.

Lemma energyChange_zero_for_equal_totals_witness :
  energyChange
    (calculateMetrics
       {| monthlyReports := [sampleReport 11 2024 300; sampleReport 12 2024 275.5];
          currentMonth :=
            Some {| cm_month := 1; cm_year := 2025; cm_total_energy := 275.5;
                    cm_avg_daily_energy := 9; cm_peak_date := None |};
          statistics := None; loading := false; generatingReport := false |})
  = 0.
Proof.
  apply (energyChange_zero_for_equal_totals
           {| monthlyReports := [sampleReport 11 2024 300; sampleReport 12 2024 275.5];
              currentMonth :=
                Some {| cm_month := 1; cm_year := 2025; cm_total_energy := 275.5;
                        cm_avg_daily_energy := 9; cm_peak_date := None |};
              statistics := None; loading := false; generatingReport := false |}
           {| cm_month := 1; cm_year := 2025; cm_total_energy := 275.5;
              cm_avg_daily_energy := 9; cm_peak_date := None |}
           (sampleReport 12 2024 275.5));
    reflexivity.
Defined.

End ReportsFacts.

(** ** The energy-usage history page *)

Section HistoryFacts.

Import Analysis HistoryPage.
Local Open Scope float_scope.

Variable js : Builtins.
Variable pointLabel : Z -> string.

(** [x || 0] is never NaN. *)
Lemma orNumber_zero_number (x : float) :
  PrimFloat.is_nan (orNumber x 0) = false.
Proof.
  unfold orNumber, truthyNumber.
  destruct (PrimFloat.is_nan x) eqn:N; simpl; [reflexivity|].
  destruct (PrimFloat.is_zero x); simpl; [reflexivity|exact N].
Qed.

Lemma fetchStatistics_cases (r : FetchOutcome) (st : State) :
  fetchStatistics js r st = st \/
  exists s, numbersOnly s /\ fetchStatistics js r st = setStatistics s st.
Proof.
  unfold fetchStatistics, fetchStatistics_try.
  repeat split_innermost; auto.
  right. eexists. split; [|reflexivity].
  unfold numbersOnly; cbn [total_energy avg_daily_usage peak_usage total_days].
  repeat split; apply orNumber_zero_number.
Qed.

Lemma fetchAllStatistics_numbers (rs : list FetchOutcome) (st : State) :
  numbersOnly (statistics st) ->
  numbersOnly (statistics (fetchAllStatistics js rs st)).
Proof.
  revert st. induction rs as [|r rs IH]; intros st H; simpl; [exact H|].
  apply IH.
  destruct (fetchStatistics_cases r st) as [->|(s & Hs & ->)]; assumption.
Qed.

(** X13.  Each call of [fetchStatistics] either leaves the statistics as
    they were or stores numbers only, so that from the initial zeros no
    sequence of responses, failed or not, puts NaN in a numeric field of
    the statistics. *)
Theorem statistics_never_NaN (now : Z) (rs : list FetchOutcome) :
  numbersOnly (statistics (fetchAllStatistics js rs (initialState now))) /\
  forall r st,
    statistics (fetchStatistics js r st) = statistics st \/
    numbersOnly (statistics (fetchStatistics js r st)).
Proof.
  split.
  - apply fetchAllStatistics_numbers. repeat split.
  - intros r st.
    destruct (fetchStatistics_cases r st) as [->|(s & Hs & ->)]; auto.
Qed.

Lemma description_ladder (usage : float) :
  EnergyHistory.description
    (EnergyHistory.getEnergyStatus usage EnergyHistory.daily) =
  if usage <? 3 then "Konsumsi sangat hemat"%string
  else if usage <? 8 then "Konsumsi rendah"%string
  else if usage <? 15 then "Konsumsi normal"%string
  else if usage <? 25 then "Konsumsi tinggi"%string
  else "Konsumsi sangat tinggi"%string.
Proof.
  unfold EnergyHistory.getEnergyStatus. simpl.
  repeat match goal with |- context [?x <? ?y] => destruct (x <? y) end;
    reflexivity.
Qed.

(** X14.  The subtitle of the average-usage card, after any sequence of
    statistics responses, is the description of the half-open daily
    bucket that holds the stored average: the fall-through of a NaN to
    "sangat tinggi" cannot happen there. *)
Theorem average_subtitle_is_bucket (now : Z) (rs : list FetchOutcome) :
  let st := fetchAllStatistics js rs (initialState now) in
  let u := avg_daily_usage (statistics st) in
  (averageSubtitle st = "Konsumsi sangat hemat"%string <-> (u <? 3) = true) /\
  (averageSubtitle st = "Konsumsi rendah"%string
   <-> (3 <=? u) = true /\ (u <? 8) = true) /\
  (averageSubtitle st = "Konsumsi normal"%string
   <-> (8 <=? u) = true /\ (u <? 15) = true) /\
  (averageSubtitle st = "Konsumsi tinggi"%string
   <-> (15 <=? u) = true /\ (u <? 25) = true) /\
  (averageSubtitle st = "Konsumsi sangat tinggi"%string <-> (25 <=? u) = true).
Proof.
  intros st u.
  assert (Nu : PrimFloat.is_nan u = false).
  { destruct (fetchAllStatistics_numbers rs (initialState now)) as (_ & H & _);
      [repeat split|exact H]. }
  unfold averageSubtitle. fold u. rewrite description_ladder.
  rewrite !leb_negb_ltb by (trivial; reflexivity).
  assert (J1 : (u <? 3) = true -> (u <? 8) = true)
    by (intros H; exact (ltb_trans u 3 8 H eq_refl)).
  assert (J2 : (u <? 8) = true -> (u <? 15) = true)
    by (intros H; exact (ltb_trans u 8 15 H eq_refl)).
  assert (J3 : (u <? 15) = true -> (u <? 25) = true)
    by (intros H; exact (ltb_trans u 15 25 H eq_refl)).
  destruct (u <? 3), (u <? 8), (u <? 15), (u <? 25);
    simpl; repeat split; intros;
    repeat match goal with
           | H : _ /\ _ |- _ => destruct H
           | H : true = true -> _ |- _ => specialize (H eq_refl)
           end;
    try reflexivity; try discriminate; try congruence.
Qed.

Lemma mapThrowing_length {A B : Type} (f : A -> option B) (l : list A) (l' : list B) :
  mapThrowing f l = Some l' -> List.length l' = List.length l.
Proof.
  revert l'. induction l as [|x l IH]; intros l'; simpl.
  - intros E. now injection E as <-.
  - destruct (f x) as [y|]; [|discriminate].
    destruct (mapThrowing f l) as [ys|]; [|discriminate].
    intros E. injection E as <-. simpl. now rewrite (IH ys).
Qed.

Lemma mapThrowing_Forall {A B : Type} (f : A -> option B) (P : B -> Prop)
    (l : list A) (l' : list B) :
  (forall x y, f x = Some y -> P y) ->
  mapThrowing f l = Some l' -> Forall P l'.
Proof.
  intros H. revert l'. induction l as [|x l IH]; intros l'; simpl.
  - intros E. injection E as <-. constructor.
  - destruct (f x) as [y|] eqn:Fx; [|discriminate].
    destruct (mapThrowing f l) as [ys|]; [|discriminate].
    intros E. injection E as <-. constructor; [now apply (H x)|now apply IH].
Qed.

Lemma slice30_length {A : Type} (l : list A) :
  List.length (slice30 l) = Nat.min (List.length l) 30.
Proof. unfold slice30. rewrite length_skipn. lia. Qed.

Lemma slice30_short {A : Type} (l : list A) :
  (List.length l <= 30)%nat -> slice30 l = l.
Proof.
  intros H. unfold slice30.
  replace (List.length l - 30)%nat with 0%nat by lia. reflexivity.
Qed.


Lemma fetchDailyUsage_cases (nowISO : string) (r : FetchOutcome) (st : State) :
  fetchDailyUsage js nowISO r st = setDailyUsageData [] st \/
  exists res response s x data formatted,
    r = Some res /\ ok res = true /\ json res = Some response /\
    getProp response "success" = Some s /\ truthy s = true /\
    getProp response "data" = Some (JArray (x :: data)) /\
    mapThrowing (formatDaily js nowISO) (slice30 (x :: data)) = Some formatted /\
    fetchDailyUsage js nowISO r st = setDailyUsageData formatted st.
Proof.
  unfold fetchDailyUsage, fetchDailyUsage_try.
  destruct r as [res|]; [|now left].
  destruct (ok res) eqn:Hok; simpl; [|now left].
  destruct (json res) as [response|] eqn:Hj; [|now left].
  destruct (getProp response "success") as [s|] eqn:Hs; [|now left].
  destruct (getProp response "data") as [[| | | | |[|x data]|]|] eqn:Hd;
    try (now left); try (destruct (truthy s); now left).
  destruct (truthy s) eqn:Ht; simpl; [|now left].
  destruct (mapThrowing _ _) as [formatted|] eqn:Hm; [|now left].
  right. exists res, response, s, x, data, formatted. repeat split; trivial.
Qed.


(** X16.  The "Detailed History" table has as many rows as its heading
    announces, the rows are the last stored days in their stored order,
    and when at most 30 days are stored, as after every
    [fetchDailyUsage], every stored day has its row. *)
Theorem table_rows_match_heading (st : State) :
  Z.of_nat (List.length (tableRows st)) = headingDays st /\
  (exists older,
     dailyUsageData st = (older ++ List.map (fun row => fst (fst row)) (tableRows st))%list) /\
  ((List.length (dailyUsageData st) <= 30)%nat ->
   List.map (fun row => fst (fst row)) (tableRows st) = dailyUsageData st) /\
  forall nowISO r,
    List.map (fun row => fst (fst row)) (tableRows (fetchDailyUsage js nowISO r st))
    = dailyUsageData (fetchDailyUsage js nowISO r st).
Proof.
  assert (M : forall s,
             List.map (fun row => fst (fst row)) (tableRows s)
             = slice30 (dailyUsageData s)).
  { intros s. unfold tableRows. rewrite map_map. simpl. apply map_id. }
  split; [|split; [|split]].
  - unfold tableRows, headingDays. rewrite length_map, slice30_length. lia.
  - rewrite M. exists (firstn (List.length (dailyUsageData st) - 30) (dailyUsageData st)).
    unfold slice30. symmetry. apply firstn_skipn.
  - intros H. rewrite M. now apply slice30_short.
  - intros nowISO r. rewrite M. apply slice30_short.
    destruct (fetchDailyUsage_cases nowISO r st)
      as [->|(res & response & s & x & data & formatted &
              -> & Hok & Hj & Hs & Ht & Hd & Hm & ->)]; simpl; [lia|].
    rewrite (mapThrowing_length _ _ _ Hm), slice30_length. lia.
Qed.

Lemma mapIndexed_length {A B : Type} (f : Z -> A -> option B) (l : list A) :
  forall i l', mapIndexed f i l = Some l' -> List.length l' = List.length l.
Proof.
  induction l as [|x l IH]; intros i l'; simpl.
  - intros E. now injection E as <-.
  - destruct (f i x) as [y|]; [|discriminate].
    destruct (mapIndexed f (i + 1) l) as [ys|] eqn:E'; [|discriminate].
    intros E. injection E as <-. simpl. now rewrite (IH _ _ E').
Qed.

Lemma mapIndexed_Forall {A B : Type} (f : Z -> A -> option B) (P : B -> Prop)
    (l : list A) :
  (forall i x y, f i x = Some y -> P y) ->
  forall i l', mapIndexed f i l = Some l' -> Forall P l'.
Proof.
  intros H. induction l as [|x l IH]; intros i l'; simpl.
  - intros E. injection E as <-. constructor.
  - destruct (f i x) as [y|] eqn:Fx; [|discriminate].
    destruct (mapIndexed f (i + 1) l) as [ys|] eqn:E'; [|discriminate].
    intros E. injection E as <-.
    constructor; [now apply (H i x)|now apply (IH _ _ E')].
Qed.

Lemma formatTrend_number (data : list JsValue) (i : Z) (item : JsValue) (t : TrendData) :
  formatTrend js pointLabel data i item = Some t ->
  PrimFloat.is_nan (td_energy t) = false.
Proof.
  unfold formatTrend. repeat split_innermost; try discriminate;
    intros E; injection E as <-; apply orNumber_zero_number.
Qed.

Lemma fetchTrendData_cases (now : Z) (r : FetchOutcome) (st : State) :
  fetchTrendData js pointLabel now r st
    = setLoading false (setTrendData [] (setLoading true st)) \/
  exists res response s x data formatted,
    r = Some res /\ ok res = true /\ json res = Some response /\
    getProp response "success" = Some s /\ truthy s = true /\
    getProp response "data" = Some (JArray (x :: data)) /\
    mapIndexed (formatTrend js pointLabel (x :: data)) 0 (x :: data) = Some formatted /\
    fetchTrendData js pointLabel now r st
      = setLoading false
          (setLastUpdate now (setTrendData formatted (setLoading true st))).
Proof.
  unfold fetchTrendData, fetchTrendData_try.
  destruct r as [res|]; [|now left].
  destruct (ok res) eqn:Hok; cbn [negb]; [|now left].
  destruct (json res) as [response|] eqn:Hj; [|now left].
  destruct (getProp response "success") as [s|] eqn:Hs; [|now left].
  destruct (getProp response "data") as [[| | | | |[|x data]|]|] eqn:Hd;
    try (now left); try (destruct (truthy s); now left).
  destruct (truthy s) eqn:Ht; cbn [negb]; [|now left].
  destruct (mapIndexed _ _ _) as [formatted|] eqn:Hm; [|now left].
  right. exists res, response, s, x, data, formatted. repeat split; trivial.
Qed.

Lemma mapIndexed_total {A B : Type} (f : Z -> A -> option B) (l : list A) :
  (forall i x, In x l -> exists y, f i x = Some y) ->
  forall i, exists l', mapIndexed f i l = Some l'.
Proof.
  induction l as [|x l IH]; intros H i; simpl; [eauto|].
  destruct (H i x (or_introl eq_refl)) as [y ->].
  destruct (IH (fun i x Hx => H i x (or_intror Hx)) (i + 1)%Z) as [ys ->].
  eauto.
Qed.

Lemma mapIndexed_nth {A B : Type} (f : Z -> A -> option B) (l : list A) :
  forall i l', mapIndexed f i l = Some l' ->
  forall n x, nth_error l n = Some x ->
  exists y, nth_error l' n = Some y /\ f (i + Z.of_nat n)%Z x = Some y.
Proof.
  induction l as [|x0 l IH]; intros i l'; simpl.
  - intros _ n x Hn. destruct n; discriminate Hn.
  - destruct (f i x0) as [y0|] eqn:F0; [|discriminate].
    destruct (mapIndexed f (i + 1) l) as [ys|] eqn:E'; [|discriminate].
    intros E n x Hn. injection E as <-. destruct n as [|n]; simpl in *.
    + injection Hn as <-. exists y0. rewrite Z.add_0_r. auto.
    + destruct (IH _ _ E' n x Hn) as (y & Hy & Fy). exists y. split; [exact Hy|].
      rewrite <- Fy. f_equal. lia.
Qed.

Lemma formatTrend_readable (data : list JsValue) (i : Z) (item : JsValue) :
  readable item -> exists t, formatTrend js pointLabel data i item = Some t.
Proof.
  intros [N1 N2]. unfold formatTrend, getProp.
  destruct item; try congruence; repeat split_innermost; eauto.
Qed.

(** X17.  [fetchTrendData] always ends with [loading] false and writes
    neither the daily data nor the statistics nor the filter, and no
    stored energy is NaN.  On a 2xx response whose envelope has a truthy
    [success] and a non-empty [data] array of readable items it stores
    one point for every item, the point at each position formatted from
    the item at that position, and sets the time of the last update to
    the current time.  In every other case it empties the trend and
    keeps the time of the last update. *)
Theorem fetchTrendData_outcome (now : Z) (r : FetchOutcome) (st : State) :
  let st' := fetchTrendData js pointLabel now r st in
  loading st' = false /\
  dailyUsageData st' = dailyUsageData st /\ statistics st' = statistics st /\
  activeFilter st' = activeFilter st /\
  Forall (fun t => PrimFloat.is_nan (td_energy t) = false) (trendData st') /\
  (forall res response s data,
     r = Some res -> ok res = true -> json res = Some response ->
     getProp response "success" = Some s -> truthy s = true ->
     getProp response "data" = Some (JArray data) -> data <> [] ->
     Forall readable data ->
     lastUpdate st' = now /\
     List.length (trendData st') = List.length data /\
     forall i item,
       nth_error data i = Some item ->
       exists t,
         nth_error (trendData st') i = Some t /\
         formatTrend js pointLabel data (Z.of_nat i) item = Some t) /\
  ((trendData st' = [] /\ lastUpdate st' = lastUpdate st) \/
   exists res response s data,
     r = Some res /\ ok res = true /\ json res = Some response /\
     getProp response "success" = Some s /\ truthy s = true /\
     getProp response "data" = Some (JArray data) /\ data <> [] /\
     Forall readable data /\
     List.length (trendData st') = List.length data /\
     lastUpdate st' = now).
Proof.
  cbv zeta.
  split; [|split; [|split; [|split; [|split; [|split]]]]].
  - destruct (fetchTrendData_cases now r st)
      as [->|(? & ? & ? & ? & ? & ? & _ & _ & _ & _ & _ & _ & _ & ->)];
      reflexivity.
  - destruct (fetchTrendData_cases now r st)
      as [->|(? & ? & ? & ? & ? & ? & _ & _ & _ & _ & _ & _ & _ & ->)];
      reflexivity.
  - destruct (fetchTrendData_cases now r st)
      as [->|(? & ? & ? & ? & ? & ? & _ & _ & _ & _ & _ & _ & _ & ->)];
      reflexivity.
  - destruct (fetchTrendData_cases now r st)
      as [->|(? & ? & ? & ? & ? & ? & _ & _ & _ & _ & _ & _ & _ & ->)];
      reflexivity.
  - destruct (fetchTrendData_cases now r st)
      as [->|(res & response & s & x & data & formatted &
              -> & Hok & Hj & Hs & Ht & Hd & Hm & ->)]; simpl; [constructor|].
    apply (mapIndexed_Forall _ _ _ (formatTrend_number (x :: data)) _ _ Hm).
  - intros res response s data -> Hok Hj Hs Ht Hd NE R.
    unfold fetchTrendData, fetchTrendData_try. rewrite Hok, Hj, Hs, Hd, Ht.
    cbn [negb]. destruct data as [|x data]; [congruence|].
    destruct (mapIndexed_total (formatTrend js pointLabel (x :: data)) (x :: data)
                (fun i y Hy =>
                   formatTrend_readable (x :: data) i y
                     (proj1 (Forall_forall readable (x :: data)) R y Hy)) 0%Z)
      as [formatted Hm].
    rewrite Hm. cbn [lastUpdate trendData setLoading setLastUpdate setTrendData].
    split; [reflexivity|]. split; [apply (mapIndexed_length _ _ _ _ Hm)|].
    intros i item Hi.
    destruct (mapIndexed_nth _ _ _ _ Hm i item Hi) as (t & Ht' & Ft).
    exists t. split; [exact Ht'|]. now rewrite Z.add_0_l in Ft.
  - destruct (fetchTrendData_cases now r st)
      as [->|(res & response & s & x & data & formatted &
              -> & Hok & Hj & Hs & Ht & Hd & Hm & ->)]; simpl; [now left|].
    right. exists res, response, s, (x :: data). repeat split; trivial.
    + discriminate.
    + apply Forall_forall. intros y Hy.
      destruct (In_nth_error _ _ Hy) as [n Hn].
      destruct (mapIndexed_nth _ _ _ _ Hm n y Hn) as (t & _ & Ft).
      unfold formatTrend, getProp in Ft.
      split; intros ->; discriminate Ft.
    + apply (mapIndexed_length _ _ _ _ Hm).
Qed.

End HistoryFacts.

Lemma fetchTrendData_outcome_witness :
  HistoryPage.lastUpdate
    (HistoryPage.fetchTrendData sampleBuiltins pointOf 5
       (trendResponse sampleTrendItems) (HistoryPage.initialState 0)) = 5%Z /\
  List.length
    (HistoryPage.trendData
       (HistoryPage.fetchTrendData sampleBuiltins pointOf 5
          (trendResponse sampleTrendItems) (HistoryPage.initialState 0))) = 2%nat /\
  exists t,
    nth_error
      (HistoryPage.trendData
         (HistoryPage.fetchTrendData sampleBuiltins pointOf 5
            (trendResponse sampleTrendItems) (HistoryPage.initialState 0))) 1
    = Some t /\
    HistoryPage.td_time t = Analysis.JString "Point 2" /\
    HistoryPage.td_energy t = 2%float.
Proof.
  destruct (fetchTrendData_outcome sampleBuiltins pointOf 5
              (trendResponse sampleTrendItems) (HistoryPage.initialState 0))
    as (_ & _ & _ & _ & _ & H & _).
  destruct (H _ _ (Analysis.JBool true) sampleTrendItems
              eq_refl eq_refl eq_refl eq_refl eq_refl eq_refl) as (H1 & H2 & H3).
  - discriminate.
  - repeat constructor; discriminate.
  - split; [exact H1|]. split; [exact H2|].
    destruct (H3 1%nat _ eq_refl) as (t & Ht & Ft).
    exists t. split; [exact Ht|].
    injection Ft as <-. split; reflexivity.
Defined.

Lemma table_rows_match_heading_witness :
  List.map (fun row => fst (fst row))
    (HistoryPage.tableRows
       (HistoryPage.setDailyUsageData [sampleDay 7.9; sampleDay 26]
          (HistoryPage.initialState 0)))
  = [sampleDay 7.9; sampleDay 26].
Proof.
  apply (table_rows_match_heading sampleBuiltins
           (HistoryPage.setDailyUsageData [sampleDay 7.9; sampleDay 26]
              (HistoryPage.initialState 0))).
  simpl. lia.
Defined.

(** ** Binary64 operations whose result is a number *)

Section Binary64Numbers.

Local Open Scope Z_scope.

Lemma shr_m_nonneg (m e n : Z) (l : location) :
  0 <= m -> 0 <= shr_m (fst (shr (shr_record_of_loc m l) e n)).
Proof.
  intros Hm.
  assert (E : shr_m (shr_record_of_loc m l) = m) by (destruct l as [|[]]; reflexivity).
  destruct n as [|p|p]; cbn [shr fst]; try (rewrite E; assumption).
  rewrite iter_shr_1_m by (rewrite E; lia). rewrite E.
  apply Z.div_pos; [assumption|apply Z.pow_pos_nonneg; lia].
Qed.

(** Rounding a non-negative integer never gives NaN. *)
Lemma binary_round_aux_number (s : bool) (m e : Z) (l : location) :
  0 <= m -> binary_round_aux prec emax s m e l <> S754_nan.
Proof.
  intros Hm. unfold binary_round_aux, shr_fexp.
  pose proof (shr_m_nonneg m e (fexp prec emax (Zdigits2 m + e) - e) l Hm) as P1.
  destruct (shr _ e _) as [mrs' e']. cbn [fst] in P1.
  pose proof (round_nearest_even_ge (shr_m mrs') (loc_of_shr_record mrs')) as G.
  set (m1 := round_nearest_even _ _) in *.
  pose proof (shr_m_nonneg m1 e' (fexp prec emax (Zdigits2 m1 + e') - e') loc_Exact
                ltac:(lia)) as P2.
  destruct (shr _ e' _) as [mrs'' e'']. cbn [fst] in P2.
  destruct (shr_m mrs'') as [|p|p]; try lia; try discriminate.
  destruct (e'' <=? emax - prec); discriminate.
Qed.

Lemma SFmul_number (x : spec_float) (s : bool) (m : positive) (e : Z) :
  x <> S754_nan -> SF64mul x (S754_finite s m e) <> S754_nan.
Proof.
  intros H. destruct x as [sx|sx| |sx mx ex]; try discriminate; [congruence|].
  apply binary_round_aux_number. lia.
Qed.

Lemma SFdiv_number (x : spec_float) (s : bool) (m : positive) (e : Z) :
  x <> S754_nan -> SF64div x (S754_finite s m e) <> S754_nan.
Proof.
  intros H. destruct x as [sx|sx| |sx mx ex]; try discriminate; [congruence|].
  unfold SF64div, SFdiv, SFdiv_core_binary.
  set (e' := Z.min _ _). set (m' := match ex - e - e' with 0 => _ | _ => _ end).
  assert (Hm' : 0 <= m').
  { unfold m'. destruct (ex - e - e') as [|p|p]; try lia.
    apply Z.shiftl_nonneg. lia. }
  pose proof (Z.div_pos m' (Zpos m) Hm' ltac:(lia)) as Q.
  unfold Z.div in Q. destruct (Z.div_eucl m' (Zpos m)) as [q r]. cbn [fst] in Q.
  now apply binary_round_aux_number.
Qed.

Lemma div_number (a b : float) (s : bool) (m : positive) (e : Z) :
  Prim2SF b = S754_finite s m e ->
  PrimFloat.is_nan a = false -> PrimFloat.is_nan (a / b) = false.
Proof.
  intros Hb Ha. apply Prim2SF_is_nan. rewrite div_spec, Hb.
  apply SFdiv_number. now apply is_nan_Prim2SF.
Qed.

Lemma mul_number (a b : float) (s : bool) (m : positive) (e : Z) :
  Prim2SF b = S754_finite s m e ->
  PrimFloat.is_nan a = false -> PrimFloat.is_nan (a * b) = false.
Proof.
  intros Hb Ha. apply Prim2SF_is_nan. rewrite mul_spec, Hb.
  apply SFmul_number. now apply is_nan_Prim2SF.
Qed.

Lemma SFleb_trans (x y z : spec_float) :
  SFleb x y = true -> SFleb y z = true -> SFleb x z = true.
Proof.
  unfold SFleb.
  destruct x as [sx|sx| |sx mx ex], y as [sy|sy| |sy my ey],
           z as [sz|sz| |sz mz ez]; simpl; try discriminate; trivial;
    try (destruct sx; simpl; try discriminate; trivial; fail);
    try (destruct sy; simpl; try discriminate; trivial; fail);
    try (destruct sz; simpl; try discriminate; trivial; fail);
    try (destruct sx, sy; simpl; try discriminate; trivial; fail);
    try (destruct sx, sz; simpl; try discriminate; trivial; fail);
    try (destruct sy, sz; simpl; try discriminate; trivial; fail);
    try (destruct sx, sy, sz; simpl; try discriminate; trivial; fail).
  change (Pos.compare_cont Eq mx my) with (Pos.compare mx my).
  change (Pos.compare_cont Eq my mz) with (Pos.compare my mz).
  change (Pos.compare_cont Eq mx mz) with (Pos.compare mx mz).
  destruct sx, sy, sz; simpl; try discriminate; trivial;
    destruct (Z.compare_spec ex ey), (Z.compare_spec ey ez), (Z.compare_spec ex ez);
    try lia; try discriminate; trivial;
    destruct (Pos.compare_spec mx my), (Pos.compare_spec my mz), (Pos.compare_spec mx mz);
    simpl; try lia; try discriminate; trivial.
Qed.

Lemma leb_trans (a b c : float) :
  (a <=? b)%float = true -> (b <=? c)%float = true -> (a <=? c)%float = true.
Proof. rewrite !leb_spec. apply SFleb_trans. Qed.

Lemma ltb_leb (a b : float) :
  (a <? b)%float = true -> (a <=? b)%float = true.
Proof.
  rewrite ltb_spec, leb_spec. unfold SFltb, SFleb.
  destruct (SFcompare _ _) as [[]|]; try discriminate; reflexivity.
Qed.

(** A zero, of either sign, is below every positive finite number. *)
Lemma zero_below_positive (x b : float) (m : positive) (e : Z) :
  Prim2SF b = S754_finite false m e ->
  PrimFloat.is_zero x = true -> (x <? b)%float = true.
Proof.
  intros Hb. unfold PrimFloat.is_zero.
  rewrite FloatAxioms.eqb_spec, ltb_spec, Hb.
  change (Prim2SF zero) with (S754_zero false). unfold SFeqb, SFltb.
  destruct (Prim2SF x) as [s|s| |s mx ex]; simpl; try discriminate; trivial;
    destruct s; discriminate.
Qed.

End Binary64Numbers.

(** ** The gauges and metric cards of the realtime page *)

Section CardFacts.

Import Realtime RealtimeCards.
Local Open Scope float_scope.

(** The smaller of a number and a positive finite bound is a number and
    is at most the bound. *)
Lemma Math_min_bound (x b : float) (m : positive) (e : Z) :
  Prim2SF b = S754_finite false m e ->
  PrimFloat.is_nan x = false ->
  PrimFloat.is_nan (Math_min x b) = false /\ (Math_min x b <=? b) = true.
Proof.
  intros Hb Hx.
  assert (Nb : PrimFloat.is_nan b = false)
    by (apply Prim2SF_is_nan; rewrite Hb; discriminate).
  assert (Lb : (b <=? b) = true).
  { rewrite leb_spec. unfold SFleb. rewrite SFcompare_refl; [reflexivity|].
    rewrite Hb. discriminate. }
  unfold Math_min. rewrite Hx, Nb. simpl.
  destruct (x <? b) eqn:L1; [split; [exact Hx|now apply ltb_leb]|].
  destruct (b <? x) eqn:L2; [split; assumption|].
  destruct (PrimFloat.is_zero x) eqn:Z0; simpl; [|split; assumption].
  rewrite (zero_below_positive x b m e Hb Z0) in L1. discriminate L1.
Qed.

Lemma GaugeCard_percentage (value max : float) (s : bool) (m : positive) (e : Z) :
  Prim2SF max = S754_finite s m e ->
  PrimFloat.is_nan (safeValue (GaugeCard value max)) = false /\
  PrimFloat.is_nan (percentage (GaugeCard value max)) = false /\
  (percentage (GaugeCard value max) <=? 100) = true.
Proof.
  intros Hmax. unfold GaugeCard. cbn [safeValue percentage].
  pose proof (orNumber_zero_number value) as N.
  split; [exact N|].
  apply (Math_min_bound _ 100 7036874417766400 (-46)); [reflexivity|].
  apply (mul_number _ 100 false 7036874417766400 (-46)); [reflexivity|].
  now apply (div_number _ max s m e).
Qed.

(** X18.  Each of the three gauges, for every record and for a missing
    record, shows a value that is a number and a percentage that is a
    number and is at most 100: the ring never overshoots.  Nothing bounds
    the percentage from below: a negative reading gives a negative
    percentage. *)
Theorem gauges_never_overshoot (currentData : option RawPowerData) :
  Forall
    (fun g =>
       PrimFloat.is_nan (safeValue g) = false /\
       PrimFloat.is_nan (percentage g) = false /\
       (percentage g <=? 100) = true)
    [voltageGauge currentData; currentGauge currentData; powerGauge currentData] /\
  percentage (voltageGauge (Some (lowVoltageReading (-25)))) = (-10).
Proof.
  split; [|reflexivity].
  repeat apply Forall_cons; try apply Forall_nil.
  - apply (GaugeCard_percentage _ 250 false 8796093022208000 (-45)). reflexivity.
  - apply (GaugeCard_percentage _ 10 false 5629499534213120 (-49)). reflexivity.
  - apply (GaugeCard_percentage _ 2000 false 8796093022208000 (-42)). reflexivity.
Qed.

(** X19.  The frequency card replaces a missing, zero or NaN frequency by
    50 for the number it shows but by 0 for the status, so it shows
    50 Hz with the status Unstable on the yellow badge; for any other
    frequency it shows the reading itself, and Stable exactly between 49
    and 51 inclusive. *)
Theorem frequency_card_default_mismatch (currentData : option RawPowerData) :
  (Analysis.truthyNumber (numberOf frekuensi currentData) = false ->
   shown (frequencyCard currentData) = 50 /\
   status (frequencyCard currentData) = "Unstable"%string /\
   badge (frequencyCard currentData) = "bg-yellow-100 text-yellow-700"%string) /\
  (Analysis.truthyNumber (numberOf frekuensi currentData) = true ->
   shown (frequencyCard currentData) = numberOf frekuensi currentData /\
   (status (frequencyCard currentData) = "Stable"%string <->
    (49 <=? numberOf frekuensi currentData) = true /\
    (numberOf frekuensi currentData <=? 51) = true)).
Proof.
  unfold frequencyCard, MetricCard, Analysis.orNumber.
  cbn [shown status badge].
  set (f := numberOf frekuensi currentData).
  split; intros T; rewrite !T.
  - repeat split.
  - split; [reflexivity|].
    destruct (49 <=? f), (f <=? 51); simpl; split;
      try discriminate; try reflexivity; intros []; try discriminate; auto.
Qed.

Lemma frequency_card_default_mismatch_witness :
  shown (frequencyCard None) = 50 /\
  status (frequencyCard None) = "Unstable"%string.
Proof.
  destruct (proj1 (frequency_card_default_mismatch None) eq_refl) as (H1 & H2 & _).
  split; [exact H1|exact H2].
Defined.

End CardFacts.

(** ** The analysis page's status and charts *)

Section AnalysisViewFacts.

Import Analysis AnalysisView.
Local Open Scope float_scope.

Variable js : Builtins.

(** X20.  The power-factor status never gets worse when the power factor
    grows: with Fair < Good < Excellent, a power factor that is at most
    another one has a status that is at most the other's; a NaN power
    factor is Fair. *)
Theorem powerFactorStatus_monotonic (pf1 pf2 : float) :
  ((pf1 <=? pf2) = true ->
   exists k1 k2 : nat,
     statusRank (powerFactorStatus pf1) = Some k1 /\
     statusRank (powerFactorStatus pf2) = Some k2 /\
     (k1 <= k2)%nat) /\
  powerFactorStatus nan = "Fair"%string.
Proof.
  split; [|reflexivity].
  intros H. unfold powerFactorStatus.
  assert (J : forall t, (t <=? pf1) = true -> (t <=? pf2) = true)
    by (intros t Ht; exact (leb_trans t pf1 pf2 Ht H)).
  pose proof (J 0.95) as J1. pose proof (J 0.85) as J2.
  destruct (0.95 <=? pf1), (0.85 <=? pf1);
    repeat match goal with
           | K : true = true -> _ |- _ => rewrite (K eq_refl)
           end;
    destruct (0.95 <=? pf2), (0.85 <=? pf2);
    simpl; do 2 eexists; (split; [reflexivity|split; [reflexivity|lia]]).
Qed.

Lemma powerFactorStatus_monotonic_witness :
  exists k1 k2 : nat,
    statusRank (powerFactorStatus 0.9) = Some k1 /\
    statusRank (powerFactorStatus 0.97) = Some k2 /\
    (k1 <= k2)%nat.
Proof.
  apply (proj1 (powerFactorStatus_monotonic 0.9 0.97)). reflexivity.
Defined.

Lemma formatPeak_number (item : JsValue) (p : PeakData) :
  formatPeak js item = Some p -> PrimFloat.is_nan (usage p) = false.
Proof.
  unfold formatPeak. repeat split_innermost; try discriminate;
    intros E; injection E as <-; apply orNumber_zero_number.
Qed.

Lemma formatLoadPattern_number (item : JsValue) (d : LoadPatternDay) :
  formatLoadPattern js item = Some d -> numericDay d.
Proof.
  unfold formatLoadPattern. repeat split_innermost; try discriminate;
    intros E; injection E as <-; repeat split; apply orNumber_zero_number.
Qed.

Lemma fetchPeakUsageData_cases (r : FetchOutcome) (st : State) :
  fetchPeakUsageData js r st = setPeakUsageData DUMMY_PEAK_DATA st \/
  exists res x items formatted,
    r = Some res /\ ok res = true /\ json res = Some (JArray (x :: items)) /\
    mapThrowing (formatPeak js) (x :: items) = Some formatted /\
    fetchPeakUsageData js r st = setPeakUsageData formatted st.
Proof.
  unfold fetchPeakUsageData, fetchPeakUsageData_try.
  destruct r as [res|]; [|now left].
  destruct (ok res) eqn:Hok; cbn [negb]; [|now left].
  destruct (json res) as [[| | | | |[|x items]|]|] eqn:Hj; try (now left).
  destruct (mapThrowing _ _) as [formatted|] eqn:Hm; [|now left].
  right. now exists res, x, items, formatted.
Qed.

Lemma fetchLoadPatternData_cases (r : FetchOutcome) (st : State) :
  fetchLoadPatternData js r st = setLoadPatternData DUMMY_LOAD_PATTERN st \/
  exists res x items formatted,
    r = Some res /\ ok res = true /\ json res = Some (JArray (x :: items)) /\
    mapThrowing (formatLoadPattern js) (x :: items) = Some formatted /\
    fetchLoadPatternData js r st = setLoadPatternData formatted st.
Proof.
  unfold fetchLoadPatternData, fetchLoadPatternData_try.
  destruct r as [res|]; [|now left].
  destruct (ok res) eqn:Hok; cbn [negb]; [|now left].
  destruct (json res) as [[| | | | |[|x items]|]|] eqn:Hj; try (now left).
  destruct (mapThrowing _ _) as [formatted|] eqn:Hm; [|now left].
  right. now exists res, x, items, formatted.
Qed.

Lemma DUMMY_chartable : chartable DUMMY_PEAK_DATA DUMMY_LOAD_PATTERN.
Proof.
  unfold chartable. split; [discriminate|]. split; [discriminate|].
  split; repeat (apply Forall_cons; [repeat split|]); apply Forall_nil.
Qed.

Lemma fetchAllData_chartable (o : Outcomes) (st : State) :
  chartable (peakUsageData (fetchAllData js o st))
            (loadPatternData (fetchAllData js o st)).
Proof.
  destruct DUMMY_chartable as (D1 & D2 & D3 & D4).
  unfold fetchAllData, fetchAllData_try.
  set (s0 := setError None (setLoading true st)).
  generalize s0. clear s0. intros s0.
  assert (P : peakUsageData (fetchPeakUsageData js (peakOutcome o) s0) <> [] /\
              Forall (fun p => PrimFloat.is_nan (usage p) = false)
                     (peakUsageData (fetchPeakUsageData js (peakOutcome o) s0))).
  { destruct (fetchPeakUsageData_cases (peakOutcome o) s0)
      as [->|(res & x & items & formatted & _ & _ & _ & Hm & ->)]; simpl.
    - split; assumption.
    - split.
      + pose proof (mapThrowing_length _ _ _ Hm) as L.
        destruct formatted; [discriminate L|discriminate].
      + apply (mapThrowing_Forall _ _ _ _ formatPeak_number Hm). }
  set (s1 := fetchPeakUsageData js (peakOutcome o) s0) in *.
  assert (L : loadPatternData (fetchLoadPatternData js (loadOutcome o) s1) <> [] /\
              Forall numericDay
                     (loadPatternData (fetchLoadPatternData js (loadOutcome o) s1)) /\
              peakUsageData (fetchLoadPatternData js (loadOutcome o) s1)
              = peakUsageData s1).
  { destruct (fetchLoadPatternData_cases (loadOutcome o) s1)
      as [->|(res & x & items & formatted & _ & _ & _ & Hm & ->)]; simpl.
    - split; [assumption|]. split; [assumption|reflexivity].
    - split; [|split; [|reflexivity]].
      + pose proof (mapThrowing_length _ _ _ Hm) as L.
        destruct formatted; [discriminate L|discriminate].
      + apply (mapThrowing_Forall _ _ _ _ formatLoadPattern_number Hm). }
  set (s2 := fetchLoadPatternData js (loadOutcome o) s1) in *.
  destruct L as (L1 & L2 & L3). destruct P as (P1 & P2). rewrite <- L3 in P1, P2.
  destruct (fetchPowerFactor_sets js (powerFactorOutcome o) s2) as [E3|[x3 E3]];
    rewrite E3;
    [set (s3 := s2)|set (s3 := setPowerFactor x3 s2)];
    (destruct (fetchStatistics_sets js (statisticsOutcome o) s3) as [E4|[x4 E4]];
     rewrite E4; simpl; unfold chartable; auto).
Qed.

(** X21.  From the initial state, after any number of [fetchAllData]
    with any outcomes, both charts have data to draw and every number in
    it is a number: the peak data and the load pattern are never empty,
    no usage is NaN and no morning, afternoon or evening value is NaN. *)
Theorem charts_always_have_numbers (os : list Outcomes) :
  chartable (peakUsageData (fetchAllDataRepeatedly js os initialState))
            (loadPatternData (fetchAllDataRepeatedly js os initialState)).
Proof.
  assert (G : forall os st,
             chartable (peakUsageData st) (loadPatternData st) ->
             chartable (peakUsageData (fetchAllDataRepeatedly js os st))
                       (loadPatternData (fetchAllDataRepeatedly js os st))).
  { clear os. induction os as [|o os IH]; intros st H; simpl; [exact H|].
    apply IH, fetchAllData_chartable. }
  apply G. apply DUMMY_chartable.
Qed.


(** X23.  When the peak data hold a single record, as after a response
    with a one-item array, the chart divides by [length - 1 = 0] and the
    x coordinate of its only point is NaN. *)
Theorem single_record_chart_has_NaN_x (res : Response) (item : JsValue) (st : State) :
  ok res = true -> json res = Some (JArray [item]) ->
  item <> JNull -> item <> JUndefined ->
  exists p,
    peakUsageData (fetchPeakUsageData js (Some res) st) = [p] /\
    peakPoints (peakUsageData (fetchPeakUsageData js (Some res) st))
    = [(nan, peakY p)].
Proof.
  intros Hok Hj N1 N2.
  unfold fetchPeakUsageData, fetchPeakUsageData_try. rewrite Hok, Hj.
  cbn [negb mapThrowing].
  assert (F : exists p, formatPeak js item = Some p).
  { unfold formatPeak, getProp.
    destruct item; try congruence; repeat split_innermost; eauto. }
  destruct F as [p ->]. exists p. split; reflexivity.
Qed.

End AnalysisViewFacts.

Lemma single_record_chart_has_NaN_x_witness :
  exists p,
    AnalysisView.peakPoints
      (Analysis.peakUsageData
         (Analysis.fetchPeakUsageData sampleBuiltins
            (Some {| Analysis.ok := true; Analysis.http_status := 200;
                     Analysis.json := Some (Analysis.JArray [Analysis.JObject [("time", Analysis.JString "18:11");
                                                    ("usage", Analysis.JNumber 365)]]) |})
            Analysis.initialState))
    = [(nan, AnalysisView.peakY p)].
Proof.
  destruct (single_record_chart_has_NaN_x sampleBuiltins
              {| Analysis.ok := true; Analysis.http_status := 200;
                 Analysis.json := Some (Analysis.JArray [Analysis.JObject [("time", Analysis.JString "18:11");
                                                ("usage", Analysis.JNumber 365)]]) |}
              (Analysis.JObject [("time", Analysis.JString "18:11"); ("usage", Analysis.JNumber 365)])
              Analysis.initialState eq_refl eq_refl) as (p & _ & H);
    [discriminate|discriminate|].
  exists p. exact H.
Defined.

(** ** Requests that fail *)

Section FailingRequests.

Local Open Scope float_scope.

Lemma truthy_getProp (data : Analysis.JsValue) (k : string) :
  Analysis.truthy data = true -> exists p, Analysis.getProp data k = Some p.
Proof.
  unfold Analysis.getProp.
  destruct data; try discriminate; intros _; eauto.
  destruct (Analysis.lookup k props); eauto.
Qed.

Lemma orNumber_default_truthy (x : float) :
  Analysis.truthyNumber (Analysis.orNumber x 0.95) = true.
Proof.
  unfold Analysis.orNumber.
  destruct (Analysis.truthyNumber x) eqn:T; [exact T|reflexivity].
Qed.

(** X24.  On the analysis page a power-factor request either delivers a
    truthy [power_factor] or delivers nothing.  When it delivers nothing
    (the request fails, or the body or its [power_factor] is falsy) the
    state is unchanged: there is no fallback value.  When it delivers,
    the stored power factor is the two-decimal rounding of a number that
    is neither NaN nor zero, 0.95 standing in for a [power_factor] that
    converts to NaN or zero, and no other cell is written. *)
Theorem fetchPowerFactor_keeps_or_rounds
    (js : Analysis.Builtins) (r : Analysis.FetchOutcome) (st : Analysis.State) :
  (PowerFactorMissing r -> Analysis.fetchPowerFactor js r st = st) /\
  (forall p,
     PowerFactorDelivers r p ->
     Analysis.fetchPowerFactor js r st =
       Analysis.setPowerFactor
         (Analysis.toFixed2 js (Analysis.orNumber (Analysis.Number js p) 0.95)) st /\
     Analysis.powerFactor (Analysis.fetchPowerFactor js r st) =
       Analysis.toFixed2 js (Analysis.orNumber (Analysis.Number js p) 0.95) /\
     Analysis.truthyNumber (Analysis.orNumber (Analysis.Number js p) 0.95) = true /\
     (Analysis.truthyNumber (Analysis.Number js p) = true ->
      Analysis.powerFactor (Analysis.fetchPowerFactor js r st) =
        Analysis.toFixed2 js (Analysis.Number js p)) /\
     (Analysis.truthyNumber (Analysis.Number js p) = false ->
      Analysis.powerFactor (Analysis.fetchPowerFactor js r st) =
        Analysis.toFixed2 js 0.95)) /\
  (PowerFactorMissing r \/ exists p, PowerFactorDelivers r p).
Proof.
  split; [|split].
  - intros F. unfold Analysis.fetchPowerFactor, Analysis.fetchPowerFactor_try.
    destruct F as [->|(res & -> & [Hk|[Hj|(data & Hj & [Ht|(p & Hp & Ht)])]])];
      trivial.
    + now rewrite Hk.
    + rewrite Hj. now destruct (Analysis.ok res).
    + rewrite Hj, Ht. now destruct (Analysis.ok res).
    + rewrite Hj, Hp, Ht. now destruct (Analysis.ok res), (Analysis.truthy data).
  - intros p (res & data & -> & Hok & Hj & Ht & Hp & Htp).
    unfold Analysis.fetchPowerFactor, Analysis.fetchPowerFactor_try.
    rewrite Hok, Hj, Ht, Hp, Htp. cbn [negb Analysis.powerFactor Analysis.setPowerFactor].
    split; [reflexivity|]. split; [reflexivity|].
    split; [apply orNumber_default_truthy|].
    unfold Analysis.orNumber. split; intros T; now rewrite T.
  - destruct r as [res|]; [|left; left; reflexivity].
    destruct (Analysis.ok res) eqn:Hok; [|left; right; exists res; auto].
    destruct (Analysis.json res) as [data|] eqn:Hj; [|left; right; exists res; auto].
    destruct (Analysis.truthy data) eqn:Ht;
      [|left; right; exists res; split; [reflexivity|]; right; right;
        exists data; auto].
    destruct (truthy_getProp data "power_factor" Ht) as [p Hp].
    destruct (Analysis.truthy p) eqn:Htp.
    + right. exists p, res, data. auto 10.
    + left; right; exists res; split; [reflexivity|]; right; right.
      exists data. split; [exact Hj|]. right. exists p. auto.
Qed.

Lemma fetchPowerFactor_keeps_or_rounds_witness :
  Analysis.powerFactor
    (Analysis.fetchPowerFactor sampleBuiltins
       (powerFactorResponse (Analysis.JNumber 0.87)) Analysis.initialState)
  = 0.87 /\
  Analysis.powerFactor
    (Analysis.fetchPowerFactor sampleBuiltins
       (powerFactorResponse (Analysis.JString "n/a"))
       (Analysis.setPowerFactor 0.8 Analysis.initialState))
  = 0.95 /\
  Analysis.fetchPowerFactor sampleBuiltins http500
    (Analysis.setPowerFactor 0.8 Analysis.initialState)
  = Analysis.setPowerFactor 0.8 Analysis.initialState.
Proof.
  split; [|split].
  - destruct (fetchPowerFactor_keeps_or_rounds sampleBuiltins
                (powerFactorResponse (Analysis.JNumber 0.87)) Analysis.initialState)
      as (_ & D & _).
    destruct (D (Analysis.JNumber 0.87)) as (_ & _ & _ & H & _).
    + unfold PowerFactorDelivers, powerFactorResponse. eexists. eexists.
      repeat split.
    + apply H. reflexivity.
  - destruct (fetchPowerFactor_keeps_or_rounds sampleBuiltins
                (powerFactorResponse (Analysis.JString "n/a"))
                (Analysis.setPowerFactor 0.8 Analysis.initialState))
      as (_ & D & _).
    destruct (D (Analysis.JString "n/a")) as (_ & _ & _ & _ & H).
    + unfold PowerFactorDelivers, powerFactorResponse. eexists. eexists.
      repeat split.
    + apply H. reflexivity.
  - apply (fetchPowerFactor_keeps_or_rounds sampleBuiltins http500
             (Analysis.setPowerFactor 0.8 Analysis.initialState)).
    right. eexists. split; [reflexivity|]. left. reflexivity.
Defined.

(** X25.  On the alerts page a first [fetchAlerts] that fails still
    clears the loading screen, and the page then shows the empty list
    under every filter: a failed request looks the same as a response
    without alerts. *)
Theorem failed_first_fetch_shows_no_alerts
    (r : Alerts.FetchOutcome (option (list Alerts.Alert))) (f : Alerts.Filter) :
  RequestFails r ->
  Alerts.loading (Alerts.fetchAlerts r Alerts.initialState) = false /\
  Alerts.filteredAlerts
    (Alerts.setFilter f (Alerts.fetchAlerts r Alerts.initialState))
  = Alerts.Value (Some []) /\
  Alerts.filteredAlerts
    (Alerts.setFilter f
       (Alerts.fetchAlerts
          (Some {| Alerts.ok := true; Alerts.http_status := 200;
                   Alerts.json := Some {| Alerts.success := true;
                                          Alerts.data := Some [] |} |})
          Alerts.initialState))
  = Alerts.Value (Some []).
Proof.
  intros F. unfold Alerts.fetchAlerts, Alerts.fetchAlerts_try, Alerts.filteredAlerts.
  destruct F as [->|(res & -> & [Hj|(j & Hj & Hs)])].
  - now destruct f.
  - rewrite Hj. now destruct f.
  - rewrite Hj, Hs. now destruct f.
Qed.

Lemma failed_first_fetch_shows_no_alerts_witness :
  Alerts.filteredAlerts
    (Alerts.setFilter Alerts.Critical (Alerts.fetchAlerts None Alerts.initialState))
  = Alerts.Value (Some []).
Proof.
  apply (failed_first_fetch_shows_no_alerts None Alerts.Critical).
  now left.
Defined.

(** X26.  On the reports page, when the requests for the monthly reports
    and for the current month both fail, every metric computed after
    [fetchData] is zero, whatever was stored before and whatever the
    statistics request does. *)
Theorem failed_reports_give_zero_metrics
    (o : ReportsPage.Outcomes) (st : ReportsPage.State) :
  ReportFails (ReportsPage.monthlyOutcome o) ->
  ReportFails (ReportsPage.currentOutcome o) ->
  ReportsPage.calculateMetrics (ReportsPage.fetchData o st) =
    {| ReportsPage.monthlyEnergy := 0; ReportsPage.energyChange := 0;
       ReportsPage.estimatedCostIDR := 0; ReportsPage.estimatedCostUSD := 0;
       ReportsPage.efficiencyScore := 0 |}.
Proof.
  intros Fm Fc.
  assert (M : forall s, ReportsPage.fetchMonthly (ReportsPage.monthlyOutcome o) s
                        = ReportsPage.setMonthlyReports [] s).
  { intros s. unfold ReportsPage.fetchMonthly, ReportsPage.fetchMonthly_try.
    destruct Fm as [->|(res & -> & [Hk|[Hj|(j & Hj & [Hs|Hd])]])]; trivial.
    - now rewrite Hk.
    - rewrite Hj. now destruct (Alerts.ok res).
    - rewrite Hj, Hs. now destruct (Alerts.ok res).
    - rewrite Hj, Hd. now destruct (Alerts.ok res), (Alerts.success j). }
  assert (C : forall s,
             ReportsPage.fetchCurrent (ReportsPage.nowMonth o) (ReportsPage.nowYear o)
               (ReportsPage.currentOutcome o) s
             = ReportsPage.setCurrentMonth
                 (Some (ReportsPage.emptyCurrentMonth
                          (ReportsPage.nowMonth o) (ReportsPage.nowYear o))) s).
  { intros s. unfold ReportsPage.fetchCurrent, ReportsPage.fetchCurrent_try.
    destruct Fc as [->|(res & -> & [Hk|[Hj|(j & Hj & [Hs|Hd])]])]; trivial.
    - now rewrite Hk.
    - rewrite Hj. now destruct (Alerts.ok res).
    - rewrite Hj, Hs. now destruct (Alerts.ok res).
    - rewrite Hj, Hd. now destruct (Alerts.ok res), (Alerts.success j). }
  unfold ReportsPage.fetchData. rewrite M, C.
  unfold ReportsPage.fetchStats, ReportsPage.fetchStats_try.
  repeat split_innermost; reflexivity.
Qed.

Lemma failed_reports_give_zero_metrics_witness :
  ReportsPage.calculateMetrics
    (ReportsPage.fetchData
       {| ReportsPage.monthlyOutcome := None; ReportsPage.currentOutcome := None;
          ReportsPage.statsOutcome := None; ReportsPage.nowMonth := 1;
          ReportsPage.nowYear := 2025 |}
       {| ReportsPage.monthlyReports := [sampleReport 12 2024 275.5];
          ReportsPage.currentMonth :=
            Some {| ReportsPage.cm_month := 1; ReportsPage.cm_year := 2025;
                    ReportsPage.cm_total_energy := 300;
                    ReportsPage.cm_avg_daily_energy := 9;
                    ReportsPage.cm_peak_date := None |};
          ReportsPage.statistics := None; ReportsPage.loading := false;
          ReportsPage.generatingReport := false |}) =
    {| ReportsPage.monthlyEnergy := 0; ReportsPage.energyChange := 0;
       ReportsPage.estimatedCostIDR := 0; ReportsPage.estimatedCostUSD := 0;
       ReportsPage.efficiencyScore := 0 |}.
Proof.
  apply failed_reports_give_zero_metrics; now left.
Defined.

End FailingRequests.

(** ** Refreshes and constants *)

Section RefreshFacts.

Local Open Scope float_scope.

(** X27.  The two requests of the alerts page's 30-second refresh write
    different state cells, so the order in which they settle does not
    matter; when both fail, the refresh keeps the alerts and the summary
    it had and only clears [loading]. *)
Theorem alerts_refresh_commutes
    (ra : Alerts.FetchOutcome (option (list Alerts.Alert)))
    (rs : Alerts.FetchOutcome (option Alerts.AlertSummary))
    (st : Alerts.State) :
  Alerts.fetchSummary rs (Alerts.fetchAlerts ra st)
  = Alerts.fetchAlerts ra (Alerts.fetchSummary rs st) /\
  (RequestFails ra -> RequestFails rs ->
   Alerts.fetchSummary rs (Alerts.fetchAlerts ra st) = Alerts.setLoading false st).
Proof.
  split.
  - unfold Alerts.fetchSummary, Alerts.fetchSummary_try, Alerts.fetchAlerts,
      Alerts.fetchAlerts_try.
    repeat split_innermost; reflexivity.
  - intros Fa Fs.
    unfold Alerts.fetchSummary, Alerts.fetchSummary_try, Alerts.fetchAlerts,
      Alerts.fetchAlerts_try.
    destruct Fa as [->|(res & -> & [Hj|(j & Hj & Hs)])];
      destruct Fs as [->|(res' & -> & [Hj'|(j' & Hj' & Hs')])];
      repeat match goal with
             | H : Alerts.json _ = _ |- _ => rewrite H
             | H : Alerts.success _ = _ |- _ => rewrite H
             end; reflexivity.
Qed.

Lemma alerts_refresh_commutes_witness :
  Alerts.fetchSummary None (Alerts.fetchAlerts None Alerts.initialState)
  = Alerts.setLoading false Alerts.initialState.
Proof.
  apply (alerts_refresh_commutes None None Alerts.initialState); now left.
Defined.

(** X28.  For a record that is missing, or whose reading is zero or NaN,
    the power-factor card shows 0 with the status Poor on the yellow
    badge and the energy card shows 0 kWh with the status Efficient on
    the green badge.  For any other reading the cards show the reading;
    the power factor is Good only strictly above 0.8 and the energy is
    Efficient only strictly below 2. *)
Theorem metric_cards_defaults (currentData : option Realtime.RawPowerData) :
  (Analysis.truthyNumber (RealtimeCards.numberOf Realtime.pf currentData) = false ->
   RealtimeCards.powerFactorCard currentData =
     {| RealtimeCards.shown := 0; RealtimeCards.status := "Poor";
        RealtimeCards.badge := "bg-yellow-100 text-yellow-700" |}) /\
  (Analysis.truthyNumber (RealtimeCards.numberOf Realtime.energi_kwh currentData)
   = false ->
   RealtimeCards.energyCard currentData =
     {| RealtimeCards.shown := 0; RealtimeCards.status := "Efficient";
        RealtimeCards.badge := "bg-green-100 text-green-700" |}) /\
  (Analysis.truthyNumber (RealtimeCards.numberOf Realtime.pf currentData) = true ->
   RealtimeCards.shown (RealtimeCards.powerFactorCard currentData)
   = RealtimeCards.numberOf Realtime.pf currentData /\
   (RealtimeCards.status (RealtimeCards.powerFactorCard currentData) = "Good"%string
    <-> (0.8 <? RealtimeCards.numberOf Realtime.pf currentData) = true)) /\
  (Analysis.truthyNumber (RealtimeCards.numberOf Realtime.energi_kwh currentData)
   = true ->
   RealtimeCards.shown (RealtimeCards.energyCard currentData)
   = RealtimeCards.numberOf Realtime.energi_kwh currentData /\
   (RealtimeCards.status (RealtimeCards.energyCard currentData) = "Efficient"%string
    <-> (RealtimeCards.numberOf Realtime.energi_kwh currentData <? 2) = true)) /\
  RealtimeCards.status
    (RealtimeCards.powerFactorCard (Some (powerFactorReading 0.8))) = "Poor"%string /\
  RealtimeCards.status
    (RealtimeCards.energyCard (Some (energyReading 2))) = "High"%string.
Proof.
  unfold RealtimeCards.powerFactorCard, RealtimeCards.energyCard,
    RealtimeCards.MetricCard, Analysis.orNumber.
  cbn [RealtimeCards.shown RealtimeCards.status RealtimeCards.badge].
  set (p := RealtimeCards.numberOf Realtime.pf currentData).
  set (e := RealtimeCards.numberOf Realtime.energi_kwh currentData).
  split; [intros T; rewrite !T; reflexivity|].
  split; [intros T; rewrite !T; reflexivity|].
  split; [|split; [|split; reflexivity]]; intros T; rewrite !T;
    (split; [reflexivity|]).
  - destruct (0.8 <? p); split; try discriminate; reflexivity.
  - destruct (e <? 2); split; try discriminate; reflexivity.
Qed.

Lemma metric_cards_defaults_witness :
  RealtimeCards.energyCard None =
    {| RealtimeCards.shown := 0; RealtimeCards.status := "Efficient";
       RealtimeCards.badge := "bg-green-100 text-green-700" |}.
Proof.
  apply (proj1 (proj2 (metric_cards_defaults None))). reflexivity.
Defined.

Lemma fetchAllData_trend (js : Analysis.Builtins) (o : Analysis.Outcomes)
    (st : Analysis.State) :
  constantTrend (Analysis.statistics st) ->
  constantTrend (Analysis.statistics (Analysis.fetchAllData js o st)).
Proof.
  intros H. unfold Analysis.fetchAllData, Analysis.fetchAllData_try.
  destruct (fetchPeakUsageData_sets js (Analysis.peakOutcome o)) as [d1 E1].
  destruct (fetchLoadPatternData_sets js (Analysis.loadOutcome o)) as [d2 E2].
  rewrite !E1, !E2.
  set (s2 := Analysis.setLoadPatternData d2 _).
  assert (H2 : constantTrend (Analysis.statistics s2)) by exact H.
  clearbody s2.
  destruct (fetchPowerFactor_sets js (Analysis.powerFactorOutcome o) s2)
    as [E3|[x3 E3]]; rewrite E3;
    [set (s3 := s2)|set (s3 := Analysis.setPowerFactor x3 s2)];
    assert (H3 : constantTrend (Analysis.statistics s3)) by exact H2;
    clearbody s3;
    unfold Analysis.fetchStatistics, Analysis.fetchStatistics_try;
    repeat split_innermost; simpl; try exact H3; repeat split.
Qed.

(** X29.  On the analysis page the efficiency trend and the three card
    descriptions do not come from the backend: after any number of
    [fetchAllData] with any outcomes the trend is still "+5%",
    "Improvement this month", and the descriptions of the peak hours and
    of the savings potential are the initial ones. *)
Theorem efficiency_trend_is_constant
    (js : Analysis.Builtins) (os : list Analysis.Outcomes) :
  constantTrend
    (Analysis.statistics (fetchAllDataRepeatedly js os Analysis.initialState)).
Proof.
  assert (G : forall os st,
             constantTrend (Analysis.statistics st) ->
             constantTrend
               (Analysis.statistics (fetchAllDataRepeatedly js os st))).
  { clear os. induction os as [|o os IH]; intros st H; simpl; [exact H|].
    apply IH, fetchAllData_trend, H. }
  apply G. repeat split.
Qed.

End RefreshFacts.
